(** * DynamicRPC: the activity builder and the rotation timers

    A shallow embedding of [src/userplugins/DynamicRPC/index.tsx].

    The plugin keeps seven module-level variables (two rotation indices, two
    interval handles, the two last-seen line pools and the NOW-mode start
    time), reads its configuration from [settings.store], and talks to the
    host through [setInterval]/[clearInterval], [Math.random], [Date],
    [ApplicationAssetUtils.fetchAssetIds] and [FluxDispatcher.dispatch].

    The embedding threads one [World] record (the module variables together
    with the observable part of the host: the timer table, the log of asset
    requests and the log of dispatched payloads) through a small
    state-and-exception monad.  An [async] function is run to completion in
    one step: a rejected promise is the [Thrown] outcome, and a caller that
    drops the promise ([start], [stop] and the timer callbacks do) keeps the
    state changes and ignores the outcome. *)

From Stdlib Require Import Ascii.
From stdpp Require Import base numbers strings list gmap fin_maps.

Set Warnings "-register-all".
Set Default Proof Using "Type".

(** ** JavaScript values *)

(** The values the activity object can hold.  Numbers are the integers the
    plugin works with (enum members, millisecond instants, party sizes). *)
Inductive JsVal : Type :=
| VUndefined
| VString (s : string)
| VNumber (n : Z)
| VArray (items : list JsVal)
| VObject (fields : gmap string JsVal).

(** An [Activity] is a JavaScript object: a finite map from property names
    to values. *)
Abbreviation Activity := (gmap string JsVal).

Module Js.

(** [Boolean(v)]: [undefined], the empty string and [0] are falsy; arrays
    and objects are always truthy. *)
Definition truthy (v : JsVal) : bool :=
  match v with
  | VUndefined => false
  | VString s => negb (bool_decide (s = ""))
  | VNumber n => negb (n =? 0)%Z
  | VArray _ => true
  | VObject _ => true
  end.

(** [v.length === 0]: strings and arrays have a length, numbers have none,
    and an object has one only if it carries a [length] property. *)
Definition lengthIsZero (v : JsVal) : bool :=
  match v with
  | VUndefined => false
  | VString s => bool_decide (String.length s = 0%nat)
  | VNumber _ => false
  | VArray items => bool_decide (length items = 0%nat)
  | VObject fields =>
      match fields !! "length" with
      | Some (VNumber 0) => true
      | _ => false
      end
  end.

(** An optional string setting ([string | undefined]) as a value. *)
Definition ofString (o : option string) : JsVal :=
  match o with Some s => VString s | None => VUndefined end.

(** An optional number setting ([number | undefined]) as a value. *)
Definition ofNumber (o : option Z) : JsVal :=
  match o with Some n => VNumber n | None => VUndefined end.

(** Truthiness of an optional string: present and non-empty. *)
Definition truthyStr (o : option string) : bool := truthy (ofString o).

(** Truthiness of an optional number: present and non-zero. *)
Definition truthyNum (o : option Z) : bool := truthy (ofNumber o).

(** [a || b] on optional strings. *)
Definition orElse (a b : option string) : option string :=
  if truthyStr a then a else b.

(** [arr[i]] for a number [i]: [undefined] outside the array. *)
Definition index {A} (arr : list A) (i : Z) : option A :=
  if (i <? 0)%Z then None else arr !! Z.to_nat i.

(** [s.split('\n')].  The empty string splits into one empty piece. *)
Fixpoint split_nl (s : string) : list string :=
  match s with
  | EmptyString => [""]
  | String c rest =>
      if bool_decide (c = "010"%char) then "" :: split_nl rest
      else match split_nl rest with
           | piece :: pieces => String c piece :: pieces
           | [] => [String c ""]
           end
  end.

(** [s.trimStart()], on the ASCII white space and line terminators. *)
Fixpoint trimStart (s : string) : string :=
  match s with
  | EmptyString => ""
  | String c rest => if Ascii.is_space c then trimStart rest else s
  end.

(** [s.trim()]. *)
Definition trim (s : string) : string :=
  String.rev (trimStart (String.rev (trimStart s))).

(** [Math.floor(Math.random() * n)], where [Math.random()] returned
    [u / 2^53] for the 53-bit integer [u mod 2^53]; the product and the
    floor are exact. *)
Definition floorRandomTimes (u n : Z) : Z :=
  Z.div (Z.modulo u (2 ^ 53) * n) (2 ^ 53).

End Js.

(** Modelled from the spec: [isTruthy] of [@utils/guards] is imported by the
    plugin but is not among the sources.  The spec describes the two filtered
    lists as the non-empty button labels and the non-empty button URLs, so
    [isTruthy] keeps exactly the truthy items. *)
Definition isTruthy (v : JsVal) : bool := Js.truthy v.

(** Modelled from the spec: the [ActivityType] enum of
    [@vencord/discord-types/enums] is not among the sources.  The spec calls
    "playing" the zero/default discriminator; "streaming" is the next
    member. *)
Module ActivityType.
Definition PLAYING : Z := 0.
Definition STREAMING : Z := 1.
End ActivityType.

(** ** The configuration *)

(** [export const enum TimestampMode]. *)
Inductive TimestampMode := NONE | NOW | TIME | CUSTOM.

(** The rotation mode of a lane: ["disable" | "yes" | "no"], where "yes" is
    random rotation and "no" is sequential rotation. *)
Inductive RandomMode := ModeDisable | ModeYes | ModeNo.

Global Instance TimestampMode_eq_dec : EqDecision TimestampMode.
Proof. solve_decision. Defined.

Global Instance RandomMode_eq_dec : EqDecision RandomMode.
Proof. solve_decision. Defined.

(** The private settings of the plugin; every field is optional. *)
Record Settings := {
  appID : option string;
  appName : option string;
  details : option string;
  detailsRandomLines : option string;
  detailsRandomMode : option RandomMode;
  detailsRandomInterval : option Z;
  detailsURL : option string;
  state : option string;
  stateRandomLines : option string;
  stateRandomMode : option RandomMode;
  stateRandomInterval : option Z;
  stateURL : option string;
  type : option Z;
  streamLink : option string;
  timestampMode : option TimestampMode;
  startTime : option Z;
  endTime : option Z;
  imageBig : option string;
  imageBigURL : option string;
  imageBigTooltip : option string;
  imageSmall : option string;
  imageSmallURL : option string;
  imageSmallTooltip : option string;
  buttonOneText : option string;
  buttonOneURL : option string;
  buttonTwoText : option string;
  buttonTwoURL : option string;
  partySize : option Z;
  partyMaxSize : option Z
}.

(** What the host supplies to one run of plugin code: the settings snapshot,
    the clock, the random source and the asset service.  [Math_random k] is
    the 53-bit integer behind the [k]-th call of [Math.random()];
    [fetchAssetIds id key] is [None] when the request rejects and otherwise
    the first asset id of the answer ([undefined] when there is none). *)
Record Env := {
  store : Settings;
  Date_now : Z;
  getHours : Z;
  getMinutes : Z;
  getSeconds : Z;
  Math_random : nat → Z;
  fetchAssetIds : option string → string → option (option string)
}.

(** ** The two rotation lanes *)

Inductive Lane := Details | State.

Global Instance Lane_eq_dec : EqDecision Lane.
Proof. solve_decision. Defined.

Definition otherLane (l : Lane) : Lane :=
  match l with Details => State | State => Details end.

(** The per-lane settings, by lane. *)
Definition randomMode (l : Lane) (cfg : Settings) : option RandomMode :=
  match l with Details => detailsRandomMode cfg | State => stateRandomMode cfg end.

Definition randomLines (l : Lane) (cfg : Settings) : option string :=
  match l with Details => detailsRandomLines cfg | State => stateRandomLines cfg end.

Definition randomInterval (l : Lane) (cfg : Settings) : option Z :=
  match l with Details => detailsRandomInterval cfg | State => stateRandomInterval cfg end.

Definition staticText (l : Lane) (cfg : Settings) : option string :=
  match l with Details => details cfg | State => state cfg end.

(** [mode && mode !== "disable"]. *)
Definition modeEnabled (m : option RandomMode) : bool :=
  match m with
  | Some ModeYes | Some ModeNo => true
  | Some ModeDisable | None => false
  end.

(** [raw.split('\n').filter(line => line.trim() !== '')]. *)
Definition parseLines (raw : string) : list string :=
  filter (λ line, Js.trim line ≠ "") (Js.split_nl raw).

(** ** The world *)

(** What a callback registered with [setInterval] closes over: its lane, and
    the mode and the line pool that were current when it was armed.  The
    table also keeps the delay in milliseconds and the instant of arming,
    which together fix the instants at which the timer is due. *)
Record Timer := {
  timerLane : Lane;
  timerMode : option RandomMode;
  timerLines : list string;
  timerDelay : Z;
  timerArmedAt : Z
}.

(** The [activity] member of a dispatched [LOCAL_ACTIVITY_UPDATE]. *)
Inductive Payload :=
| PayloadNull
| PayloadUndefined
| PayloadActivity (activity : Activity).

Record World := {
  (* the module-level variables of the plugin *)
  detailsCurrentIndex : Z;
  stateCurrentIndex : Z;
  detailsIntervalId : option positive;
  stateIntervalId : option positive;
  lastDetailsLines : list string;
  lastStateLines : list string;
  nowModeStartTime : option Z;
  (* the host *)
  timers : gmap positive Timer;
  nextTimerId : positive;
  randomCalls : nat;
  assetCalls : list (option string * string);
  dispatched : list Payload
}.

(** The state right after the module is loaded. *)
Definition initialWorld : World := {|
  detailsCurrentIndex := 0;
  stateCurrentIndex := 0;
  detailsIntervalId := None;
  stateIntervalId := None;
  lastDetailsLines := [];
  lastStateLines := [];
  nowModeStartTime := None;
  timers := ∅;
  nextTimerId := 1;
  randomCalls := 0;
  assetCalls := [];
  dispatched := []
|}.

(** Assignments to the module variables and to the host tables. *)
Definition setDetailsCurrentIndex (v : Z) (w : World) : World :=
  {| detailsCurrentIndex := v; stateCurrentIndex := stateCurrentIndex w;
     detailsIntervalId := detailsIntervalId w; stateIntervalId := stateIntervalId w;
     lastDetailsLines := lastDetailsLines w; lastStateLines := lastStateLines w;
     nowModeStartTime := nowModeStartTime w;
     timers := timers w; nextTimerId := nextTimerId w; randomCalls := randomCalls w;
     assetCalls := assetCalls w; dispatched := dispatched w |}.

Definition setStateCurrentIndex (v : Z) (w : World) : World :=
  {| detailsCurrentIndex := detailsCurrentIndex w; stateCurrentIndex := v;
     detailsIntervalId := detailsIntervalId w; stateIntervalId := stateIntervalId w;
     lastDetailsLines := lastDetailsLines w; lastStateLines := lastStateLines w;
     nowModeStartTime := nowModeStartTime w;
     timers := timers w; nextTimerId := nextTimerId w; randomCalls := randomCalls w;
     assetCalls := assetCalls w; dispatched := dispatched w |}.

Definition setDetailsIntervalId (v : option positive) (w : World) : World :=
  {| detailsCurrentIndex := detailsCurrentIndex w; stateCurrentIndex := stateCurrentIndex w;
     detailsIntervalId := v; stateIntervalId := stateIntervalId w;
     lastDetailsLines := lastDetailsLines w; lastStateLines := lastStateLines w;
     nowModeStartTime := nowModeStartTime w;
     timers := timers w; nextTimerId := nextTimerId w; randomCalls := randomCalls w;
     assetCalls := assetCalls w; dispatched := dispatched w |}.

Definition setStateIntervalId (v : option positive) (w : World) : World :=
  {| detailsCurrentIndex := detailsCurrentIndex w; stateCurrentIndex := stateCurrentIndex w;
     detailsIntervalId := detailsIntervalId w; stateIntervalId := v;
     lastDetailsLines := lastDetailsLines w; lastStateLines := lastStateLines w;
     nowModeStartTime := nowModeStartTime w;
     timers := timers w; nextTimerId := nextTimerId w; randomCalls := randomCalls w;
     assetCalls := assetCalls w; dispatched := dispatched w |}.

Definition setLastDetailsLines (v : list string) (w : World) : World :=
  {| detailsCurrentIndex := detailsCurrentIndex w; stateCurrentIndex := stateCurrentIndex w;
     detailsIntervalId := detailsIntervalId w; stateIntervalId := stateIntervalId w;
     lastDetailsLines := v; lastStateLines := lastStateLines w;
     nowModeStartTime := nowModeStartTime w;
     timers := timers w; nextTimerId := nextTimerId w; randomCalls := randomCalls w;
     assetCalls := assetCalls w; dispatched := dispatched w |}.

Definition setLastStateLines (v : list string) (w : World) : World :=
  {| detailsCurrentIndex := detailsCurrentIndex w; stateCurrentIndex := stateCurrentIndex w;
     detailsIntervalId := detailsIntervalId w; stateIntervalId := stateIntervalId w;
     lastDetailsLines := lastDetailsLines w; lastStateLines := v;
     nowModeStartTime := nowModeStartTime w;
     timers := timers w; nextTimerId := nextTimerId w; randomCalls := randomCalls w;
     assetCalls := assetCalls w; dispatched := dispatched w |}.

Definition setNowModeStartTime (v : option Z) (w : World) : World :=
  {| detailsCurrentIndex := detailsCurrentIndex w; stateCurrentIndex := stateCurrentIndex w;
     detailsIntervalId := detailsIntervalId w; stateIntervalId := stateIntervalId w;
     lastDetailsLines := lastDetailsLines w; lastStateLines := lastStateLines w;
     nowModeStartTime := v;
     timers := timers w; nextTimerId := nextTimerId w; randomCalls := randomCalls w;
     assetCalls := assetCalls w; dispatched := dispatched w |}.

Definition setTimers (v : gmap positive Timer) (w : World) : World :=
  {| detailsCurrentIndex := detailsCurrentIndex w; stateCurrentIndex := stateCurrentIndex w;
     detailsIntervalId := detailsIntervalId w; stateIntervalId := stateIntervalId w;
     lastDetailsLines := lastDetailsLines w; lastStateLines := lastStateLines w;
     nowModeStartTime := nowModeStartTime w;
     timers := v; nextTimerId := nextTimerId w; randomCalls := randomCalls w;
     assetCalls := assetCalls w; dispatched := dispatched w |}.

Definition setNextTimerId (v : positive) (w : World) : World :=
  {| detailsCurrentIndex := detailsCurrentIndex w; stateCurrentIndex := stateCurrentIndex w;
     detailsIntervalId := detailsIntervalId w; stateIntervalId := stateIntervalId w;
     lastDetailsLines := lastDetailsLines w; lastStateLines := lastStateLines w;
     nowModeStartTime := nowModeStartTime w;
     timers := timers w; nextTimerId := v; randomCalls := randomCalls w;
     assetCalls := assetCalls w; dispatched := dispatched w |}.

Definition setRandomCalls (v : nat) (w : World) : World :=
  {| detailsCurrentIndex := detailsCurrentIndex w; stateCurrentIndex := stateCurrentIndex w;
     detailsIntervalId := detailsIntervalId w; stateIntervalId := stateIntervalId w;
     lastDetailsLines := lastDetailsLines w; lastStateLines := lastStateLines w;
     nowModeStartTime := nowModeStartTime w;
     timers := timers w; nextTimerId := nextTimerId w; randomCalls := v;
     assetCalls := assetCalls w; dispatched := dispatched w |}.

Definition setAssetCalls (v : list (option string * string)) (w : World) : World :=
  {| detailsCurrentIndex := detailsCurrentIndex w; stateCurrentIndex := stateCurrentIndex w;
     detailsIntervalId := detailsIntervalId w; stateIntervalId := stateIntervalId w;
     lastDetailsLines := lastDetailsLines w; lastStateLines := lastStateLines w;
     nowModeStartTime := nowModeStartTime w;
     timers := timers w; nextTimerId := nextTimerId w; randomCalls := randomCalls w;
     assetCalls := v; dispatched := dispatched w |}.

Definition setDispatched (v : list Payload) (w : World) : World :=
  {| detailsCurrentIndex := detailsCurrentIndex w; stateCurrentIndex := stateCurrentIndex w;
     detailsIntervalId := detailsIntervalId w; stateIntervalId := stateIntervalId w;
     lastDetailsLines := lastDetailsLines w; lastStateLines := lastStateLines w;
     nowModeStartTime := nowModeStartTime w;
     timers := timers w; nextTimerId := nextTimerId w; randomCalls := randomCalls w;
     assetCalls := assetCalls w; dispatched := v |}.

(** The module variables of a lane, by lane. *)
Definition currentIndex (l : Lane) (w : World) : Z :=
  match l with Details => detailsCurrentIndex w | State => stateCurrentIndex w end.

Definition intervalId (l : Lane) (w : World) : option positive :=
  match l with Details => detailsIntervalId w | State => stateIntervalId w end.

Definition lastLines (l : Lane) (w : World) : list string :=
  match l with Details => lastDetailsLines w | State => lastStateLines w end.

Definition setCurrentIndex (l : Lane) (v : Z) (w : World) : World :=
  match l with Details => setDetailsCurrentIndex v w | State => setStateCurrentIndex v w end.

Definition setIntervalId (l : Lane) (v : option positive) (w : World) : World :=
  match l with Details => setDetailsIntervalId v w | State => setStateIntervalId v w end.

Definition setLastLines (l : Lane) (v : list string) (w : World) : World :=
  match l with Details => setLastDetailsLines v w | State => setLastStateLines v w end.

(** ** The monad of plugin code *)

(** How a call ends: it returns a value, or it throws (for an [async]
    function: its promise rejects). *)
Inductive Outcome (A : Type) : Type :=
| Returned (a : A)
| Thrown.
Global Arguments Returned {A} a.
Global Arguments Thrown {A}.

Definition M (A : Type) : Type := World → Outcome A * World.

Global Instance M_ret : MRet M := λ A a w, (Returned a, w).

Global Instance M_bind : MBind M := λ A B f m w,
  match m w with
  | (Returned a, w') => f a w'
  | (Thrown, w') => (Thrown, w')
  end.

Definition gets {A} (f : World → A) : M A := λ w, (Returned (f w), w).

Definition modify (f : World → World) : M unit := λ w, (Returned (), f w).

(** A call of an [async] function whose promise is dropped: the caller goes
    on whatever the outcome. *)
Definition detach {A} (m : M A) : M unit := λ w, (Returned (), (m w).2).

(** The state a piece of plugin code leaves behind. *)
Definition exec {A} (m : M A) (w : World) : World := (m w).2.

(** ** Host services *)

(** [setInterval(callback, delay)]: a fresh handle. *)
Definition setInterval (t : Timer) : M positive := λ w,
  let h := nextTimerId w in
  (Returned h, setNextTimerId (Pos.succ h) (setTimers (<[h := t]> (timers w)) w)).

(** [clearInterval(h)]. *)
Definition clearInterval (h : positive) : M unit :=
  modify (λ w, setTimers (delete h (timers w)) w).

(** [Math.floor(Math.random() * n)]. *)
Definition floorRandom (env : Env) (n : Z) : M Z := λ w,
  (Returned (Js.floorRandomTimes (Math_random env (randomCalls w)) n),
   setRandomCalls (S (randomCalls w)) w).

(** [FluxDispatcher.dispatch({ type: "LOCAL_ACTIVITY_UPDATE", activity, ... })]. *)
Definition dispatch (p : Payload) : M unit :=
  modify (λ w, setDispatched (dispatched w ++ [p]) w).

(** [getApplicationAsset], lines 107-109: one request to the asset service
    for [settings.store.appID] and the key; a rejected request rejects the
    caller. *)
Definition getApplicationAsset (env : Env) (key : string) : M (option string) := λ w,
  let w' := setAssetCalls (assetCalls w ++ [(appID (store env), key)]) w in
  match fetchAssetIds env (appID (store env)) key with
  | Some id => (Returned id, w')
  | None => (Thrown, w')
  end.

(** ** The rotation timers *)

(** One [if] of [clearRotationIntervals], lines 55-58 and 59-62: a lane
    that holds a handle cancels it and forgets it.  Handles are positive,
    hence truthy. *)
Definition clearLane (l : Lane) : M unit :=
  id ← gets (intervalId l);
  match id with
  | Some h => clearInterval h ≫= λ _, modify (setIntervalId l None)
  | None => mret ()
  end.

(** [clearRotationIntervals], lines 54-63. *)
Definition clearRotationIntervals : M unit :=
  clearLane Details ≫= λ _, clearLane State.

(** The arming test of a lane, lines 71 and 89:
    [mode && mode !== "disable" && lines && interval && interval > 0]. *)
Definition canArm (l : Lane) (cfg : Settings) : bool :=
  modeEnabled (randomMode l cfg)
  && Js.truthyStr (randomLines l cfg)
  && Js.truthyNum (randomInterval l cfg)
  && bool_decide (0 < default 0 (randomInterval l cfg))%Z.

(** One lane of [setupRotationIntervals], lines 71-86 and 89-104: when the
    test passes and more than one line is left, the pool is recorded and a
    repeating timer is armed.  The callback closes over the mode and the
    pool; the rotation index is not assigned here. *)
Definition setupLane (env : Env) (l : Lane) : M unit :=
  let cfg := store env in
  if canArm l cfg then
    let lines := parseLines (default "" (randomLines l cfg)) in
    if bool_decide (1 < length lines)%nat then
      _ ← modify (setLastLines l lines);
      h ← setInterval {| timerLane := l;
                         timerMode := randomMode l cfg;
                         timerLines := lines;
                         timerDelay := (default 0 (randomInterval l cfg) * 1000)%Z;
                         timerArmedAt := Date_now env |};
      modify (setIntervalId l (Some h))
    else mret ()
  else mret ().

(** [setupRotationIntervals], lines 65-105. *)
Definition setupRotationIntervals (env : Env) : M unit :=
  _ ← clearRotationIntervals;
  _ ← setupLane env Details;
  setupLane env State.

(** ** The activity builder *)

(** [last.every((v, i) => v === lines[i])], counting [i] from [start]. *)
Fixpoint everySame (last lines : list string) (start : nat) : bool :=
  match last with
  | [] => true
  | v :: rest =>
      match lines !! start with
      | Some line => bool_decide (v = line) && everySame rest lines (S start)
      | None => false
      end
  end.

(** The change test of lines 192 and 211:
    [last.length !== lines.length || !last.every((v, i) => v === lines[i])]. *)
Definition poolChanged (last lines : list string) : bool :=
  negb (bool_decide (length last = length lines)) || negb (everySame last lines 0).

(** The text of one lane, lines 187-204 and 206-223.  With rotation enabled
    and a non-empty pool, a changed pool is recorded and the index reset;
    then random mode draws a line and sequential mode takes the line at the
    index modulo the pool length.  Otherwise the static text is used. *)
Definition resolveLane (env : Env) (l : Lane) : M (option string) :=
  let cfg := store env in
  if modeEnabled (randomMode l cfg) && Js.truthyStr (randomLines l cfg) then
    let lines := parseLines (default "" (randomLines l cfg)) in
    if bool_decide (0 < length lines)%nat then
      last ← gets (lastLines l);
      _ ← (if poolChanged last lines
           then modify (setLastLines l lines) ≫= λ _, modify (setCurrentIndex l 0)
           else mret ());
      if bool_decide (randomMode l cfg = Some ModeYes) then
        r ← floorRandom env (Z.of_nat (length lines));
        mret (Js.index lines r)
      else
        i ← gets (currentIndex l);
        mret (Js.index lines (Z.rem i (Z.of_nat (length lines))))
    else mret (staticText l cfg)
  else mret (staticText l cfg).

(** The object literal of lines 225-232. *)
Definition baseActivity (cfg : Settings) (finalDetails finalState : option string) : Activity :=
  <["flags" := VNumber (Z.shiftl 1 0)]>
  (<["type" := VNumber (default ActivityType.PLAYING (type cfg))]>
  (<["details" := Js.ofString finalDetails]>
  (<["state" := Js.ofString finalState]>
  (<["name" := Js.ofString (appName cfg)]>
  (<["application_id" := Js.ofString (Js.orElse (appID cfg) (Some "0"))]> ∅))))).

(** Line 234. *)
Definition withUrl (cfg : Settings) (activity : Activity) : Activity :=
  if bool_decide (type cfg = Some ActivityType.STREAMING)
  then <["url" := Js.ofString (streamLink cfg)]> activity
  else activity.

(** The [CUSTOM] case, lines 252-256. *)
Definition customTimestamps (cfg : Settings) : Activity :=
  let t0 : Activity := ∅ in
  let t1 := if Js.truthyNum (startTime cfg)
            then <["start" := Js.ofNumber (startTime cfg)]> t0 else t0 in
  if Js.truthyNum (endTime cfg)
  then <["end" := Js.ofNumber (endTime cfg)]> t1 else t1.

(** The [switch (timestampMode)], lines 236-261.  In [NOW] mode a missing
    (or zero) start time is first set to the current instant. *)
Definition withTimestamps (env : Env) (activity : Activity) : M Activity :=
  let cfg := store env in
  match timestampMode cfg with
  | Some NOW =>
      held ← gets nowModeStartTime;
      _ ← (if negb (Js.truthyNum held)
           then modify (setNowModeStartTime (Some (Date_now env)))
           else mret ());
      anchor ← gets nowModeStartTime;
      mret (<["timestamps" := VObject {[ "start" := Js.ofNumber anchor ]}]> activity)
  | Some TIME =>
      let elapsed := ((getHours env * 3600 + getMinutes env * 60 + getSeconds env) * 1000)%Z in
      mret (<["timestamps" := VObject {[ "start" := VNumber (Date_now env - elapsed) ]}]> activity)
  | Some CUSTOM =>
      if Js.truthyNum (startTime cfg) || Js.truthyNum (endTime cfg)
      then mret (<["timestamps" := VObject (customTimestamps cfg)]> activity)
      else mret activity
  | Some NONE | None => mret activity
  end.

(** Lines 263-269. *)
Definition withTextUrls (cfg : Settings) (activity : Activity) : Activity :=
  let a1 := if Js.truthyStr (detailsURL cfg)
            then <["details_url" := Js.ofString (detailsURL cfg)]> activity
            else activity in
  if Js.truthyStr (stateURL cfg)
  then <["state_url" := Js.ofString (stateURL cfg)]> a1
  else a1.

(** Lines 271-283: both lists are filtered on their own. *)
Definition withButtons (cfg : Settings) (activity : Activity) : Activity :=
  if Js.truthyStr (buttonOneText cfg) then
    let buttons :=
      filter (λ v, isTruthy v)
             [Js.ofString (buttonOneText cfg); Js.ofString (buttonTwoText cfg)] in
    let button_urls :=
      filter (λ v, isTruthy v)
             [Js.ofString (buttonOneURL cfg); Js.ofString (buttonTwoURL cfg)] in
    <["metadata" := VObject {[ "button_urls" := VArray button_urls ]}]>
      (<["buttons" := VArray buttons]> activity)
  else activity.

(** [text || undefined]. *)
Definition orUndefined (text : option string) : JsVal :=
  if Js.truthyStr text then Js.ofString text else VUndefined.

(** Lines 285-291. *)
Definition withBigImage (env : Env) (activity : Activity) : M Activity :=
  let cfg := store env in
  if Js.truthyStr (imageBig cfg) then
    id ← getApplicationAsset env (default "" (imageBig cfg));
    mret (<["assets" := VObject
              (<["large_url" := orUndefined (imageBigURL cfg)]>
              (<["large_text" := orUndefined (imageBigTooltip cfg)]>
              (<["large_image" := Js.ofString id]> ∅)))]> activity)
  else mret activity.

(** [{ ...v }] for the value of a property that may be missing. *)
Definition spread (v : option JsVal) : Activity :=
  match v with
  | Some (VObject fields) => fields
  | _ => ∅
  end.

(** Lines 293-300. *)
Definition withSmallImage (env : Env) (activity : Activity) : M Activity :=
  let cfg := store env in
  if Js.truthyStr (imageSmall cfg) then
    let assets := spread (activity !! "assets") in
    id ← getApplicationAsset env (default "" (imageSmall cfg));
    mret (<["assets" := VObject
              (<["small_url" := orUndefined (imageSmallURL cfg)]>
              (<["small_text" := orUndefined (imageSmallTooltip cfg)]>
              (<["small_image" := Js.ofString id]> assets)))]> activity)
  else mret activity.

(** Lines 302-306. *)
Definition withParty (cfg : Settings) (activity : Activity) : Activity :=
  if Js.truthyNum (partyMaxSize cfg) && Js.truthyNum (partySize cfg)
  then <["party" := VObject {[ "size" := VArray [Js.ofNumber (partySize cfg);
                                                 Js.ofNumber (partyMaxSize cfg)] ]}]> activity
  else activity.

(** The test of line 311, [!v || v.length === 0]. *)
Definition isEmptyValue (v : JsVal) : bool :=
  negb (Js.truthy v) || Js.lengthIsZero v.

(** The loop of lines 308-313: every property but [type] whose value passes
    the test is deleted. *)
Definition prune (activity : Activity) : Activity :=
  filter (λ kv, kv.1 = "type" ∨ isEmptyValue kv.2 = false) activity.

(** Lines 187-306 of [createActivity]: the record before the pruning loop. *)
Definition assembleActivity (env : Env) : M Activity :=
  let cfg := store env in
  finalDetails ← resolveLane env Details;
  finalState ← resolveLane env State;
  a ← withTimestamps env (withUrl cfg (baseActivity cfg finalDetails finalState));
  a ← withBigImage env (withButtons cfg (withTextUrls cfg a));
  a ← withSmallImage env a;
  mret (withParty cfg a).

(** [createActivity], lines 154-316. *)
Definition createActivity (env : Env) : M (option Activity) :=
  if negb (Js.truthyStr (appName (store env))) then mret None
  else
    activity ← assembleActivity env;
    mret (Some (prune activity)).

(** ** Publishing *)

(** [setRpc], lines 318-333. *)
Definition setRpc (env : Env) (disable : bool) : M unit :=
  _ ← (if negb disable then setupRotationIntervals env else clearRotationIntervals);
  activity ← createActivity env;
  dispatch (if negb disable
            then match activity with
                 | Some a => PayloadActivity a
                 | None => PayloadUndefined
                 end
            else PayloadNull).

(** The callback of a lane's timer, lines 75-84 and 93-102.  It uses the
    mode and the pool it was armed with, and ends with [setRpc()]. *)
Definition timerCallback (env : Env) (t : Timer) : M unit :=
  let l := timerLane t in
  let n := Z.of_nat (length (timerLines t)) in
  _ ← (if bool_decide (timerMode t = Some ModeYes) then
         r ← floorRandom env n;
         modify (setCurrentIndex l r)
       else
         i ← gets (currentIndex l);
         modify (setCurrentIndex l (Z.rem (i + 1)%Z n)));
  detach (setRpc env false).

(** The host fires the timer with handle [h]; a cancelled timer does not
    fire. *)
Definition fireTimer (env : Env) (h : positive) : M unit :=
  t ← gets (λ w, timers w !! h);
  match t with
  | Some t => timerCallback env t
  | None => mret ()
  end.

(** [start], lines 344-351. *)
Definition start (env : Env) : M unit :=
  _ ← (if bool_decide (timestampMode (store env) = Some NOW)
       then modify (setNowModeStartTime (Some (Date_now env)))
       else mret ());
  _ ← setupRotationIntervals env;
  detach (setRpc env false).

(** [stop], lines 352-356. *)
Definition stop (env : Env) : M unit :=
  _ ← clearRotationIntervals;
  _ ← modify (setNowModeStartTime None);
  detach (setRpc env true).

(** ** Runs *)

(** What can happen to the plugin: the host enables or disables it, a timer
    fires, the settings form asks for a new presence ([setRpc()]), or the
    settings page previews the activity ([createActivity()]). *)
Inductive Event :=
| EvStart
| EvStop
| EvFire (h : positive)
| EvSetRpc
| EvPreview.

Definition step (w : World) (ev : Env * Event) : World :=
  let env := ev.1 in
  match ev.2 with
  | EvStart => exec (start env) w
  | EvStop => exec (stop env) w
  | EvFire h => exec (fireTimer env h) w
  | EvSetRpc => exec (setRpc env false) w
  | EvPreview => exec (createActivity env) w
  end.

Definition run (evs : list (Env * Event)) (w : World) : World :=
  foldl step w evs.

(** ** Observations *)

(** The number of [null] payloads dispatched so far. *)
Definition isNullPayload (p : Payload) : bool :=
  match p with PayloadNull => true | _ => false end.

Definition nullCount (w : World) : nat :=
  length (filter (λ p, isNullPayload p) (dispatched w)).

(** ** Sample configurations *)

(** A line break. *)
Definition nl : string := String "010"%char "".

(** A settings store in which only the given fields are filled in. *)
Definition sampleSettings (name : option string) (mode : option TimestampMode)
    (detailsLines stateLines : option string) : Settings := {|
  appID := None;
  appName := name;
  details := Some "";
  detailsRandomLines := detailsLines;
  detailsRandomMode := Some ModeNo;
  detailsRandomInterval := Some 1%Z;
  detailsURL := None;
  state := Some "idle";
  stateRandomLines := stateLines;
  stateRandomMode := Some ModeNo;
  stateRandomInterval := Some 3%Z;
  stateURL := None;
  type := Some 0%Z;
  streamLink := None;
  timestampMode := mode;
  startTime := None;
  endTime := None;
  imageBig := None;
  imageBigURL := None;
  imageBigTooltip := None;
  imageSmall := None;
  imageSmallURL := None;
  imageSmallTooltip := None;
  buttonOneText := Some "Play";
  buttonOneURL := None;
  buttonTwoText := None;
  buttonTwoURL := Some "http://x";
  partySize := None;
  partyMaxSize := None
|}.

(** A host at the instant [now] whose asset service answers every key with
    an id and whose random source always returns zero. *)
Definition sampleEnv (cfg : Settings) (now : Z) : Env := {|
  store := cfg;
  Date_now := now;
  getHours := 0;
  getMinutes := 0;
  getSeconds := 0;
  Math_random := λ _, 0%Z;
  fetchAssetIds := λ _ key, Some (Some key)
|}.

(** Three lines for the details lane and two for the state lane. *)
Definition threeLines : string := "a" +:+ nl +:+ "b" +:+ nl +:+ "c".
Definition twoLines : string := "x" +:+ nl +:+ "y".

(** ** Frames and claims as predicates *)

(** A piece of plugin code leaves an observation of the world alone,
    whatever its outcome. *)
Definition preserves {X A} (f : World → X) (m : M A) : Prop :=
  ∀ w, f (m w).2 = f w.

(** The asset service answers every request made for the configured
    application. *)
Definition assetsAnswer (env : Env) : Prop :=
  ∀ key, fetchAssetIds env (appID (store env)) key ≠ None.

(** The property name under which a lane's text is published. *)
Definition laneKey (l : Lane) : string :=
  match l with Details => "details" | State => "state" end.

(** [activity.buttons[i]] and [activity.metadata.button_urls[i]]. *)
Definition buttonAt (activity : Activity) (i : nat) : option JsVal :=
  match activity !! "buttons" with
  | Some (VArray labels) => labels !! i
  | _ => None
  end.

Definition buttonUrlAt (activity : Activity) (i : nat) : option JsVal :=
  match activity !! "metadata" with
  | Some (VObject metadata) =>
      match metadata !! "button_urls" with
      | Some (VArray urls) => urls !! i
      | _ => None
      end
  | _ => None
  end.

(** The anchor is absent whenever the timestamp mode is not [NOW]. *)
Definition anchorAbsentOutsideNow (cfg : Settings) (w : World) : Prop :=
  timestampMode cfg ≠ Some NOW → nowModeStartTime w = None.

(** The anchor that [NOW] mode ends up with: the one held, or else the
    current instant. *)
Definition anchorFor (env : Env) (held : option Z) : option Z :=
  if Js.truthyNum held then held else Some (Date_now env).

(** The rest of [assembleActivity] once the buttons are in place, lines
    285-306: the two images and the party. *)
Definition finishActivity (env : Env) (activity : Activity) : M Activity :=
  a ← withBigImage env activity;
  a ← withSmallImage env a;
  mret (withParty (store env) a).

(** The sample store with an application name, by timestamp mode; without
    rotation pools, and with the two pools. *)
Definition plainSettings (mode : option TimestampMode) : Settings :=
  sampleSettings (Some "App") mode None None.

Definition rotatingSettings (mode : option TimestampMode) : Settings :=
  sampleSettings (Some "App") mode (Some threeLines) (Some twoLines).

(** The sample store without an application name. *)
Definition namelessSettings : Settings :=
  sampleSettings None (Some NOW) (Some threeLines) (Some twoLines).

(** The properties that are assigned after the object literal. *)
Definition laterKeys : list string :=
  ["url"; "timestamps"; "details_url"; "state_url"; "buttons"; "metadata";
   "assets"; "party"].

(** The value a call returned, or [d] when it threw. *)
Definition returned {A} (d : A) (o : Outcome A) : A :=
  match o with Returned a => a | Thrown => d end.

(** Whether the builder returns a record, and that record. *)
Definition builds (env : Env) (w : World) : bool :=
  match (createActivity env w).1 with
  | Returned (Some _) => true
  | _ => false
  end.

Definition built (env : Env) (w : World) : Activity :=
  default ∅ (returned None (createActivity env w).1).

(** Sample hosts: the plain store without timestamps at instant 0, and in
    [NOW] mode at instant 5000. *)
Definition plainEnv : Env := sampleEnv (plainSettings (Some NONE)) 0.

Definition nowEnv : Env := sampleEnv (plainSettings (Some NOW)) 5000.

(** A world that holds the anchor 1000. *)
Definition anchoredWorld : World := setNowModeStartTime (Some 1000%Z) initialWorld.

(** The plain store without timestamps, some time later. *)
Definition laterEnv : Env := sampleEnv (plainSettings (Some NONE)) 9000.

(** A world whose details lane stands at index 2 of a three-line pool, and
    a host whose store now has a two-line pool for that lane. *)
Definition staleWorld : World :=
  setDetailsCurrentIndex 2 (setLastDetailsLines ["a"; "b"; "c"] initialWorld).

Definition shrunkEnv : Env :=
  sampleEnv (sampleSettings (Some "App") (Some NONE) (Some twoLines) None) 0.

(** The timer that [setupRotationIntervals] arms for a lane. *)
Definition laneTimer (env : Env) (l : Lane) : Timer := {|
  timerLane := l;
  timerMode := randomMode l (store env);
  timerLines := parseLines (default "" (randomLines l (store env)));
  timerDelay := (default 0 (randomInterval l (store env)) * 1000)%Z;
  timerArmedAt := Date_now env
|}.

(** A host whose store rotates both lanes sequentially (details every
    second over three lines, state every three seconds over two lines), at
    the instant [now]. *)
Definition rotEnv (now : Z) : Env := sampleEnv (rotatingSettings (Some NONE)) now.

(** Started, one details tick, stopped. *)
Definition restartWorld : World :=
  run [(rotEnv 0, EvStart); (rotEnv 1000, EvFire 3); (rotEnv 2000, EvStop)] initialWorld.

(** Started at instant 0, and then after the details ticks at 1000, 2000
    and 3000 milliseconds. *)
Definition armedWorld : World := run [(rotEnv 0, EvStart)] initialWorld.

Definition tickedWorld : World := step armedWorld (rotEnv 1000, EvFire 3).

Definition tickedThriceWorld : World :=
  run [(rotEnv 2000, EvFire 5); (rotEnv 3000, EvFire 7)] tickedWorld.

(** ** Invariants of the rotation state *)

(** Whether [setupRotationIntervals] arms a lane: the test of lines 71 and
    89 together with the length test of lines 73 and 91. *)
Definition arms (env : Env) (l : Lane) : bool :=
  canArm l (store env)
  && bool_decide (1 < length (parseLines (default "" (randomLines l (store env)))))%nat.

(** The plugin owns the timer table: a handle held by a lane names a live
    timer of that lane, and every live timer is the one its lane holds; all
    handles in use are older than the next fresh one. *)
Definition timersOwned (w : World) : Prop :=
  (∀ l h, intervalId l w = Some h →
          ∃ t, timers w !! h = Some t ∧ timerLane t = l) ∧
  (∀ h t, timers w !! h = Some t →
          intervalId (timerLane t) w = Some h ∧ (h < nextTimerId w)%positive).

(** Every live timer rotates over at least two lines. *)
Definition timersRotate (w : World) : Prop :=
  ∀ h t, timers w !! h = Some t → (1 < length (timerLines t))%nat.

(** Both rotation indices are non-negative. *)
Definition indicesNonneg (w : World) : Prop :=
  ∀ l, (0 ≤ currentIndex l w)%Z.

Definition wellFormed (w : World) : Prop :=
  timersOwned w ∧ timersRotate w ∧ indicesNonneg w.

(** What the timer invariants look at. *)
Definition timerView (w : World)
    : gmap positive Timer * option positive * option positive * positive :=
  (timers w, detailsIntervalId w, stateIntervalId w, nextTimerId w).

(** The world after an [if] of [start] or a timer callback has run: the
    same world but for the anchor, or for one index and the count of random
    draws. *)
Definition startAnchor (env : Env) (w : World) : World :=
  if bool_decide (timestampMode (store env) = Some NOW)
  then setNowModeStartTime (Some (Date_now env)) w else w.

Definition tickIndex (env : Env) (t : Timer) (w : World) : World :=
  let n := Z.of_nat (length (timerLines t)) in
  if bool_decide (timerMode t = Some ModeYes)
  then setCurrentIndex (timerLane t)
         (Js.floorRandomTimes (Math_random env (randomCalls w)) n)
         (setRandomCalls (S (randomCalls w)) w)
  else setCurrentIndex (timerLane t) (Z.rem (currentIndex (timerLane t) w + 1) n) w.

(** [lines.join('\n')]: the text of a settings box that holds one line per
    entry. *)
Fixpoint joinLines (lines : list string) : string :=
  match lines with
  | [] => ""
  | [line] => line
  | line :: rest => line +:+ nl +:+ joinLines rest
  end.

(** A string without a line break. *)
Fixpoint noBreak (s : string) : bool :=
  match s with
  | EmptyString => true
  | String c rest => negb (bool_decide (c = "010"%char)) && noBreak rest
  end.

(** The properties a built record can have. *)
Definition activityKeys : gset string :=
  list_to_set ["application_id"; "name"; "state"; "details"; "type"; "flags";
               "url"; "timestamps"; "details_url"; "state_url"; "buttons";
               "metadata"; "assets"; "party"].

(** The request that [getApplicationAsset] logs for an image key, if the
    key is configured. *)
Definition assetRequest (env : Env) (image : option string)
    : list (option string * string) :=
  if Js.truthyStr image then [(appID (store env), default "" image)] else [].

(** A store with most optional fields filled in: a streaming activity with
    links, two images, two buttons without URLs, a party, a one-line state
    pool, and a custom start instant of zero. *)
Definition richSettings (mode : option TimestampMode) : Settings := {|
  appID := Some "42";
  appName := Some "App";
  details := Some "hello";
  detailsRandomLines := None;
  detailsRandomMode := Some ModeDisable;
  detailsRandomInterval := None;
  detailsURL := Some "http://d";
  state := None;
  stateRandomLines := Some "solo";
  stateRandomMode := Some ModeNo;
  stateRandomInterval := Some 5%Z;
  stateURL := None;
  type := Some 1%Z;
  streamLink := Some "http://s";
  timestampMode := mode;
  startTime := Some 0%Z;
  endTime := Some 99%Z;
  imageBig := Some "big";
  imageBigURL := None;
  imageBigTooltip := Some "tip";
  imageSmall := Some "small";
  imageSmallURL := Some "http://i";
  imageSmallTooltip := None;
  buttonOneText := Some "One";
  buttonOneURL := None;
  buttonTwoText := Some "Two";
  buttonTwoURL := None;
  partySize := Some 2%Z;
  partyMaxSize := Some 4%Z
|}.

(** A host at 01:02:03 local time whose asset service answers, and one
    whose asset service rejects every request. *)
Definition clockEnv (cfg : Settings) : Env := {|
  store := cfg;
  Date_now := 100000000;
  getHours := 1;
  getMinutes := 2;
  getSeconds := 3;
  Math_random := λ k, Z.of_nat k;
  fetchAssetIds := λ _ key, Some (Some ("id-" +:+ key))
|}.

Definition deafEnv (cfg : Settings) : Env := {|
  store := cfg;
  Date_now := 100000000;
  getHours := 1;
  getMinutes := 2;
  getSeconds := 3;
  Math_random := λ k, Z.of_nat k;
  fetchAssetIds := λ _ _, None
|}.

(** The asset id the service answers with for an image key ([undefined]
    when the answer has none, or when the request rejects). *)
Definition assetId (env : Env) (image : option string) : JsVal :=
  Js.ofString (default None (fetchAssetIds env (appID (store env)) (default "" image))).

(** ** The plugin before rotation

    [src/unnamed/part_000] is the same plugin without the rotation timers
    and without the anchor: the state text is drawn at random whenever a
    pool is given, [NOW] mode stamps every build with the current instant,
    and [setRpc] only builds and dispatches.  The object literal, the
    links, the buttons, the images, the party and the pruning loop are those
    of [index.tsx], line for line. *)
Module Legacy.

(** Lines 115-121: a random line of the state pool, if there is one. *)
Definition resolveState (env : Env) : M (option string) :=
  let cfg := store env in
  if Js.truthyStr (stateRandomLines cfg) then
    let lines := parseLines (default "" (stateRandomLines cfg)) in
    if bool_decide (0 < length lines)%nat then
      r ← floorRandom env (Z.of_nat (length lines));
      mret (Js.index lines r)
    else mret (state cfg)
  else mret (state cfg).

(** The [switch (timestampMode)], lines 134-155. *)
Definition withTimestamps (env : Env) (activity : Activity) : Activity :=
  let cfg := store env in
  match timestampMode cfg with
  | Some NOW =>
      <["timestamps" := VObject {[ "start" := VNumber (Date_now env) ]}]> activity
  | Some TIME =>
      let elapsed := ((getHours env * 3600 + getMinutes env * 60 + getSeconds env) * 1000)%Z in
      <["timestamps" := VObject {[ "start" := VNumber (Date_now env - elapsed) ]}]> activity
  | Some CUSTOM =>
      if Js.truthyNum (startTime cfg) || Js.truthyNum (endTime cfg)
      then <["timestamps" := VObject (customTimestamps cfg)]> activity
      else activity
  | Some NONE | None => activity
  end.

(** [createActivity], lines 85-210. *)
Definition createActivity (env : Env) : M (option Activity) :=
  let cfg := store env in
  if negb (Js.truthyStr (appName cfg)) then mret None
  else
    finalState ← resolveState env;
    activity ← finishActivity env
                 (withButtons cfg
                    (withTextUrls cfg
                       (withTimestamps env
                          (withUrl cfg (baseActivity cfg (details cfg) finalState)))));
    mret (Some (prune activity)).

(** [setRpc], lines 212-220. *)
Definition setRpc (env : Env) (disable : bool) : M unit :=
  activity ← createActivity env;
  dispatch (if negb disable
            then match activity with
                 | Some a => PayloadActivity a
                 | None => PayloadUndefined
                 end
            else PayloadNull).

(** [start: setRpc] and [stop: () => setRpc(true)], lines 231-232. *)
Definition start (env : Env) : M unit := detach (setRpc env false).

Definition stop (env : Env) : M unit := detach (setRpc env true).

End Legacy.

(** * Proofs *)

(** ** The monad *)

Lemma bind_run {A B} (m : M A) (k : A → M B) (w : World) :
  (m ≫= k) w =
  match m w with
  | (Returned a, w') => k a w'
  | (Thrown, w') => (Thrown, w')
  end.
Proof. reflexivity. Qed.

Lemma bind_returned {A B} (m : M A) (k : A → M B) w b w' :
  (m ≫= k) w = (Returned b, w') ↔
  ∃ a w1, m w = (Returned a, w1) ∧ k a w1 = (Returned b, w').
Proof.
  rewrite bind_run. destruct (m w) as [[a|] w1]; split.
  - eauto.
  - intros (a' & w1' & [= -> ->] & Hk). exact Hk.
  - discriminate.
  - intros (a' & w1' & [=] & _).
Qed.

Section Frames.
Context {X : Type} (f : World → X).

Lemma preserves_ret {A} (a : A) : preserves f (mret a).
Proof. intros w. reflexivity. Qed.

Lemma preserves_gets {A} (g : World → A) : preserves f (gets g).
Proof. intros w. reflexivity. Qed.

Lemma preserves_modify (g : World → World) :
  (∀ w, f (g w) = f w) → preserves f (modify g).
Proof. intros Hg w. apply Hg. Qed.

Lemma preserves_bind {A B} (m : M A) (k : A → M B) :
  preserves f m → (∀ a, preserves f (k a)) → preserves f (m ≫= k).
Proof.
  intros Hm Hk w. rewrite bind_run. specialize (Hm w).
  destruct (m w) as [[a|] w1]; simpl in *.
  - rewrite Hk. exact Hm.
  - exact Hm.
Qed.

Lemma preserves_detach {A} (m : M A) : preserves f m → preserves f (detach m).
Proof. intros Hm w. apply Hm. Qed.

Lemma preserves_exec {A} (m : M A) w : preserves f m → f (exec m w) = f w.
Proof. intros Hm. apply Hm. Qed.
End Frames.

(** Splits a frame goal along the structure of the code, down to the
    assignments and the host calls, which are settled by computation. *)
Ltac frame_atom :=
  intros ?; unfold getApplicationAsset; simpl;
  unfold setCurrentIndex, setIntervalId, setLastLines, currentIndex, intervalId, lastLines;
  repeat case_match;
  repeat match goal with l : Lane |- _ => destruct l end;
  reflexivity.

Ltac frame :=
  repeat first
    [ progress cbv zeta
    | lazymatch goal with
      | |- preserves _ (mret _) => apply preserves_ret
      | |- preserves _ (gets _) => apply preserves_gets
      | |- preserves _ (_ ≫= _) => apply preserves_bind; [| intros ?]
      | |- preserves _ (detach _) => apply preserves_detach
      | |- preserves _ (if ?c then _ else _) => destruct c
      | |- preserves _ (match ?x with _ => _ end) => destruct x
      end
    | match goal with H : _ |- _ => apply H end
    | frame_atom ].

(** ** What the builder leaves alone *)

Section BuilderFrames.
Context (env : Env).

Lemma createActivity_timers : preserves timers (createActivity env).
Proof.
  unfold createActivity, assembleActivity, resolveLane, withTimestamps,
    withBigImage, withSmallImage.
  frame.
Qed.

Lemma createActivity_nextTimerId : preserves nextTimerId (createActivity env).
Proof.
  unfold createActivity, assembleActivity, resolveLane, withTimestamps,
    withBigImage, withSmallImage.
  frame.
Qed.

Lemma createActivity_intervalId l : preserves (intervalId l) (createActivity env).
Proof.
  unfold createActivity, assembleActivity, resolveLane, withTimestamps,
    withBigImage, withSmallImage.
  frame.
Qed.

Lemma createActivity_dispatched : preserves dispatched (createActivity env).
Proof.
  unfold createActivity, assembleActivity, resolveLane, withTimestamps,
    withBigImage, withSmallImage.
  frame.
Qed.
End BuilderFrames.

(** ** Line pools *)

Lemma trim_empty : Js.trim "" = "".
Proof. reflexivity. Qed.

Lemma parseLines_nonblank raw line : line ∈ parseLines raw → line ≠ "".
Proof.
  unfold parseLines. rewrite list_elem_of_filter. intros [Hne _] ->.
  apply Hne, trim_empty.
Qed.

Lemma everySame_prefix last lines start :
  everySame last lines start = true →
  take (length last) (drop start lines) = last.
Proof.
  revert start. induction last as [|v rest IH]; intros start; simpl.
  - reflexivity.
  - destruct (lines !! start) as [line|] eqn:Hline; [|discriminate].
    rewrite andb_true_iff, bool_decide_eq_true. intros [-> Hrest].
    rewrite (drop_S _ _ _ Hline). simpl. f_equal. by apply IH.
Qed.

Lemma everySame_refl pre lines :
  everySame lines (pre ++ lines) (length pre) = true.
Proof.
  revert pre. induction lines as [|v rest IH]; intros pre; simpl.
  - reflexivity.
  - rewrite list_lookup_middle by reflexivity.
    rewrite bool_decide_eq_true_2 by reflexivity. simpl.
    replace (pre ++ v :: rest) with ((pre ++ [v]) ++ rest) by by rewrite <- app_assoc.
    replace (S (length pre)) with (length (pre ++ [v]))
      by (rewrite length_app; simpl; lia).
    apply IH.
Qed.

(** The change test of the builder is exactly inequality of the two pools:
    a different length, or a different line somewhere. *)
Lemma poolChanged_false last lines : poolChanged last lines = false ↔ last = lines.
Proof.
  unfold poolChanged. rewrite orb_false_iff, !negb_false_iff, bool_decide_eq_true.
  split.
  - intros [Hlen Hsame]. apply everySame_prefix in Hsame.
    rewrite drop_0, Hlen, firstn_all in Hsame. congruence.
  - intros ->. split; [reflexivity|]. apply (everySame_refl []).
Qed.

Lemma poolChanged_true last lines : poolChanged last lines = true ↔ last ≠ lines.
Proof.
  rewrite <- poolChanged_false. destruct (poolChanged last lines); split; congruence.
Qed.

Lemma floorRandomTimes_range u n :
  (0 < n)%Z → (0 ≤ Js.floorRandomTimes u n < n)%Z.
Proof.
  intros Hn. unfold Js.floorRandomTimes.
  pose proof (Z.mod_pos_bound u (2 ^ 53) ltac:(lia)) as Hu.
  split.
  - apply Z.div_pos; [nia | lia].
  - apply Z.div_lt_upper_bound; [lia | nia].
Qed.

Lemma index_in_range {A} (arr : list A) (i : Z) :
  (0 ≤ i < Z.of_nat (length arr))%Z → ∃ x, Js.index arr i = Some x ∧ x ∈ arr.
Proof.
  intros Hi. unfold Js.index.
  destruct (Z.ltb_spec i 0) as [|_]; [lia|].
  destruct (lookup_lt_is_Some_2 arr (Z.to_nat i) ltac:(lia)) as [x Hx].
  exists x. split; [exact Hx|]. by eapply list_elem_of_lookup_2.
Qed.

(** ** The phases of the builder *)

Ltac run_monad :=
  unfold mbind, M_bind, mret, M_ret, gets, modify, floorRandom, getApplicationAsset;
  simpl.

Lemma resolveLane_returns env l w : ∃ r w', resolveLane env l w = (Returned r, w').
Proof. unfold resolveLane. run_monad. repeat case_match; simplify_eq; eauto. Qed.

(** The text of a lane whose rotation is on and whose pool is not empty. *)
Lemma resolveLane_rotating env l w :
  let cfg := store env in
  let lines := parseLines (default "" (randomLines l cfg)) in
  let n := Z.of_nat (length lines) in
  let w1 := if poolChanged (lastLines l w) lines
            then setCurrentIndex l 0 (setLastLines l lines w) else w in
  modeEnabled (randomMode l cfg) = true →
  Js.truthyStr (randomLines l cfg) = true →
  lines ≠ [] →
  resolveLane env l w =
  if bool_decide (randomMode l cfg = Some ModeYes)
  then (Returned (Js.index lines (Js.floorRandomTimes (Math_random env (randomCalls w1)) n)),
        setRandomCalls (S (randomCalls w1)) w1)
  else (Returned (Js.index lines (Z.rem (currentIndex l w1) n)), w1).
Proof.
  intros cfg lines n w1 Hmode Hraw Hlines. unfold resolveLane.
  fold cfg. rewrite Hmode, Hraw. simpl. fold lines.
  rewrite bool_decide_eq_true_2 by (destruct lines; [done | simpl; lia]).
  run_monad. subst w1 n.
  destruct (poolChanged (lastLines l w) lines); case_bool_decide; reflexivity.
Qed.

Lemma withUrl_lookup cfg a k : k ≠ "url" → withUrl cfg a !! k = a !! k.
Proof.
  intros Hk. unfold withUrl. case_bool_decide; [|done]. by rewrite lookup_insert_ne.
Qed.

Lemma withTextUrls_lookup cfg a k :
  k ≠ "details_url" → k ≠ "state_url" → withTextUrls cfg a !! k = a !! k.
Proof.
  intros Hd Hs. unfold withTextUrls.
  repeat case_match; rewrite ?lookup_insert_ne by done; done.
Qed.

Lemma withButtons_lookup cfg a k :
  k ≠ "buttons" → k ≠ "metadata" → withButtons cfg a !! k = a !! k.
Proof.
  intros Hb Hm. unfold withButtons.
  case_match; rewrite ?lookup_insert_ne by done; done.
Qed.

Lemma withParty_lookup cfg a k : k ≠ "party" → withParty cfg a !! k = a !! k.
Proof.
  intros Hk. unfold withParty. case_match; [|done]. by rewrite lookup_insert_ne.
Qed.

Lemma withTimestamps_returns env a w :
  ∃ a' w', withTimestamps env a w = (Returned a', w').
Proof. unfold withTimestamps. run_monad. repeat case_match; simplify_eq; eauto. Qed.

Lemma withTimestamps_lookup env a w a' w' k :
  withTimestamps env a w = (Returned a', w') → k ≠ "timestamps" → a' !! k = a !! k.
Proof.
  unfold withTimestamps. run_monad. intros H Hk.
  repeat case_match; simplify_eq; rewrite ?lookup_insert_ne by done; done.
Qed.

Lemma withTimestamps_now env a w :
  timestampMode (store env) = Some NOW →
  withTimestamps env a w =
  (Returned (<["timestamps" :=
               VObject {[ "start" := Js.ofNumber (anchorFor env (nowModeStartTime w)) ]}]> a),
   if Js.truthyNum (nowModeStartTime w) then w
   else setNowModeStartTime (Some (Date_now env)) w).
Proof.
  intros Hmode. unfold withTimestamps, anchorFor. rewrite Hmode. run_monad.
  destruct (Js.truthyNum (nowModeStartTime w)); reflexivity.
Qed.

Lemma withBigImage_lookup env a w a' w' k :
  withBigImage env a w = (Returned a', w') → k ≠ "assets" → a' !! k = a !! k.
Proof.
  unfold withBigImage. run_monad. intros H Hk.
  repeat case_match; simplify_eq; rewrite ?lookup_insert_ne by done; done.
Qed.

Lemma withSmallImage_lookup env a w a' w' k :
  withSmallImage env a w = (Returned a', w') → k ≠ "assets" → a' !! k = a !! k.
Proof.
  unfold withSmallImage. run_monad. intros H Hk.
  repeat case_match; simplify_eq; rewrite ?lookup_insert_ne by done; done.
Qed.

Lemma withBigImage_returns env a w :
  assetsAnswer env → ∃ a' w', withBigImage env a w = (Returned a', w').
Proof.
  intros Hassets. unfold withBigImage. run_monad.
  repeat case_match; simplify_eq; eauto.
  by destruct (Hassets (default "" (imageBig (store env)))).
Qed.

Lemma withSmallImage_returns env a w :
  assetsAnswer env → ∃ a' w', withSmallImage env a w = (Returned a', w').
Proof.
  intros Hassets. unfold withSmallImage. run_monad.
  repeat case_match; simplify_eq; eauto.
  by destruct (Hassets (default "" (imageSmall (store env)))).
Qed.

(** The pruning loop, property by property. *)
Lemma prune_lookup (a : Activity) (k : string) :
  prune a !! k =
  match a !! k with
  | Some v => if bool_decide (k = "type") || negb (isEmptyValue v) then Some v else None
  | None => None
  end.
Proof.
  unfold prune. destruct (a !! k) as [v|] eqn:Hk.
  - destruct (bool_decide (k = "type") || negb (isEmptyValue v)) eqn:Hkeep.
    + apply map_lookup_filter_Some. split; [done|]. simpl.
      apply orb_true_iff in Hkeep as [Ht%bool_decide_eq_true | He%negb_true_iff]; auto.
    + apply map_lookup_filter_None. right. intros v' Hv' [Ht | He]; simpl in *.
      * rewrite bool_decide_eq_true_2 in Hkeep by done. done.
      * simplify_eq. rewrite He in Hkeep. by rewrite orb_true_r in Hkeep.
  - apply map_lookup_filter_None. by left.
Qed.

(** ** The builder as a whole *)

Lemma preserves_run {X A} (f : World → X) (m : M A) w o w' :
  preserves f m → m w = (o, w') → f w' = f w.
Proof. intros Hm Hrun. specialize (Hm w). by rewrite Hrun in Hm. Qed.

Lemma assembleActivity_run env w :
  let cfg := store env in
  ∃ fd w1 fs w2 a1 w3,
    resolveLane env Details w = (Returned fd, w1) ∧
    resolveLane env State w1 = (Returned fs, w2) ∧
    withTimestamps env (withUrl cfg (baseActivity cfg fd fs)) w2 = (Returned a1, w3) ∧
    assembleActivity env w =
      finishActivity env (withButtons cfg (withTextUrls cfg a1)) w3.
Proof.
  intros cfg.
  destruct (resolveLane_returns env Details w) as (fd & w1 & E1).
  destruct (resolveLane_returns env State w1) as (fs & w2 & E2).
  destruct (withTimestamps_returns env (withUrl cfg (baseActivity cfg fd fs)) w2)
    as (a1 & w3 & E3).
  exists fd, w1, fs, w2, a1, w3. repeat split; try done.
  unfold assembleActivity. rewrite bind_run, E1, bind_run, E2, bind_run. fold cfg.
  rewrite E3. reflexivity.
Qed.

Lemma finishActivity_lookup env a w raw w' k :
  finishActivity env a w = (Returned raw, w') →
  k ≠ "assets" → k ≠ "party" → raw !! k = a !! k.
Proof.
  unfold finishActivity. intros H Ha Hp.
  apply bind_returned in H as (a2 & w2 & Hbig & H).
  apply bind_returned in H as (a3 & w3 & Hsmall & H).
  injection H as <- <-.
  rewrite withParty_lookup by done.
  rewrite (withSmallImage_lookup _ _ _ _ _ _ Hsmall) by done.
  by rewrite (withBigImage_lookup _ _ _ _ _ _ Hbig).
Qed.

Lemma finishActivity_returns env a w :
  assetsAnswer env → ∃ raw w', finishActivity env a w = (Returned raw, w').
Proof.
  intros Hassets. unfold finishActivity.
  destruct (withBigImage_returns env a w Hassets) as (a2 & w2 & E2).
  destruct (withSmallImage_returns env a2 w2 Hassets) as (a3 & w3 & E3).
  exists (withParty (store env) a3), w3.
  rewrite bind_run, E2, bind_run, E3. reflexivity.
Qed.

Lemma createActivity_nameless env w :
  Js.truthyStr (appName (store env)) = false →
  createActivity env w = (Returned None, w).
Proof. intros Hname. unfold createActivity. by rewrite Hname. Qed.

Lemma createActivity_named env w :
  Js.truthyStr (appName (store env)) = true →
  createActivity env w = (assembleActivity env ≫= λ a, mret (Some (prune a))) w.
Proof. intros Hname. unfold createActivity. by rewrite Hname. Qed.

Lemma createActivity_inv env w act w' :
  createActivity env w = (Returned (Some act), w') →
  Js.truthyStr (appName (store env)) = true ∧
  ∃ raw, assembleActivity env w = (Returned raw, w') ∧ act = prune raw.
Proof.
  unfold createActivity. destruct (Js.truthyStr (appName (store env))); simpl.
  - intros H. split; [done|].
    apply bind_returned in H as (raw & w1 & Hraw & H).
    injection H as <- <-. eauto.
  - discriminate.
Qed.

Lemma createActivity_returns env w :
  Js.truthyStr (appName (store env)) = true →
  assetsAnswer env →
  ∃ act w', createActivity env w = (Returned (Some act), w').
Proof.
  intros Hname Hassets. rewrite createActivity_named by done.
  destruct (assembleActivity_run env w) as (fd & w1 & fs & w2 & a1 & w3 & _ & _ & _ & E0).
  destruct (finishActivity_returns env
              (withButtons (store env) (withTextUrls (store env) a1)) w3 Hassets)
    as (raw & w' & E).
  exists (prune raw), w'. by rewrite bind_run, E0, E.
Qed.

Lemma assembleActivity_inv env w raw w' :
  let cfg := store env in
  assembleActivity env w = (Returned raw, w') →
  ∃ fd w1 fs w2 a1 w3,
    resolveLane env Details w = (Returned fd, w1) ∧
    resolveLane env State w1 = (Returned fs, w2) ∧
    withTimestamps env (withUrl cfg (baseActivity cfg fd fs)) w2 = (Returned a1, w3) ∧
    finishActivity env (withButtons cfg (withTextUrls cfg a1)) w3 = (Returned raw, w').
Proof.
  intros cfg H.
  destruct (assembleActivity_run env w) as (fd & w1 & fs & w2 & a1 & w3 & E1 & E2 & E3 & E).
  exists fd, w1, fs, w2, a1, w3. repeat split; try done. by rewrite E in H.
Qed.

Ltac not_later :=
  unfold laterKeys; rewrite !not_elem_of_cons;
  repeat split; try done; apply not_elem_of_nil.

(** The properties of the object literal reach the assembled record
    unchanged. *)
Lemma assembled_lookup_literal env w raw w' k :
  assembleActivity env w = (Returned raw, w') →
  k ∉ laterKeys →
  ∃ fd w1 fs w2,
    resolveLane env Details w = (Returned fd, w1) ∧
    resolveLane env State w1 = (Returned fs, w2) ∧
    raw !! k = baseActivity (store env) fd fs !! k.
Proof.
  intros H Hk. unfold laterKeys in Hk. rewrite !not_elem_of_cons in Hk.
  destruct Hk as (? & ? & ? & ? & ? & ? & ? & ? & _).
  apply assembleActivity_inv in H as (fd & w1 & fs & w2 & a1 & w3 & E1 & E2 & E3 & E).
  exists fd, w1, fs, w2. repeat split; try done.
  rewrite (finishActivity_lookup _ _ _ _ _ _ E) by done.
  rewrite withButtons_lookup, withTextUrls_lookup by done.
  rewrite (withTimestamps_lookup _ _ _ _ _ _ E3) by done.
  by rewrite withUrl_lookup.
Qed.

(** The properties written up to the buttons are not touched afterwards. *)
Lemma assembled_lookup_buttons env w raw w' k :
  assembleActivity env w = (Returned raw, w') →
  k ≠ "assets" → k ≠ "party" →
  ∃ a1 w2 w3 fd fs,
    withTimestamps env (withUrl (store env) (baseActivity (store env) fd fs)) w2
      = (Returned a1, w3) ∧
    raw !! k = withButtons (store env) (withTextUrls (store env) a1) !! k.
Proof.
  intros H Ha Hp.
  apply assembleActivity_inv in H as (fd & w1 & fs & w2 & a1 & w3 & E1 & E2 & E3 & E).
  exists a1, w2, w3, fd, fs. split; [done|].
  by rewrite (finishActivity_lookup _ _ _ _ _ _ E).
Qed.

Lemma builds_run env w :
  builds env w = true →
  createActivity env w = (Returned (Some (built env w)), exec (createActivity env) w).
Proof.
  unfold builds, built, exec.
  destruct (createActivity env w) as [[[act|]|] w']; simpl; congruence.
Qed.

(** ** C7 *)

(** C7.  Without an application name (missing or empty) the builder
    returns [undefined] at once and leaves the whole world as it was: no
    request reaches the asset service, and no index, pool, anchor or random
    number is touched. *)
Theorem createActivity_without_appName env w :
  Js.truthyStr (appName (store env)) = false →
  createActivity env w = (Returned None, w).
Proof.
  intros Hname. unfold createActivity.
  destruct (Js.truthyStr (appName (store env))); [discriminate | reflexivity].
Qed.

Lemma createActivity_without_appName_witness :
  Js.truthyStr (appName (store (sampleEnv namelessSettings 0))) = false ∧
  createActivity (sampleEnv namelessSettings 0) initialWorld = (Returned None, initialWorld).
Proof.
  split; [reflexivity|].
  apply (createActivity_without_appName (sampleEnv namelessSettings 0) initialWorld).
  reflexivity.
Defined.

(** ** C10 *)

(** C10.  With an application name but no application id (missing or
    empty), every built record has [application_id] equal to the string "0":
    the default is truthy and so survives the pruning loop.  Such a record
    is built whenever the asset service answers. *)
Theorem application_id_defaults_to_zero env w :
  Js.truthyStr (appName (store env)) = true →
  Js.truthyStr (appID (store env)) = false →
  (∀ act w', createActivity env w = (Returned (Some act), w') →
             act !! "application_id" = Some (VString "0")) ∧
  (assetsAnswer env → ∃ act w', createActivity env w = (Returned (Some act), w')).
Proof.
  intros Hname Hid. split; [|by apply createActivity_returns].
  intros act w' H.
  apply createActivity_inv in H as (_ & raw & Hraw & ->).
  apply (assembled_lookup_literal _ _ _ _ "application_id") in Hraw
    as (fd & w1 & fs & w2 & _ & _ & Hk); [|not_later].
  rewrite prune_lookup, Hk. unfold baseActivity.
  rewrite !lookup_insert_ne by done. rewrite lookup_insert_eq.
  unfold Js.orElse. rewrite Hid. reflexivity.
Qed.

Lemma application_id_defaults_to_zero_witness :
  Js.truthyStr (appName (store plainEnv)) = true ∧
  Js.truthyStr (appID (store plainEnv)) = false ∧
  built plainEnv initialWorld !! "application_id" = Some (VString "0").
Proof.
  split; [reflexivity|]. split; [reflexivity|].
  destruct (application_id_defaults_to_zero plainEnv initialWorld) as [Hzero _].
  - reflexivity.
  - reflexivity.
  - apply (Hzero _ (exec (createActivity plainEnv) initialWorld)).
    apply builds_run. vm_compute. reflexivity.
Defined.

(** ** C9 *)

(** C9.  Every built record is the assembled record after the pruning
    loop: the [type] discriminator is always there, with the configured
    value or the default [PLAYING = 0]; every other property is kept exactly
    when its value is truthy and is not an empty sequence.  In particular
    an empty [details] text is dropped while [type: 0] stays. *)
Theorem prune_keeps_type_drops_empty env w act w' :
  createActivity env w = (Returned (Some act), w') →
  ∃ raw,
    assembleActivity env w = (Returned raw, w') ∧
    act !! "type" = Some (VNumber (default ActivityType.PLAYING (type (store env)))) ∧
    (∀ k v, k ≠ "type" →
       act !! k = Some v ↔
       raw !! k = Some v ∧ Js.truthy v = true ∧ Js.lengthIsZero v = false) ∧
    (raw !! "details" = Some (VString "") → act !! "details" = None).
Proof.
  intros H. apply createActivity_inv in H as (_ & raw & Hraw & ->).
  exists raw. split; [done|]. split; [|split].
  - apply (assembled_lookup_literal _ _ _ _ "type") in Hraw
      as (fd & w1 & fs & w2 & _ & _ & Hk); [|not_later].
    rewrite prune_lookup, Hk. unfold baseActivity.
    rewrite !lookup_insert_ne by done. by rewrite lookup_insert_eq.
  - intros k v Hk. rewrite prune_lookup.
    rewrite bool_decide_eq_false_2 by done. simpl. unfold isEmptyValue.
    destruct (raw !! k) as [v'|]; [|split; [done | by intros (? & _)]].
    destruct (Js.truthy v') eqn:Ht, (Js.lengthIsZero v') eqn:Hl; simpl;
      (split; [intros ?; by simplify_eq | intros (? & ? & ?); simplify_eq; congruence]).
  - intros Hd. by rewrite prune_lookup, Hd.
Qed.

Lemma prune_keeps_type_drops_empty_witness :
  createActivity plainEnv initialWorld
    = (Returned (Some (built plainEnv initialWorld)),
       exec (createActivity plainEnv) initialWorld) ∧
  details (store plainEnv) = Some "" ∧
  built plainEnv initialWorld !! "type" = Some (VNumber 0) ∧
  built plainEnv initialWorld !! "details" = None.
Proof.
  assert (createActivity plainEnv initialWorld
            = (Returned (Some (built plainEnv initialWorld)),
               exec (createActivity plainEnv) initialWorld)) as H.
  { apply builds_run. vm_compute. reflexivity. }
  destruct (prune_keeps_type_drops_empty plainEnv initialWorld _ _ H)
    as (raw & Hraw & Htype & _ & Hdetails).
  split; [exact H|]. split; [reflexivity|]. split; [exact Htype|].
  apply Hdetails.
  replace raw with (returned ∅ (assembleActivity plainEnv initialWorld).1)
    by (by rewrite Hraw).
  vm_compute. reflexivity.
Defined.

(** ** C2 *)

Lemma isEmptyValue_object_without_length (fields : Activity) :
  fields !! "length" = None → isEmptyValue (VObject fields) = false.
Proof. intros H. unfold isEmptyValue. simpl. by rewrite H. Qed.

(** C2, as the code has it.  With the first label "Play", no first URL,
    no second label and the second URL "http://x", every built record has
    the buttons ["Play"] and the URL list ["http://x"]: filtering the URL
    list closes the gap, so the second URL sits at position 0, the position
    of "Play". *)
Theorem button_urls_close_up env w act w' :
  buttonOneText (store env) = Some "Play" →
  buttonOneURL (store env) = None →
  Js.truthyStr (buttonTwoText (store env)) = false →
  buttonTwoURL (store env) = Some "http://x" →
  createActivity env w = (Returned (Some act), w') →
  act !! "buttons" = Some (VArray [VString "Play"]) ∧
  act !! "metadata" = Some (VObject {[ "button_urls" := VArray [VString "http://x"] ]}) ∧
  buttonAt act 0 = Some (VString "Play") ∧
  buttonUrlAt act 0 = Some (VString "http://x").
Proof.
  intros Hone Hurl1 Htwo Hurl2 H.
  apply createActivity_inv in H as (_ & raw & Hraw & ->).
  assert (prune raw !! "buttons" = Some (VArray [VString "Play"])) as Hb.
  { apply (assembled_lookup_buttons _ _ _ _ "buttons") in Hraw
      as (a1 & w2 & w3 & fd & fs & _ & Hk); [|done..].
    rewrite prune_lookup, Hk. unfold withButtons. rewrite Hone. simpl.
    rewrite lookup_insert_ne by done. rewrite lookup_insert_eq.
    destruct (buttonTwoText (store env)) as [[|c s]|]; try discriminate; reflexivity. }
  assert (prune raw !! "metadata"
          = Some (VObject {[ "button_urls" := VArray [VString "http://x"] ]})) as Hm.
  { apply (assembled_lookup_buttons _ _ _ _ "metadata") in Hraw
      as (a1 & w2 & w3 & fd & fs & _ & Hk); [|done..].
    rewrite prune_lookup, Hk. unfold withButtons. rewrite Hone, Hurl1, Hurl2. simpl.
    rewrite lookup_insert_eq. reflexivity. }
  split; [exact Hb|]. split; [exact Hm|].
  unfold buttonAt, buttonUrlAt. rewrite Hb, Hm. split; [reflexivity|].
  by rewrite lookup_singleton_eq.
Qed.

Lemma button_urls_close_up_witness :
  buttonOneText (store plainEnv) = Some "Play" ∧
  buttonOneURL (store plainEnv) = None ∧
  buttonTwoURL (store plainEnv) = Some "http://x" ∧
  buttonAt (built plainEnv initialWorld) 0 = Some (VString "Play") ∧
  buttonUrlAt (built plainEnv initialWorld) 0 = Some (VString "http://x").
Proof.
  destruct (button_urls_close_up plainEnv initialWorld
              (built plainEnv initialWorld)
              (exec (createActivity plainEnv) initialWorld))
    as (_ & _ & Hlabel & Hurl).
  - reflexivity.
  - reflexivity.
  - reflexivity.
  - reflexivity.
  - apply builds_run. vm_compute. reflexivity.
  - do 3 (split; [reflexivity|]). split; [exact Hlabel | exact Hurl].
Defined.

(** C2 as stated fails: here the record is built, its first button is
    "Play", and the URL at the same position is the second button's. *)
Lemma second_url_shifts_into_first_slot :
  ¬ (∀ act w', createActivity plainEnv initialWorld = (Returned (Some act), w') →
               buttonAt act 0 = Some (VString "Play") ∧
               buttonUrlAt act 0 ≠ Some (VString "http://x")).
Proof.
  intros Hclaim.
  destruct (Hclaim (built plainEnv initialWorld)
              (exec (createActivity plainEnv) initialWorld)) as [_ Hno].
  { apply builds_run. vm_compute. reflexivity. }
  apply Hno. vm_compute. reflexivity.
Qed.

(** ** The anchor: C6 and C5 *)

Ltac unfold_plugin :=
  unfold start, stop, fireTimer, timerCallback, setRpc, createActivity,
    assembleActivity, finishActivity, resolveLane, withBigImage, withSmallImage,
    setupRotationIntervals, setupLane, clearRotationIntervals, clearLane,
    dispatch, clearInterval.

Lemma resolveLane_anchor env l : preserves nowModeStartTime (resolveLane env l).
Proof. unfold_plugin. frame. Qed.

Lemma finishActivity_anchor env a : preserves nowModeStartTime (finishActivity env a).
Proof. unfold_plugin. frame. Qed.

Lemma withTimestamps_anchor env a :
  timestampMode (store env) ≠ Some NOW →
  preserves nowModeStartTime (withTimestamps env a).
Proof.
  intros Hmode. unfold withTimestamps.
  destruct (timestampMode (store env)) as [[]|]; try done; frame.
Qed.

Lemma anchorFor_held env t : t ≠ 0%Z → anchorFor env (Some t) = Some t.
Proof.
  intros Ht. unfold anchorFor, Js.truthyNum. simpl.
  by destruct (Z.eqb_spec t 0).
Qed.

(** C6, as the code has it.  In [NOW] mode (and with an application name)
    the builder leaves a held anchor as it is and attaches it as the start
    instant; when no anchor is held (it is [null], or zero) the builder
    first sets the anchor to the current instant and attaches that. *)
Theorem now_mode_uses_or_sets_anchor env w :
  timestampMode (store env) = Some NOW →
  Js.truthyStr (appName (store env)) = true →
  let anchor := anchorFor env (nowModeStartTime w) in
  nowModeStartTime (exec (createActivity env) w) = anchor ∧
  (∀ act w', createActivity env w = (Returned (Some act), w') →
             act !! "timestamps" = Some (VObject {[ "start" := Js.ofNumber anchor ]})) ∧
  (∀ t, nowModeStartTime w = Some t → t ≠ 0%Z → anchor = Some t).
Proof.
  intros Hmode Hname anchor.
  destruct (assembleActivity_run env w)
    as (fd & w1 & fs & w2 & a1 & w3 & E1 & E2 & E3 & E).
  rewrite withTimestamps_now in E3 by done.
  assert (nowModeStartTime w2 = nowModeStartTime w) as Hw2.
  { rewrite (preserves_run _ _ _ _ _ (resolveLane_anchor env State) E2).
    apply (preserves_run _ _ _ _ _ (resolveLane_anchor env Details) E1). }
  rewrite Hw2 in E3. fold anchor in E3. injection E3 as <- Hw3.
  assert (nowModeStartTime w3 = anchor) as Hanchor.
  { subst w3 anchor. unfold anchorFor.
    destruct (Js.truthyNum (nowModeStartTime w)); [exact Hw2 | reflexivity]. }
  split; [|split].
  - unfold exec. rewrite createActivity_named, bind_run, E by done.
    destruct (finishActivity env _ w3) as [[raw|] w4] eqn:EF; simpl;
      by rewrite (preserves_run _ _ _ _ _ (finishActivity_anchor env _) EF).
  - intros act w' H. apply createActivity_inv in H as (_ & raw & Hraw & ->).
    rewrite E in Hraw.
    rewrite prune_lookup, (finishActivity_lookup _ _ _ _ _ _ Hraw) by done.
    rewrite withButtons_lookup, withTextUrls_lookup by done.
    rewrite lookup_insert_eq. simpl.
    by rewrite isEmptyValue_object_without_length.
  - intros t Ht Hne. subst anchor. rewrite Ht. by apply anchorFor_held.
Qed.

Lemma now_mode_uses_or_sets_anchor_witness :
  timestampMode (store nowEnv) = Some NOW ∧
  Js.truthyStr (appName (store nowEnv)) = true ∧
  nowModeStartTime (exec (createActivity nowEnv) anchoredWorld) = Some 1000%Z ∧
  nowModeStartTime (exec (createActivity nowEnv) initialWorld) = Some 5000%Z.
Proof.
  split; [reflexivity|]. split; [reflexivity|]. split.
  - exact (proj1 (now_mode_uses_or_sets_anchor nowEnv anchoredWorld eq_refl eq_refl)).
  - exact (proj1 (now_mode_uses_or_sets_anchor nowEnv initialWorld eq_refl eq_refl)).
Defined.

(** C6 as stated fails: with no anchor held, the builder sets it. *)
Lemma builder_sets_missing_anchor :
  ¬ (∀ env w, timestampMode (store env) = Some NOW →
              nowModeStartTime (exec (createActivity env) w) = nowModeStartTime w).
Proof.
  intros Hclaim. specialize (Hclaim nowEnv initialWorld eq_refl).
  vm_compute in Hclaim. discriminate.
Qed.

Lemma clearRotationIntervals_returns w :
  ∃ w', clearRotationIntervals w = (Returned (), w').
Proof.
  unfold clearRotationIntervals, clearLane, clearInterval. run_monad.
  repeat case_match; simplify_eq; eauto.
Qed.

Section OutsideNow.
Context (env : Env).
Hypothesis Hmode : timestampMode (store env) ≠ Some NOW.

Lemma createActivity_anchor : preserves nowModeStartTime (createActivity env).
Proof using Hmode.
  pose proof (λ a, withTimestamps_anchor env a Hmode) as Hts.
  unfold_plugin. frame.
Qed.

Lemma setRpc_anchor disable : preserves nowModeStartTime (setRpc env disable).
Proof using Hmode.
  pose proof createActivity_anchor as Hbuild.
  unfold setRpc, setupRotationIntervals, setupLane, clearRotationIntervals,
    clearLane, dispatch, clearInterval.
  frame.
Qed.

Lemma fireTimer_anchor h : preserves nowModeStartTime (fireTimer env h).
Proof using Hmode.
  pose proof setRpc_anchor as Hrpc.
  unfold fireTimer, timerCallback. frame.
Qed.

Lemma start_anchor : preserves nowModeStartTime (start env).
Proof using Hmode.
  pose proof setRpc_anchor as Hrpc.
  unfold start, setupRotationIntervals, setupLane, clearRotationIntervals,
    clearLane, clearInterval.
  rewrite (bool_decide_eq_false_2 _ Hmode).
  frame.
Qed.

Lemma stop_anchor w : nowModeStartTime (exec (stop env) w) = None.
Proof using Hmode.
  unfold exec, stop. rewrite bind_run.
  destruct (clearRotationIntervals_returns w) as [w1 ->].
  exact (setRpc_anchor true (setNowModeStartTime None w1)).
Qed.
End OutsideNow.

(** C5, as the code has it.  While the timestamp mode is not [NOW], no
    operation but [stop] touches the anchor: a build, a publish, a timer
    tick and [start] all leave it exactly as it was, so an anchor set in
    [NOW] mode stays after the mode has changed; [stop] leaves it absent. *)
Theorem anchor_kept_outside_now env ev w :
  timestampMode (store env) ≠ Some NOW →
  nowModeStartTime (step w (env, ev)) =
  match ev with EvStop => None | _ => nowModeStartTime w end.
Proof.
  intros Hmode. destruct ev; unfold step; simpl.
  - apply preserves_exec, start_anchor, Hmode.
  - apply stop_anchor, Hmode.
  - apply preserves_exec, fireTimer_anchor, Hmode.
  - apply preserves_exec, setRpc_anchor, Hmode.
  - apply preserves_exec, createActivity_anchor, Hmode.
Qed.

Lemma anchor_kept_outside_now_witness :
  timestampMode (store laterEnv) ≠ Some NOW ∧
  nowModeStartTime (step anchoredWorld (laterEnv, EvSetRpc)) = Some 1000%Z.
Proof.
  assert (timestampMode (store laterEnv) ≠ Some NOW) as Hmode by (simpl; discriminate).
  split; [exact Hmode|].
  exact (anchor_kept_outside_now laterEnv EvSetRpc anchoredWorld Hmode).
Defined.

(** C5 as stated fails: the plugin starts in [NOW] mode, the mode is then
    changed to [NONE], and the next publish leaves the anchor in place. *)
Lemma anchor_survives_mode_change :
  ¬ (∀ cfgOld env ev w,
       anchorAbsentOutsideNow cfgOld w →
       anchorAbsentOutsideNow (store env) (step w (env, ev))).
Proof.
  intros Hclaim.
  specialize (Hclaim (store nowEnv) laterEnv EvSetRpc (run [(nowEnv, EvStart)] initialWorld)).
  unfold anchorAbsentOutsideNow in Hclaim.
  assert (nowModeStartTime
            (step (run [(nowEnv, EvStart)] initialWorld) (laterEnv, EvSetRpc)) = None) as H.
  { apply Hclaim; [intros Hne; by destruct Hne | simpl; discriminate]. }
  vm_compute in H. discriminate.
Qed.

(** ** C1 *)

Lemma createActivity_completes env w :
  assetsAnswer env → ∃ r w', createActivity env w = (Returned r, w').
Proof.
  intros Hassets. destruct (Js.truthyStr (appName (store env))) eqn:Hname.
  - destruct (createActivity_returns env w Hname Hassets) as (act & w' & H). eauto.
  - rewrite createActivity_nameless by done. eauto.
Qed.

Lemma clearRotationIntervals_dispatched : preserves dispatched clearRotationIntervals.
Proof. unfold_plugin. frame. Qed.

Lemma clearRotationIntervals_cleared l w :
  intervalId l (exec clearRotationIntervals w) = None.
Proof.
  unfold exec, clearRotationIntervals, clearLane, clearInterval. run_monad.
  destruct (detailsIntervalId w) eqn:Ed, (stateIntervalId w) eqn:Es, l; simpl;
    rewrite ?Ed, ?Es; simpl; done.
Qed.

Lemma setRpc_disable_run env w :
  assetsAnswer env →
  ∃ w2 r w3,
    clearRotationIntervals w = (Returned (), w2) ∧
    createActivity env w2 = (Returned r, w3) ∧
    setRpc env true w = (Returned (), setDispatched (dispatched w3 ++ [PayloadNull]) w3).
Proof.
  intros Hassets.
  destruct (clearRotationIntervals_returns w) as [w2 E2].
  destruct (createActivity_completes env w2 Hassets) as (r & w3 & E3).
  exists w2, r, w3. repeat split; try done.
  unfold setRpc. simpl. by rewrite bind_run, E2, bind_run, E3.
Qed.

Lemma stop_run env w :
  assetsAnswer env →
  (stop env w).1 = Returned () ∧
  dispatched (exec (stop env) w) = dispatched w ++ [PayloadNull] ∧
  ∀ l, intervalId l (exec (stop env) w) = None.
Proof.
  intros Hassets. unfold exec, stop. rewrite bind_run.
  destruct (clearRotationIntervals_returns w) as [w1 E1]. rewrite E1.
  rewrite bind_run. unfold modify at 1. unfold detach.
  destruct (setRpc_disable_run env (setNowModeStartTime None w1) Hassets)
    as (w2 & r & w3 & E2 & E3 & E4).
  split; [reflexivity|]. simpl. rewrite E4. simpl. split.
  - f_equal.
    rewrite (preserves_run _ _ _ _ _ (createActivity_dispatched env) E3).
    rewrite (preserves_run _ _ _ _ _ clearRotationIntervals_dispatched E2). simpl.
    apply (preserves_run _ _ _ _ _ clearRotationIntervals_dispatched E1).
  - intros l.
    transitivity (intervalId l w3); [by destruct l|].
    rewrite (preserves_run _ _ _ _ _ (createActivity_intervalId env l) E3).
    pose proof (clearRotationIntervals_cleared l (setNowModeStartTime None w1)) as Hc.
    unfold exec in Hc. by rewrite E2 in Hc.
Qed.

Lemma nullCount_snoc_null w w' :
  dispatched w' = dispatched w ++ [PayloadNull] → nullCount w' = S (nullCount w).
Proof.
  unfold nullCount. intros ->. rewrite filter_app, length_app. simpl. lia.
Qed.

(** C1, as the code has it.  [stop] never throws, and it has no memory of
    having run: every call whose build completes dispatches one [null],
    also a call on an already stopped plugin.  Two consecutive calls add
    two [null] events; the timers stay cleared throughout. *)
Theorem second_stop_publishes_null_again env1 env2 w :
  assetsAnswer env1 →
  assetsAnswer env2 →
  (stop env1 w).1 = Returned () ∧
  (stop env2 (exec (stop env1) w)).1 = Returned () ∧
  dispatched (exec (stop env2) (exec (stop env1) w))
    = dispatched w ++ [PayloadNull; PayloadNull] ∧
  nullCount (exec (stop env2) (exec (stop env1) w)) = (nullCount w + 2)%nat ∧
  ∀ l, intervalId l (exec (stop env1) w) = None ∧
       intervalId l (exec (stop env2) (exec (stop env1) w)) = None.
Proof.
  intros H1 H2.
  destruct (stop_run env1 w H1) as (Ho1 & Hd1 & Hi1).
  destruct (stop_run env2 (exec (stop env1) w) H2) as (Ho2 & Hd2 & Hi2).
  split; [exact Ho1|]. split; [exact Ho2|]. split; [|split].
  - rewrite Hd2, Hd1, <- app_assoc. reflexivity.
  - rewrite (nullCount_snoc_null _ _ Hd2), (nullCount_snoc_null _ _ Hd1). lia.
  - intros l. split; [apply Hi1 | apply Hi2].
Qed.

Lemma sampleEnv_assetsAnswer cfg now : assetsAnswer (sampleEnv cfg now).
Proof. intros key. simpl. discriminate. Qed.

Lemma second_stop_publishes_null_again_witness :
  assetsAnswer nowEnv ∧
  assetsAnswer laterEnv ∧
  nullCount (exec (stop laterEnv) (exec (stop nowEnv) initialWorld)) = 2%nat.
Proof.
  split; [apply sampleEnv_assetsAnswer|]. split; [apply sampleEnv_assetsAnswer|].
  apply (second_stop_publishes_null_again nowEnv laterEnv initialWorld);
    apply sampleEnv_assetsAnswer.
Defined.

(** C1 as stated fails: started, stopped and stopped again, the plugin has
    dispatched [null] once after the first stop and twice after the
    second. *)
Lemma two_stops_publish_two_nulls :
  nullCount (run [(nowEnv, EvStart); (laterEnv, EvStop)] initialWorld) = 1%nat ∧
  nullCount (run [(nowEnv, EvStart); (laterEnv, EvStop); (laterEnv, EvStop)] initialWorld)
    = 2%nat ∧
  nullCount (run [(nowEnv, EvStart); (laterEnv, EvStop); (laterEnv, EvStop)] initialWorld)
    ≠ 1%nat.
Proof. repeat split; vm_compute; (reflexivity || discriminate). Qed.

(** ** The lanes inside the builder: C8 *)

Lemma resolveLane_other_index env l l' :
  l ≠ l' → preserves (currentIndex l') (resolveLane env l).
Proof. intros Hl. destruct l, l'; try done; unfold_plugin; frame. Qed.

Lemma resolveLane_other_lastLines env l l' :
  l ≠ l' → preserves (lastLines l') (resolveLane env l).
Proof. intros Hl. destruct l, l'; try done; unfold_plugin; frame. Qed.

Lemma withTimestamps_index env l a : preserves (currentIndex l) (withTimestamps env a).
Proof. unfold withTimestamps. frame. Qed.

Lemma withTimestamps_lastLines env l a : preserves (lastLines l) (withTimestamps env a).
Proof. unfold withTimestamps. frame. Qed.

Lemma finishActivity_index env l a : preserves (currentIndex l) (finishActivity env a).
Proof. unfold_plugin. frame. Qed.

Lemma finishActivity_lastLines env l a : preserves (lastLines l) (finishActivity env a).
Proof. unfold_plugin. frame. Qed.

(** After the two lanes are resolved, nothing the builder does reaches an
    observation that the timestamps and the images leave alone. *)
Lemma createActivity_after_lanes {X} (f : World → X) env w :
  Js.truthyStr (appName (store env)) = true →
  (∀ a, preserves f (withTimestamps env a)) →
  (∀ a, preserves f (finishActivity env a)) →
  ∃ fd w1 fs w2,
    resolveLane env Details w = (Returned fd, w1) ∧
    resolveLane env State w1 = (Returned fs, w2) ∧
    f (exec (createActivity env) w) = f w2.
Proof.
  intros Hname Hts Hfin.
  destruct (assembleActivity_run env w)
    as (fd & w1 & fs & w2 & a1 & w3 & E1 & E2 & E3 & E).
  exists fd, w1, fs, w2. repeat split; try done.
  unfold exec. rewrite createActivity_named, bind_run, E by done.
  rewrite <- (preserves_run _ _ _ _ _ (Hts _) E3).
  destruct (finishActivity env _ w3) as [[raw|] w4] eqn:EF; simpl;
    apply (preserves_run _ _ _ _ _ (Hfin _) EF).
Qed.

(** What one lane contributes to a build: its text is resolved in a world
    that still has the lane's index and pool as they were, the lane's
    variables then stay as the resolution left them, and the text becomes
    the lane's property unless the pruning loop drops it. *)
Lemma lane_resolution env l w :
  Js.truthyStr (appName (store env)) = true →
  ∃ wb r wa,
    lastLines l wb = lastLines l w ∧
    currentIndex l wb = currentIndex l w ∧
    resolveLane env l wb = (Returned r, wa) ∧
    currentIndex l (exec (createActivity env) w) = currentIndex l wa ∧
    lastLines l (exec (createActivity env) w) = lastLines l wa ∧
    ∀ act w', createActivity env w = (Returned (Some act), w') →
      act !! laneKey l =
      if isEmptyValue (Js.ofString r) then None else Some (Js.ofString r).
Proof.
  intros Hname.
  destruct (createActivity_after_lanes (currentIndex l) env w Hname
              (withTimestamps_index env l) (finishActivity_index env l))
    as (fd & w1 & fs & w2 & E1 & E2 & Hindex).
  destruct (createActivity_after_lanes (lastLines l) env w Hname
              (withTimestamps_lastLines env l) (finishActivity_lastLines env l))
    as (fd' & w1' & fs' & w2' & E1' & E2' & Hlast).
  rewrite E1 in E1'. injection E1' as <- <-.
  rewrite E2 in E2'. injection E2' as <- <-.
  assert (∀ act w', createActivity env w = (Returned (Some act), w') →
            ∀ k, k ∉ laterKeys → k ≠ "type" →
            act !! k =
            match baseActivity (store env) fd fs !! k with
            | Some v => if isEmptyValue v then None else Some v
            | None => None
            end) as Hlookup.
  { intros act w' H k Hk Htype.
    apply createActivity_inv in H as (_ & raw & Hraw & ->).
    destruct (assembled_lookup_literal _ _ _ _ k Hraw Hk)
      as (fd' & w1' & fs' & w2' & E1' & E2' & Hbase).
    rewrite E1 in E1'. injection E1' as <- <-.
    rewrite E2 in E2'. injection E2' as <- <-.
    rewrite prune_lookup, Hbase, bool_decide_eq_false_2 by done. simpl.
    destruct (baseActivity (store env) fd fs !! k) as [v|]; [|done].
    by destruct (isEmptyValue v). }
  destruct l.
  - exists w, fd, w1. repeat split; try done.
    + rewrite Hindex.
      apply (preserves_run _ _ _ _ _ (resolveLane_other_index env State Details ltac:(done)) E2).
    + rewrite Hlast.
      apply (preserves_run _ _ _ _ _ (resolveLane_other_lastLines env State Details ltac:(done)) E2).
    + intros act w' H. unfold laneKey.
      rewrite (Hlookup act w' H "details"); [|not_later|done].
      unfold baseActivity. rewrite !lookup_insert_ne by done.
      by rewrite lookup_insert_eq.
  - exists w1, fs, w2. repeat split; try done.
    + apply (preserves_run _ _ _ _ _ (resolveLane_other_lastLines env Details State ltac:(done)) E1).
    + apply (preserves_run _ _ _ _ _ (resolveLane_other_index env Details State ltac:(done)) E1).
    + intros act w' H. unfold laneKey.
      rewrite (Hlookup act w' H "state"); [|not_later|done].
      unfold baseActivity. rewrite !lookup_insert_ne by done.
      by rewrite lookup_insert_eq.
Qed.

Lemma isEmptyValue_nonempty_string line : line ≠ "" → isEmptyValue (VString line) = false.
Proof. intros Hline. by destruct line. Qed.

Lemma lane_state_after_reset l lines k w :
  currentIndex l (setRandomCalls k (setCurrentIndex l 0 (setLastLines l lines w))) = 0%Z ∧
  lastLines l (setRandomCalls k (setCurrentIndex l 0 (setLastLines l lines w))) = lines ∧
  currentIndex l (setCurrentIndex l 0 (setLastLines l lines w)) = 0%Z ∧
  lastLines l (setCurrentIndex l 0 (setLastLines l lines w)) = lines.
Proof. by destruct l. Qed.

(** C8.  Take a build (the application name is set) in which a lane
    rotates over a non-empty pool, and let the freshly parsed pool differ
    from the recorded one.  Then the build records the new pool and resets
    the lane's index to 0, and the lane's text in the built record is a
    line of the new pool, never [undefined]: the line at index 0 in
    sequential mode, whatever the previous index was. *)
Theorem changed_pool_resets_index env l w :
  Js.truthyStr (appName (store env)) = true →
  modeEnabled (randomMode l (store env)) = true →
  Js.truthyStr (randomLines l (store env)) = true →
  parseLines (default "" (randomLines l (store env))) ≠ [] →
  lastLines l w ≠ parseLines (default "" (randomLines l (store env))) →
  currentIndex l (exec (createActivity env) w) = 0%Z ∧
  lastLines l (exec (createActivity env) w)
    = parseLines (default "" (randomLines l (store env))) ∧
  ∃ line,
    line ∈ parseLines (default "" (randomLines l (store env))) ∧
    (randomMode l (store env) = Some ModeNo →
     parseLines (default "" (randomLines l (store env))) !! 0%nat = Some line) ∧
    ∀ act w', createActivity env w = (Returned (Some act), w') →
              act !! laneKey l = Some (VString line).
Proof.
  intros Hname Hmode Hraw Hlines Hchanged.
  destruct (lane_resolution env l w Hname)
    as (wb & r & wa & Hlast & Hidx & E & Hi & Hl & Hact).
  pose proof (resolveLane_rotating env l wb Hmode Hraw Hlines) as E'.
  cbv zeta in E'. rewrite E in E'. clear E.
  set (lines := parseLines (default "" (randomLines l (store env)))) in *.
  assert (poolChanged (lastLines l wb) lines = true) as Hpool
    by (rewrite Hlast; by apply poolChanged_true).
  rewrite Hpool in E'.
  assert (0 < Z.of_nat (length lines))%Z as Hn by (destruct lines; [done | simpl; lia]).
  destruct (lane_state_after_reset l lines (S (randomCalls wb)) wb)
    as (Hri & Hrl & Hsi & Hsl).
  assert (∃ line, r = Some line ∧ line ∈ lines ∧
                  (randomMode l (store env) = Some ModeNo → lines !! 0%nat = Some line) ∧
                  currentIndex l wa = 0%Z ∧ lastLines l wa = lines)
    as (line & -> & Hin & Hfirst & Hwi & Hwl).
  { destruct (randomMode l (store env)) as [[]|] eqn:Hm; try discriminate.
    - rewrite bool_decide_eq_true_2 in E' by done. injection E' as -> ->.
      destruct (index_in_range lines _ (floorRandomTimes_range
                  (Math_random env (randomCalls (setCurrentIndex l 0 (setLastLines l lines wb))))
                  _ Hn)) as (line & Hline & Hin).
      exists line. repeat split; try done; by destruct l.
    - rewrite bool_decide_eq_false_2 in E' by done. injection E' as -> ->.
      rewrite Hsi, Z.rem_0_l by lia.
      destruct lines as [|line rest]; [done|].
      exists line. repeat split; try done. apply list_elem_of_here. }
  split; [by rewrite Hi|]. split; [by rewrite Hl|].
  exists line. repeat split; try done.
  intros act w' H. rewrite (Hact act w' H).
  simpl. rewrite isEmptyValue_nonempty_string; [done|].
  by apply (parseLines_nonblank (default "" (randomLines l (store env)))).
Qed.

Lemma changed_pool_resets_index_witness :
  currentIndex Details staleWorld = 2%Z ∧
  lastLines Details staleWorld = ["a"; "b"; "c"] ∧
  parseLines (default "" (randomLines Details (store shrunkEnv))) = ["x"; "y"] ∧
  currentIndex Details (exec (createActivity shrunkEnv) staleWorld) = 0%Z ∧
  built shrunkEnv staleWorld !! "details" = Some (VString "x").
Proof.
  destruct (changed_pool_resets_index shrunkEnv Details staleWorld)
    as (Hindex & _ & line & _ & Hfirst & Hact).
  - reflexivity.
  - reflexivity.
  - reflexivity.
  - vm_compute. discriminate.
  - vm_compute. discriminate.
  - do 3 (split; [vm_compute; reflexivity|]). split; [exact Hindex|].
    specialize (Hfirst eq_refl). vm_compute in Hfirst. injection Hfirst as <-.
    apply (Hact _ (exec (createActivity shrunkEnv) staleWorld)).
    apply builds_run. vm_compute. reflexivity.
Defined.

(** ** Arming the timers: C4 *)

Lemma setupLane_run env l w :
  setupLane env l w =
  (Returned (),
   if canArm l (store env)
      && bool_decide (1 < length (parseLines (default "" (randomLines l (store env)))))%nat
   then setIntervalId l (Some (nextTimerId w))
          (setNextTimerId (Pos.succ (nextTimerId w))
             (setTimers (<[nextTimerId w := laneTimer env l]> (timers w))
                (setLastLines l (parseLines (default "" (randomLines l (store env)))) w)))
   else w).
Proof.
  unfold setupLane. destruct (canArm l (store env)); simpl; [|reflexivity].
  case_bool_decide; [|reflexivity]. run_monad. by destruct l.
Qed.

Lemma setupRotationIntervals_run env w :
  ∃ w0,
    clearRotationIntervals w = (Returned (), w0) ∧
    setupRotationIntervals env w
      = (Returned (), exec (setupLane env State) (exec (setupLane env Details) w0)).
Proof.
  destruct (clearRotationIntervals_returns w) as [w0 E0]. exists w0. split; [done|].
  unfold setupRotationIntervals, exec.
  rewrite bind_run, E0, bind_run. rewrite !setupLane_run. reflexivity.
Qed.

(** Setting up the timers arms every lane that passes the test, with a
    timer that carries the lane's pool and interval, and records the pool. *)
Lemma setupRotationIntervals_armed env l w :
  canArm l (store env) = true →
  (1 < length (parseLines (default "" (randomLines l (store env)))))%nat →
  lastLines l (exec (setupRotationIntervals env) w)
    = parseLines (default "" (randomLines l (store env))) ∧
  ∃ h, intervalId l (exec (setupRotationIntervals env) w) = Some h ∧
       timers (exec (setupRotationIntervals env) w) !! h = Some (laneTimer env l).
Proof.
  intros Harm Hlen.
  destruct (setupRotationIntervals_run env w) as (w0 & _ & E).
  assert (exec (setupRotationIntervals env) w
          = exec (setupLane env State) (exec (setupLane env Details) w0)) as ->
    by (unfold exec at 1; by rewrite E).
  unfold exec. rewrite !setupLane_run. cbn [snd].
  destruct l.
  - rewrite Harm, (bool_decide_eq_true_2 _ Hlen). cbn [andb].
    destruct (canArm State (store env) && _).
    + split; [reflexivity|]. exists (nextTimerId w0). split; [reflexivity|].
      simpl. rewrite lookup_insert_ne by lia. by rewrite lookup_insert_eq.
    + split; [reflexivity|]. exists (nextTimerId w0). split; [reflexivity|].
      simpl. by rewrite lookup_insert_eq.
  - rewrite Harm, (bool_decide_eq_true_2 _ Hlen). cbn [andb].
    split; [reflexivity|]. eexists. split; [reflexivity|].
    simpl. by rewrite lookup_insert_eq.
Qed.

Lemma setupRotationIntervals_index env l :
  preserves (currentIndex l) (setupRotationIntervals env).
Proof. unfold_plugin. frame. Qed.

(** A publish is: set up the timers, build, dispatch; the dispatch is the
    only step that an observation blind to the dispatch log can miss. *)
Lemma setRpc_enable_exec {X} (f : World → X) env w :
  (∀ v w, f (setDispatched v w) = f w) →
  f (exec (setRpc env false) w)
    = f (exec (createActivity env) (exec (setupRotationIntervals env) w)).
Proof.
  intros Hf. destruct (setupRotationIntervals_run env w) as (w0 & _ & E).
  unfold exec, setRpc. simpl. rewrite bind_run, E, bind_run.
  destruct (createActivity env _) as [[r|] w3]; simpl; [apply Hf | reflexivity].
Qed.

(** A build that finds a rotating lane's pool as recorded leaves the
    lane's index and pool alone. *)
Lemma createActivity_same_pool env l w :
  modeEnabled (randomMode l (store env)) = true →
  Js.truthyStr (randomLines l (store env)) = true →
  parseLines (default "" (randomLines l (store env))) ≠ [] →
  lastLines l w = parseLines (default "" (randomLines l (store env))) →
  currentIndex l (exec (createActivity env) w) = currentIndex l w ∧
  lastLines l (exec (createActivity env) w) = lastLines l w.
Proof.
  intros Hmode Hraw Hlines Hsame.
  destruct (Js.truthyStr (appName (store env))) eqn:Hname.
  - destruct (lane_resolution env l w Hname)
      as (wb & r & wa & Hlast & Hidx & E & Hi & Hl & _).
    pose proof (resolveLane_rotating env l wb Hmode Hraw Hlines) as E'.
    cbv zeta in E'. rewrite E in E'. clear E.
    rewrite Hlast, Hsame in E'.
    rewrite (proj2 (poolChanged_false _ _) eq_refl) in E'.
    rewrite Hi, Hl, <- Hidx, <- Hlast.
    case_bool_decide; injection E' as -> ->; by destruct l.
  - unfold exec. by rewrite createActivity_nameless.
Qed.

Lemma canArm_enabled l cfg :
  canArm l cfg = true →
  modeEnabled (randomMode l cfg) = true ∧ Js.truthyStr (randomLines l cfg) = true.
Proof. unfold canArm. rewrite !andb_true_iff. tauto. Qed.

Lemma start_exec env w :
  exec (start env) w =
  exec (setRpc env false)
    (exec (setupRotationIntervals env)
       (if bool_decide (timestampMode (store env) = Some NOW)
        then setNowModeStartTime (Some (Date_now env)) w else w)).
Proof.
  unfold exec at 1. unfold start. rewrite bind_run.
  set (w0 := if bool_decide (timestampMode (store env) = Some NOW)
             then setNowModeStartTime (Some (Date_now env)) w else w).
  assert ((if bool_decide (timestampMode (store env) = Some NOW)
           then modify (setNowModeStartTime (Some (Date_now env)))
           else mret ()) w = (Returned (), w0)) as ->
    by (subst w0; by case_bool_decide).
  rewrite bind_run.
  destruct (setupRotationIntervals_run env w0) as (w1 & _ & E).
  unfold exec at 2. rewrite E. reflexivity.
Qed.

(** C4, as the code has it.  For a lane that passes the arming test and
    has more than one line, [start] records the pool and arms a repeating
    timer at the configured interval, and leaves the lane's rotation index
    at the value it had. *)
Theorem start_arms_and_keeps_index env l w :
  canArm l (store env) = true →
  (1 < length (parseLines (default "" (randomLines l (store env)))))%nat →
  currentIndex l (exec (start env) w) = currentIndex l w ∧
  lastLines l (exec (start env) w) = parseLines (default "" (randomLines l (store env))) ∧
  ∃ h, intervalId l (exec (start env) w) = Some h ∧
       timers (exec (start env) w) !! h = Some (laneTimer env l).
Proof.
  intros Harm Hlen. rewrite start_exec.
  set (w0 := if bool_decide (timestampMode (store env) = Some NOW)
             then setNowModeStartTime (Some (Date_now env)) w else w).
  set (wA := exec (setupRotationIntervals env) w0).
  set (wB := exec (setupRotationIntervals env) wA).
  destruct (canArm_enabled _ _ Harm) as [Hmode Hraw].
  assert (parseLines (default "" (randomLines l (store env))) ≠ []) as Hlines
    by (intros Hnil; rewrite Hnil in Hlen; simpl in Hlen; lia).
  destruct (setupRotationIntervals_armed env l wA Harm Hlen) as (Hlast & h & Hh & Ht).
  fold wB in Hlast, Hh, Ht.
  destruct (createActivity_same_pool env l wB Hmode Hraw Hlines Hlast) as [Hci Hcl].
  rewrite (setRpc_enable_exec (currentIndex l)) by (intros; by destruct l).
  rewrite (setRpc_enable_exec (lastLines l)) by (intros; by destruct l).
  rewrite (setRpc_enable_exec (intervalId l)) by (intros; by destruct l).
  rewrite (setRpc_enable_exec timers) by done.
  fold wA wB. split; [|split].
  - rewrite Hci. subst wB wA.
    rewrite !(preserves_exec _ _ _ (setupRotationIntervals_index env l)).
    subst w0. case_bool_decide; by destruct l.
  - by rewrite Hcl.
  - exists h. split.
    + by rewrite (preserves_exec _ _ _ (createActivity_intervalId env l)).
    + by rewrite (preserves_exec _ _ _ (createActivity_timers env)).
Qed.

Lemma start_arms_and_keeps_index_witness :
  canArm Details (store (rotEnv 3000)) = true ∧
  parseLines (default "" (randomLines Details (store (rotEnv 3000)))) = ["a"; "b"; "c"] ∧
  currentIndex Details restartWorld = 1%Z ∧
  intervalId Details restartWorld = None ∧
  currentIndex Details (exec (start (rotEnv 3000)) restartWorld) = 1%Z ∧
  ∃ h, intervalId Details (exec (start (rotEnv 3000)) restartWorld) = Some h ∧
       timers (exec (start (rotEnv 3000)) restartWorld) !! h
         = Some (laneTimer (rotEnv 3000) Details).
Proof.
  destruct (start_arms_and_keeps_index (rotEnv 3000) Details restartWorld)
    as (Hindex & _ & Htimer).
  - reflexivity.
  - vm_compute. lia.
  - assert (currentIndex Details restartWorld = 1%Z) as Hone by (vm_compute; reflexivity).
    do 2 (split; [vm_compute; reflexivity|]). split; [exact Hone|].
    split; [vm_compute; reflexivity|].
    split; [by rewrite Hindex | exact Htimer].
Defined.

(** C4 as stated fails: after one details tick and a stop, a new start
    re-arms the details lane and its index is still 1. *)
Lemma restart_keeps_old_index :
  ¬ (∀ env l w,
       canArm l (store env) = true →
       (1 < length (parseLines (default "" (randomLines l (store env)))))%nat →
       currentIndex l (exec (start env) w) = 0%Z).
Proof.
  intros Hclaim.
  specialize (Hclaim (rotEnv 3000) Details restartWorld eq_refl).
  assert (currentIndex Details (exec (start (rotEnv 3000)) restartWorld) = 0%Z) as H
    by (apply Hclaim; vm_compute; lia).
  vm_compute in H. discriminate.
Qed.

(** ** Timer ticks: C3 *)

(** A tick of one lane runs [setRpc()], and with it
    [setupRotationIntervals]: whenever the other lane passes the arming
    test, the tick leaves it with a timer armed at the instant of the
    tick. *)
Lemma tick_rearms_other_lane env h t w :
  timers w !! h = Some t →
  canArm (otherLane (timerLane t)) (store env) = true →
  (1 < length (parseLines
                 (default "" (randomLines (otherLane (timerLane t)) (store env)))))%nat →
  ∃ h', intervalId (otherLane (timerLane t)) (exec (fireTimer env h) w) = Some h' ∧
        timers (exec (fireTimer env h) w) !! h'
          = Some (laneTimer env (otherLane (timerLane t))).
Proof.
  intros Ht Harm Hlen.
  assert (∃ w1, exec (fireTimer env h) w = exec (setRpc env false) w1) as [w1 ->].
  { unfold exec, fireTimer. rewrite bind_run. unfold gets at 1. rewrite Ht.
    unfold timerCallback. rewrite bind_run. run_monad.
    case_bool_decide; eauto. }
  destruct (setupRotationIntervals_armed env _ w1 Harm Hlen) as (_ & h' & Hh & Hh').
  exists h'.
  rewrite (setRpc_enable_exec (intervalId _)) by (intros; by destruct (timerLane t)).
  rewrite (setRpc_enable_exec timers) by done.
  rewrite (preserves_exec _ _ _ (createActivity_intervalId env _)).
  by rewrite (preserves_exec _ _ _ (createActivity_timers env)).
Qed.

(** C3, on the code.  Both lanes are armed at instant 0, the details lane
    every second and the state lane every three seconds.  The details tick
    at 1000 ms advances only the details index, but it also cancels the
    state lane's timer (handle 4, due at 3000 ms) and arms a new one
    (handle 6) at the instant of the tick.  After the details ticks at
    1000, 2000 and 3000 ms the state lane has not ticked, and its timer has
    just been armed again. *)
Theorem details_tick_rearms_state_timer :
  (intervalId Details armedWorld = Some 3%positive ∧
   intervalId State armedWorld = Some 4%positive ∧
   timers armedWorld !! 4%positive = Some (laneTimer (rotEnv 0) State)) ∧
  (currentIndex Details tickedWorld = 1%Z ∧
   currentIndex State tickedWorld = currentIndex State armedWorld ∧
   intervalId State tickedWorld = Some 6%positive ∧
   timers tickedWorld !! 4%positive = None ∧
   timers tickedWorld !! 6%positive = Some (laneTimer (rotEnv 1000) State) ∧
   timerArmedAt (laneTimer (rotEnv 1000) State) = 1000%Z) ∧
  (currentIndex Details tickedThriceWorld = 0%Z ∧
   currentIndex State tickedThriceWorld = 0%Z ∧
   intervalId State tickedThriceWorld = Some 10%positive ∧
   timers tickedThriceWorld !! 10%positive = Some (laneTimer (rotEnv 3000) State) ∧
   length (dispatched tickedThriceWorld) = 4%nat).
Proof. repeat split; vm_compute; reflexivity. Qed.

(** * Further properties of the plugin *)

(** ** How the entry points unfold *)

Lemma fireTimer_exec env h w :
  exec (fireTimer env h) w =
  match timers w !! h with
  | Some t => exec (setRpc env false) (tickIndex env t w)
  | None => w
  end.
Proof.
  unfold exec, fireTimer. rewrite bind_run. unfold gets at 1.
  destruct (timers w !! h) as [t|]; [|reflexivity].
  unfold timerCallback, tickIndex. rewrite bind_run. run_monad.
  case_bool_decide; reflexivity.
Qed.

Lemma stop_exec env w :
  exec (stop env) w =
  exec (setRpc env true) (setNowModeStartTime None (exec clearRotationIntervals w)).
Proof.
  unfold exec at 1. unfold stop. rewrite bind_run.
  destruct (clearRotationIntervals_returns w) as [w1 E1].
  unfold exec at 2. rewrite E1. reflexivity.
Qed.

Lemma setRpc_disable_exec {X} (f : World → X) env w :
  (∀ v w, f (setDispatched v w) = f w) →
  f (exec (setRpc env true) w)
    = f (exec (createActivity env) (exec clearRotationIntervals w)).
Proof.
  intros Hf. destruct (clearRotationIntervals_returns w) as [w0 E].
  unfold exec, setRpc. simpl. rewrite bind_run, E, bind_run.
  destruct (createActivity env _) as [[r|] w3]; simpl; [apply Hf | reflexivity].
Qed.

Lemma start_exec_anchor env w :
  exec (start env) w
  = exec (setRpc env false) (exec (setupRotationIntervals env) (startAnchor env w)).
Proof. apply start_exec. Qed.

(** ** The timer table *)

Lemma createActivity_view env : preserves timerView (createActivity env).
Proof. unfold_plugin. unfold withTimestamps. frame. Qed.

Lemma timersOwned_view w w' :
  timerView w = timerView w' → timersOwned w → timersOwned w'.
Proof.
  unfold timerView. intros [= Ht Hd Hs Hn] [Hheld Hlive].
  assert (∀ l, intervalId l w' = intervalId l w) as Hid by (by intros []).
  split.
  - intros l h. rewrite Hid, <- Ht. apply Hheld.
  - intros h t. rewrite Hid, <- Ht, <- Hn. apply Hlive.
Qed.

(** Cancelling the timers of a world that owns its table leaves the table
    empty. *)
Lemma clearRotationIntervals_view w :
  timersOwned w →
  timerView (exec clearRotationIntervals w) = (∅, None, None, nextTimerId w).
Proof.
  intros [Hheld Hlive].
  assert (∀ tm : gmap positive Timer,
            (∀ h t, tm !! h = Some t → timers w !! h = Some t ∧
                      intervalId (timerLane t) w ≠ Some h) → tm = ∅) as Hempty.
  { intros tm Htm. apply map_eq. intros h. rewrite lookup_empty.
    destruct (tm !! h) as [t|] eqn:E; [|done].
    destruct (Htm h t E) as [Hw Hne]. by destruct (Hlive h t Hw). }
  unfold exec, clearRotationIntervals, clearLane, clearInterval, timerView. run_monad.
  destruct (detailsIntervalId w) as [hd|] eqn:Ed, (stateIntervalId w) as [hs|] eqn:Es;
    simpl; rewrite ?Ed, ?Es; simpl; repeat f_equal; try done; apply Hempty; intros h t.
  - rewrite !lookup_delete_Some. intros (Hs & Hd & Ht). split; [done|].
    destruct (timerLane t); simpl; congruence.
  - rewrite !lookup_delete_Some. intros (Hd & Ht). split; [done|].
    destruct (timerLane t) eqn:El; simpl; [congruence|].
    destruct (Hlive h t Ht) as [Hid _]. rewrite El in Hid. simpl in Hid. congruence.
  - rewrite !lookup_delete_Some. intros (Hs & Ht). split; [done|].
    destruct (timerLane t) eqn:El; simpl; [|congruence].
    destruct (Hlive h t Ht) as [Hid _]. rewrite El in Hid. simpl in Hid. congruence.
  - intros Ht. split; [done|].
    destruct (Hlive h t Ht) as [Hid _].
    destruct (timerLane t); simpl in *; congruence.
Qed.

(** The timer table after [setupRotationIntervals], in a world that owned
    its table before: one fresh timer for each lane that is armed. *)
Lemma setupRotationIntervals_view env w :
  timersOwned w →
  timerView (exec (setupRotationIntervals env) w) =
  let n := nextTimerId w in
  match arms env Details, arms env State with
  | true, true =>
      (<[Pos.succ n := laneTimer env State]> (<[n := laneTimer env Details]> ∅),
       Some n, Some (Pos.succ n), Pos.succ (Pos.succ n))
  | true, false => (<[n := laneTimer env Details]> ∅, Some n, None, Pos.succ n)
  | false, true => (<[n := laneTimer env State]> ∅, None, Some n, Pos.succ n)
  | false, false => (∅, None, None, n)
  end.
Proof.
  intros Howned. pose proof (clearRotationIntervals_view w Howned) as Hclear.
  destruct (setupRotationIntervals_run env w) as (w0 & E0 & E).
  unfold exec in Hclear. rewrite E0 in Hclear. simpl in Hclear.
  unfold timerView in Hclear. injection Hclear as Ht Hd Hs Hn.
  unfold exec at 1. rewrite E. cbn [snd]. unfold exec.
  rewrite !setupLane_run. cbn [snd]. fold (arms env Details) (arms env State).
  unfold timerView.
  destruct (arms env Details), (arms env State); simpl; rewrite ?Ht, ?Hd, ?Hs, ?Hn;
    reflexivity.
Qed.

Lemma arms_lines env l :
  arms env l = true → (1 < length (timerLines (laneTimer env l)))%nat.
Proof. unfold arms. rewrite andb_true_iff, bool_decide_eq_true. by intros [_ ?]. Qed.

(** Whatever the store says, [setupRotationIntervals] hands back a table
    that the plugin owns and whose timers rotate. *)
Lemma setupRotationIntervals_owned env w :
  timersOwned w →
  timersOwned (exec (setupRotationIntervals env) w) ∧
  timersRotate (exec (setupRotationIntervals env) w).
Proof.
  intros Howned. pose proof (setupRotationIntervals_view env w Howned) as Hview.
  cbv zeta in Hview. unfold timerView in Hview.
  set (w' := exec (setupRotationIntervals env) w) in *.
  set (n := nextTimerId w) in *.
  destruct (arms env Details) eqn:Ad, (arms env State) eqn:As;
    injection Hview as Ht Hd Hs Hn;
    (split; [split|]).
  - intros [] h; simpl; rewrite ?Hd, ?Hs, Ht; intros [= <-].
    + exists (laneTimer env Details). rewrite lookup_insert_ne by lia.
      by rewrite lookup_insert_eq.
    + exists (laneTimer env State). by rewrite lookup_insert_eq.
  - intros h t. rewrite Ht, Hn. intros H.
    apply lookup_insert_Some in H as [[<- <-] | [Hne H]].
    + simpl. split; [exact Hs | lia].
    + apply lookup_insert_Some in H as [[<- <-] | [_ H]]; [|by rewrite lookup_empty in H].
      simpl. split; [exact Hd | lia].
  - intros h t. rewrite Ht. intros H.
    apply lookup_insert_Some in H as [[_ <-] | [_ H]]; [by apply arms_lines|].
    apply lookup_insert_Some in H as [[_ <-] | [_ H]]; [by apply arms_lines|].
    by rewrite lookup_empty in H.
  - intros [] h; simpl; rewrite ?Hd, ?Hs, Ht; intros [= <-].
    exists (laneTimer env Details). by rewrite lookup_insert_eq.
  - intros h t. rewrite Ht, Hn. intros H.
    apply lookup_insert_Some in H as [[<- <-] | [_ H]]; [|by rewrite lookup_empty in H].
    simpl. split; [exact Hd | lia].
  - intros h t. rewrite Ht. intros H.
    apply lookup_insert_Some in H as [[_ <-] | [_ H]]; [by apply arms_lines|].
    by rewrite lookup_empty in H.
  - intros [] h; simpl; rewrite ?Hd, ?Hs, Ht; intros [= <-].
    exists (laneTimer env State). by rewrite lookup_insert_eq.
  - intros h t. rewrite Ht, Hn. intros H.
    apply lookup_insert_Some in H as [[<- <-] | [_ H]]; [|by rewrite lookup_empty in H].
    simpl. split; [exact Hs | lia].
  - intros h t. rewrite Ht. intros H.
    apply lookup_insert_Some in H as [[_ <-] | [_ H]]; [by apply arms_lines|].
    by rewrite lookup_empty in H.
  - intros [] h; simpl; rewrite ?Hd, ?Hs; intros [=].
  - intros h t. rewrite Ht. by rewrite lookup_empty.
  - intros h t. rewrite Ht. by rewrite lookup_empty.
Qed.

(** ** The rotation indices *)

Lemma resolveLane_index_cases env l w o w' :
  resolveLane env l w = (o, w') →
  currentIndex l w' = currentIndex l w ∨ currentIndex l w' = 0%Z.
Proof.
  unfold resolveLane. run_monad.
  repeat case_match; intros; simplify_eq; destruct l; simpl; auto.
Qed.

Lemma createActivity_index_cases env l w :
  currentIndex l (exec (createActivity env) w) = currentIndex l w ∨
  currentIndex l (exec (createActivity env) w) = 0%Z.
Proof.
  destruct (Js.truthyStr (appName (store env))) eqn:Hname.
  - destruct (lane_resolution env l w Hname)
      as (wb & r & wa & _ & Hidx & E & Hi & _ & _).
    rewrite Hi, <- Hidx. by eapply resolveLane_index_cases.
  - left. unfold exec. by rewrite createActivity_nameless.
Qed.

Lemma setupRotationIntervals_dispatched env :
  preserves dispatched (setupRotationIntervals env).
Proof. unfold_plugin. frame. Qed.

Lemma clearRotationIntervals_index l : preserves (currentIndex l) clearRotationIntervals.
Proof. unfold_plugin. frame. Qed.

Lemma tickIndex_view env t w : timerView (tickIndex env t w) = timerView w.
Proof. unfold tickIndex. case_bool_decide; by destruct (timerLane t). Qed.

Lemma tickIndex_other env t w l :
  l ≠ timerLane t → currentIndex l (tickIndex env t w) = currentIndex l w.
Proof. unfold tickIndex. intros Hl. case_bool_decide; by destruct l, (timerLane t). Qed.

(** A tick leaves the index of its lane inside the pool it was armed
    with. *)
Lemma tickIndex_range env t w :
  (1 < length (timerLines t))%nat →
  (0 ≤ currentIndex (timerLane t) w)%Z →
  (0 ≤ currentIndex (timerLane t) (tickIndex env t w)
     < Z.of_nat (length (timerLines t)))%Z.
Proof.
  intros Hlen Hidx. unfold tickIndex. case_bool_decide.
  - replace (currentIndex (timerLane t) _) with
      (Js.floorRandomTimes (Math_random env (randomCalls w))
         (Z.of_nat (length (timerLines t)))) by (by destruct (timerLane t)).
    apply floorRandomTimes_range. lia.
  - replace (currentIndex (timerLane t) (setCurrentIndex (timerLane t) _ w))
      with (Z.rem (currentIndex (timerLane t) w + 1) (Z.of_nat (length (timerLines t))))
      by (by destruct (timerLane t)).
    apply Z.rem_bound_pos; lia.
Qed.

(** ** The invariants hold along every run *)

Lemma wellFormed_view w w' :
  timerView w = timerView w' → indicesNonneg w' → wellFormed w → wellFormed w'.
Proof.
  intros Hview Hidx (Howned & Hrot & _). split; [|split; [|done]].
  - by eapply timersOwned_view.
  - unfold timerView in Hview. injection Hview as Ht _ _ _.
    intros h t. rewrite <- Ht. apply Hrot.
Qed.

Lemma wellFormed_createActivity env w :
  wellFormed w → wellFormed (exec (createActivity env) w).
Proof.
  intros Hw. eapply wellFormed_view; [| |exact Hw].
  - symmetry. apply (preserves_exec timerView), createActivity_view.
  - intros l. destruct Hw as (_ & _ & Hidx). specialize (Hidx l).
    destruct (createActivity_index_cases env l w) as [-> | ->]; lia.
Qed.

Lemma wellFormed_setup env w :
  wellFormed w → wellFormed (exec (setupRotationIntervals env) w).
Proof.
  intros (Howned & _ & Hidx).
  destruct (setupRotationIntervals_owned env w Howned) as [Ho Hr].
  split; [done|]. split; [done|].
  intros l. rewrite (preserves_exec _ _ _ (setupRotationIntervals_index env l)). apply Hidx.
Qed.

Lemma wellFormed_clear w :
  wellFormed w → wellFormed (exec clearRotationIntervals w).
Proof.
  intros (Howned & _ & Hidx).
  pose proof (clearRotationIntervals_view w Howned) as Hview.
  unfold timerView in Hview. injection Hview as Ht Hd Hs Hn.
  split; [split|split].
  - intros [] h; simpl; rewrite ?Hd, ?Hs; intros [=].
  - intros h t. rewrite Ht. by rewrite lookup_empty.
  - intros h t. rewrite Ht. by rewrite lookup_empty.
  - intros l. rewrite (preserves_exec _ _ _ (clearRotationIntervals_index l)). apply Hidx.
Qed.

Lemma wellFormed_blind w w' :
  timerView w' = timerView w →
  (∀ l, currentIndex l w' = currentIndex l w) →
  wellFormed w → wellFormed w'.
Proof.
  intros Hview Hidx Hw. eapply wellFormed_view; [symmetry; exact Hview | | exact Hw].
  intros l. rewrite Hidx. by destruct Hw as (_ & _ & H).
Qed.

Lemma wellFormed_setRpc env disable w :
  wellFormed w → wellFormed (exec (setRpc env disable) w).
Proof.
  intros Hw. destruct disable.
  - apply (wellFormed_blind (exec (createActivity env) (exec clearRotationIntervals w))).
    + by apply (setRpc_disable_exec timerView).
    + intros l. apply (setRpc_disable_exec (currentIndex l)). intros; by destruct l.
    + by apply wellFormed_createActivity, wellFormed_clear.
  - apply (wellFormed_blind (exec (createActivity env) (exec (setupRotationIntervals env) w))).
    + by apply (setRpc_enable_exec timerView).
    + intros l. apply (setRpc_enable_exec (currentIndex l)). intros; by destruct l.
    + by apply wellFormed_createActivity, wellFormed_setup.
Qed.

Lemma wellFormed_tickIndex env h t w :
  wellFormed w → timers w !! h = Some t → wellFormed (tickIndex env t w).
Proof.
  intros Hw Ht. eapply wellFormed_view; [symmetry; apply tickIndex_view | | exact Hw].
  destruct Hw as (_ & Hrot & Hidx). intros l.
  destruct (decide (l = timerLane t)) as [-> | Hl].
  - apply tickIndex_range; [by eapply Hrot | apply Hidx].
  - rewrite tickIndex_other by done. apply Hidx.
Qed.

Lemma wellFormed_step env ev w : wellFormed w → wellFormed (step w (env, ev)).
Proof.
  intros Hw. destruct ev; unfold step; simpl.
  - rewrite start_exec_anchor. apply wellFormed_setRpc, wellFormed_setup.
    apply (wellFormed_blind w); [| |done]; unfold startAnchor; by case_bool_decide.
  - rewrite stop_exec. apply wellFormed_setRpc.
    apply (wellFormed_blind (exec clearRotationIntervals w)); [done|done|].
    by apply wellFormed_clear.
  - rewrite fireTimer_exec. destruct (timers w !! h) as [t|] eqn:Ht; [|done].
    apply wellFormed_setRpc. by eapply wellFormed_tickIndex.
  - by apply wellFormed_setRpc.
  - by apply wellFormed_createActivity.
Qed.

Lemma wellFormed_initial : wellFormed initialWorld.
Proof.
  split; [split|split].
  - intros [] h; simpl; intros [=].
  - intros h t. simpl. by rewrite lookup_empty.
  - intros h t. simpl. by rewrite lookup_empty.
  - intros []; simpl; lia.
Qed.

Lemma wellFormed_run evs w : wellFormed w → wellFormed (run evs w).
Proof.
  revert w. induction evs as [|[env ev] evs IH]; intros w Hw; simpl; [done|].
  apply IH. by apply wellFormed_step.
Qed.

(** X1.  Along every run from the freshly loaded plugin, the plugin owns
    the timer table: each handle a lane holds names a live timer of that
    lane, every live timer is the one its lane holds (so no timer is left
    dangling and no lane has two), every live timer rotates over at least
    two lines, and at most two timers are alive. *)
Theorem timers_owned_along_every_run (evs : list (Env * Event)) :
  timersOwned (run evs initialWorld) ∧
  timersRotate (run evs initialWorld) ∧
  size (timers (run evs initialWorld)) ≤ 2.
Proof.
  destruct (wellFormed_run evs initialWorld wellFormed_initial) as (Howned & Hrot & _).
  split; [done|]. split; [done|].
  set (w := run evs initialWorld) in *.
  set (held := (match detailsIntervalId w with Some h => {[h]} | None => ∅ end
                ∪ match stateIntervalId w with Some h => {[h]} | None => ∅ end)
               : gset positive).
  assert (dom (timers w) ⊆ held) as Hdom.
  { intros h [t Ht]%elem_of_dom. destruct Howned as [_ Hlive].
    destruct (Hlive h t Ht) as [Hid _]. subst held.
    destruct (timerLane t); simpl in Hid; rewrite Hid; set_solver. }
  rewrite <- size_dom. etrans; [apply (subseteq_size _ _ Hdom)|].
  subst held. rewrite size_union_alt.
  assert (∀ o : option positive,
            size (match o with Some h => {[h]} | None => ∅ end : gset positive) ≤ 1) as Hone.
  { intros [h|]; [by rewrite size_singleton | by rewrite size_empty; lia]. }
  pose proof (Hone (detailsIntervalId w)).
  pose proof (Hone (stateIntervalId w)).
  pose proof (subseteq_size
                (match stateIntervalId w with Some h => {[h]} | None => ∅ end
                 ∖ match detailsIntervalId w with Some h => {[h]} | None => ∅ end)
                (match stateIntervalId w with Some h => {[h]} | None => ∅ end : gset positive)
                ltac:(set_solver)).
  lia.
Qed.

(** X2.  After [stop], whenever it is called along a run, no timer is alive
    and neither lane holds a handle. *)
Theorem stop_leaves_no_timer (evs : list (Env * Event)) (env : Env) :
  timers (exec (stop env) (run evs initialWorld)) = ∅ ∧
  ∀ l, intervalId l (exec (stop env) (run evs initialWorld)) = None.
Proof.
  pose proof (wellFormed_run evs initialWorld wellFormed_initial) as Hw.
  set (w := run evs initialWorld) in *.
  assert (timerView (exec (stop env) w) = (∅, None, None, nextTimerId w)) as Hview.
  { rewrite stop_exec.
    rewrite (setRpc_disable_exec timerView) by done.
    rewrite (preserves_exec _ _ _ (createActivity_view env)).
    set (w1 := setNowModeStartTime None (exec clearRotationIntervals w)).
    assert (wellFormed w1) as (Ho1 & _ & _).
    { apply (wellFormed_blind (exec clearRotationIntervals w)); [done|done|].
      by apply wellFormed_clear. }
    rewrite (clearRotationIntervals_view w1 Ho1). subst w1. simpl.
    destruct Hw as (Ho & _ & _).
    pose proof (clearRotationIntervals_view w Ho) as Hc.
    unfold timerView in Hc. by injection Hc as _ _ _ ->. }
  unfold timerView in Hview. injection Hview as Ht Hd Hs _.
  split; [done|]. by intros [].
Qed.

(** X3.  Along every run, a tick of a live timer leaves the index of its
    lane inside the pool the timer was armed with, in sequential and in
    random mode alike. *)
Theorem tick_keeps_index_in_pool (evs : list (Env * Event)) env h t :
  timers (run evs initialWorld) !! h = Some t →
  (0 ≤ currentIndex (timerLane t) (exec (fireTimer env h) (run evs initialWorld))
     < Z.of_nat (length (timerLines t)))%Z.
Proof.
  intros Ht.
  pose proof (wellFormed_run evs initialWorld wellFormed_initial) as (_ & Hrot & Hidx).
  set (w := run evs initialWorld) in *.
  rewrite fireTimer_exec, Ht.
  rewrite (setRpc_enable_exec (currentIndex _)) by (intros; by destruct (timerLane t)).
  pose proof (tickIndex_range env t w (Hrot h t Ht) (Hidx _)) as Hrange.
  pose proof (Hrot h t Ht) as Hlen.
  destruct (createActivity_index_cases env (timerLane t)
              (exec (setupRotationIntervals env) (tickIndex env t w))) as [-> | ->].
  - by rewrite (preserves_exec _ _ _ (setupRotationIntervals_index env _)).
  - lia.
Qed.

Lemma tick_keeps_index_in_pool_witness :
  timers (run [(rotEnv 0, EvStart)] initialWorld) !! 3%positive
    = Some (laneTimer (rotEnv 0) Details) ∧
  (0 ≤ currentIndex Details
         (exec (fireTimer (rotEnv 1000) 3) (run [(rotEnv 0, EvStart)] initialWorld))
     < 3)%Z.
Proof.
  assert (timers (run [(rotEnv 0, EvStart)] initialWorld) !! 3%positive
          = Some (laneTimer (rotEnv 0) Details)) as H by (vm_compute; reflexivity).
  split; [exact H|].
  exact (tick_keeps_index_in_pool [(rotEnv 0, EvStart)] (rotEnv 1000) 3 _ H).
Defined.

(** ** What a publish dispatches *)

Lemma setRpc_enable_dispatch env w r w3 :
  createActivity env (exec (setupRotationIntervals env) w) = (Returned r, w3) →
  dispatched (exec (setRpc env false) w) =
  dispatched w ++ [match r with Some a => PayloadActivity a | None => PayloadUndefined end].
Proof.
  intros H. destruct (setupRotationIntervals_run env w) as (w0 & _ & E).
  pose proof (preserves_exec dispatched _ w (setupRotationIntervals_dispatched env)) as Hs.
  unfold exec in H, Hs. rewrite E in H, Hs. simpl in H, Hs.
  unfold exec, setRpc. simpl. rewrite bind_run, E, bind_run, H. simpl. f_equal.
  by rewrite (preserves_run _ _ _ _ _ (createActivity_dispatched env) H).
Qed.

(** ** The text a rotating lane publishes *)

(** The line a rotating lane contributes to a build: after a changed pool
    the index counts as 0; sequential mode takes the line at the index
    modulo the pool length, random mode some line of the pool. *)
Lemma rotating_text env l w :
  Js.truthyStr (appName (store env)) = true →
  modeEnabled (randomMode l (store env)) = true →
  Js.truthyStr (randomLines l (store env)) = true →
  parseLines (default "" (randomLines l (store env))) ≠ [] →
  (0 ≤ currentIndex l w)%Z →
  ∃ line,
    line ∈ parseLines (default "" (randomLines l (store env))) ∧
    (randomMode l (store env) = Some ModeNo →
     parseLines (default "" (randomLines l (store env)))
       !! Z.to_nat ((if poolChanged (lastLines l w)
                          (parseLines (default "" (randomLines l (store env))))
                     then 0 else currentIndex l w)
                    `mod` Z.of_nat (length (parseLines (default "" (randomLines l (store env))))))
     = Some line) ∧
    ∀ act w', createActivity env w = (Returned (Some act), w') →
              act !! laneKey l = Some (VString line).
Proof.
  intros Hname Hmode Hraw Hlines Hnonneg.
  destruct (lane_resolution env l w Hname)
    as (wb & r & wa & Hlast & Hidx & E & _ & _ & Hact).
  pose proof (resolveLane_rotating env l wb Hmode Hraw Hlines) as E'.
  cbv zeta in E'. rewrite E in E'. clear E.
  set (lines := parseLines (default "" (randomLines l (store env)))) in *.
  rewrite Hlast in E'.
  set (w1 := if poolChanged (lastLines l w) lines
             then setCurrentIndex l 0 (setLastLines l lines wb) else wb) in *.
  set (i := if poolChanged (lastLines l w) lines then 0%Z else currentIndex l w).
  assert (currentIndex l w1 = i) as Hi.
  { subst w1 i. destruct (poolChanged (lastLines l w) lines); [by destruct l | done]. }
  assert (0 ≤ i)%Z as Hi0 by (subst i; by destruct (poolChanged (lastLines l w) lines)).
  assert (0 < Z.of_nat (length lines))%Z as Hn by (destruct lines; [done | simpl; lia]).
  assert (∃ line, r = Some line ∧ line ∈ lines ∧
                  (randomMode l (store env) = Some ModeNo →
                   lines !! Z.to_nat (i `mod` Z.of_nat (length lines)) = Some line))
    as (line & -> & Hin & Hseq).
  { destruct (randomMode l (store env)) as [[]|] eqn:Hm; try discriminate.
    - rewrite bool_decide_eq_true_2 in E' by done. injection E' as -> _.
      destruct (index_in_range lines _
                  (floorRandomTimes_range (Math_random env (randomCalls w1)) _ Hn))
        as (line & Hline & Hin).
      exists line. repeat split; try done.
    - rewrite bool_decide_eq_false_2 in E' by done. injection E' as -> _.
      rewrite Hi, Z.rem_mod_nonneg by lia.
      pose proof (Z.mod_pos_bound i (Z.of_nat (length lines)) Hn) as Hbound.
      destruct (index_in_range lines _ Hbound) as (line & Hline & Hin).
      exists line. split; [exact Hline|]. split; [exact Hin|]. intros _.
      unfold Js.index in Hline.
      destruct (Z.ltb_spec (i `mod` Z.of_nat (length lines)) 0); [lia | exact Hline]. }
  exists line. split; [exact Hin|]. split; [exact Hseq|].
  intros act w' H. rewrite (Hact act w' H). simpl.
  rewrite isEmptyValue_nonempty_string; [done|].
  by apply (parseLines_nonblank (default "" (randomLines l (store env)))).
Qed.

(** X4.  Along every run, a build never publishes [undefined] (nor reads
    outside the pool) for a lane that rotates over a non-empty pool: the
    lane's property in the built record is always one of the pool's lines,
    whatever the indices and recorded pools have become. *)
Theorem rotating_lane_publishes_pool_line (evs : list (Env * Event)) env l act w' :
  Js.truthyStr (appName (store env)) = true →
  modeEnabled (randomMode l (store env)) = true →
  Js.truthyStr (randomLines l (store env)) = true →
  parseLines (default "" (randomLines l (store env))) ≠ [] →
  createActivity env (run evs initialWorld) = (Returned (Some act), w') →
  ∃ line, line ∈ parseLines (default "" (randomLines l (store env))) ∧
          act !! laneKey l = Some (VString line).
Proof.
  intros Hname Hmode Hraw Hlines H.
  pose proof (wellFormed_run evs initialWorld wellFormed_initial) as (_ & _ & Hidx).
  destruct (rotating_text env l (run evs initialWorld) Hname Hmode Hraw Hlines (Hidx l))
    as (line & Hin & _ & Hact).
  exists line. split; [exact Hin | by eapply Hact].
Qed.



Lemma rotating_lane_publishes_pool_line_witness :
  parseLines (default "" (randomLines Details (store shrunkEnv))) = ["x"; "y"] ∧
  currentIndex Details restartWorld = 1%Z ∧
  ∃ line, line ∈ parseLines (default "" (randomLines Details (store shrunkEnv))) ∧
          built shrunkEnv restartWorld !! laneKey Details = Some (VString line).
Proof.
  split; [vm_compute; reflexivity|]. split; [vm_compute; reflexivity|].
  unfold restartWorld.
  eapply (rotating_lane_publishes_pool_line
            [(rotEnv 0, EvStart); (rotEnv 1000, EvFire 3); (rotEnv 2000, EvStop)]
            shrunkEnv Details).
  - reflexivity.
  - reflexivity.
  - reflexivity.
  - vm_compute. discriminate.
  - apply builds_run. vm_compute. reflexivity.
Defined.

(** X5.  A sequential tick publishes the next line.  Take a live timer of
    a lane in sequential mode whose pool is still the one in the store, a
    store that still arms the lane and names the application, and an asset
    service that answers.  Then the tick moves the lane's index from [i] to
    [(i + 1) mod n], and dispatches exactly one activity, whose text for the
    lane is the pool's line at the new index. *)
Theorem sequential_tick_publishes_next_line env h t w :
  timers w !! h = Some t →
  timerMode t = Some ModeNo →
  randomMode (timerLane t) (store env) = Some ModeNo →
  timerLines t = parseLines (default "" (randomLines (timerLane t) (store env))) →
  arms env (timerLane t) = true →
  Js.truthyStr (appName (store env)) = true →
  assetsAnswer env →
  (0 ≤ currentIndex (timerLane t) w)%Z →
  let next := ((currentIndex (timerLane t) w + 1) `mod` Z.of_nat (length (timerLines t)))%Z in
  currentIndex (timerLane t) (exec (fireTimer env h) w) = next ∧
  ∃ act line,
    timerLines t !! Z.to_nat next = Some line ∧
    dispatched (exec (fireTimer env h) w) = dispatched w ++ [PayloadActivity act] ∧
    act !! laneKey (timerLane t) = Some (VString line).
Proof.
  intros Ht Hseq Hmode Hpool Harms Hname Hassets Hidx next.
  set (l := timerLane t) in *.
  set (lines := parseLines (default "" (randomLines l (store env)))) in *.
  apply andb_true_iff in Harms as [Harm Hlen%bool_decide_eq_true]. fold lines in Hlen.
  destruct (canArm_enabled _ _ Harm) as [Hen Hraw].
  assert (lines ≠ []) as Hlines by (intros Hnil; rewrite Hnil in Hlen; simpl in Hlen; lia).
  rewrite fireTimer_exec, Ht.
  set (w1 := tickIndex env t w).
  assert (currentIndex l w1 = next ∧ dispatched w1 = dispatched w) as [Hi1 Hd1].
  { subst w1 next. unfold tickIndex. rewrite Hseq.
    rewrite bool_decide_eq_false_2 by done. fold l.
    rewrite <- Z.rem_mod_nonneg by (rewrite ?Hpool; lia).
    split; by destruct l. }
  set (wB := exec (setupRotationIntervals env) w1).
  destruct (setupRotationIntervals_armed env l w1 Harm Hlen) as (Hlast & _).
  fold wB lines in Hlast.
  assert (currentIndex l wB = next) as HiB
    by (subst wB; by rewrite (preserves_exec _ _ _ (setupRotationIntervals_index env l))).
  assert (0 ≤ next < Z.of_nat (length lines))%Z as Hnext
    by (subst next; rewrite Hpool; apply Z.mod_pos_bound; lia).
  destruct (createActivity_same_pool env l wB Hen Hraw Hlines Hlast) as [Hci _].
  destruct (rotating_text env l wB Hname Hen Hraw Hlines ltac:(lia))
    as (line & _ & Hline & Hact).
  specialize (Hline Hmode). fold lines in Hline.
  rewrite Hlast, (proj2 (poolChanged_false _ _) eq_refl), HiB in Hline.
  rewrite Z.mod_small in Hline by lia.
  destruct (createActivity_returns env wB Hname Hassets) as (act & w3 & Hbuilt).
  split.
  - rewrite (setRpc_enable_exec (currentIndex l)) by (intros; by destruct l).
    fold wB. by rewrite Hci.
  - exists act, line. split; [by rewrite Hpool|]. split; [|by eapply Hact].
    rewrite (setRpc_enable_dispatch env w1 _ _ Hbuilt). by rewrite Hd1.
Qed.

Lemma sequential_tick_publishes_next_line_witness :
  timers armedWorld !! 3%positive = Some (laneTimer (rotEnv 0) Details) ∧
  currentIndex Details armedWorld = 0%Z ∧
  currentIndex Details (exec (fireTimer (rotEnv 1000) 3) armedWorld) = 1%Z ∧
  length (dispatched (exec (fireTimer (rotEnv 1000) 3) armedWorld))
    = S (length (dispatched armedWorld)).
Proof.
  assert (timers armedWorld !! 3%positive = Some (laneTimer (rotEnv 0) Details)) as Ht
    by (vm_compute; reflexivity).
  destruct (sequential_tick_publishes_next_line (rotEnv 1000) 3
              (laneTimer (rotEnv 0) Details) armedWorld)
    as (Hnext & act & line & _ & Hdispatched & _).
  - exact Ht.
  - reflexivity.
  - reflexivity.
  - reflexivity.
  - vm_compute. reflexivity.
  - reflexivity.
  - apply sampleEnv_assetsAnswer.
  - vm_compute. discriminate.
  - split; [exact Ht|]. split; [vm_compute; reflexivity|]. split.
    + cbn [timerLane laneTimer] in Hnext. rewrite Hnext. vm_compute. reflexivity.
    + rewrite Hdispatched, length_app. simpl. lia.
Defined.
(** ** The optional fields of the record *)

(** A property that only the phases up to the buttons can write reaches
    the built record from there, through the pruning loop. *)
Lemma built_lookup env w act w' k :
  createActivity env w = (Returned (Some act), w') →
  k ≠ "assets" → k ≠ "party" → k ≠ "type" →
  ∃ fd fs w2 a1 w3,
    withTimestamps env (withUrl (store env) (baseActivity (store env) fd fs)) w2
      = (Returned a1, w3) ∧
    act !! k =
    match withButtons (store env) (withTextUrls (store env) a1) !! k with
    | Some v => if isEmptyValue v then None else Some v
    | None => None
    end.
Proof.
  intros H Ha Hp Ht. apply createActivity_inv in H as (_ & raw & Hraw & ->).
  destruct (assembled_lookup_buttons _ _ _ _ k Hraw Ha Hp)
    as (a1 & w2 & w3 & fd & fs & E3 & Hk).
  exists fd, fs, w2, a1, w3. split; [exact E3|].
  rewrite prune_lookup, Hk, bool_decide_eq_false_2 by done. simpl.
  destruct (withButtons _ _ !! k) as [v|]; [|done]. by destruct (isEmptyValue v).
Qed.

Lemma baseActivity_lookup_later cfg fd fs k :
  k ∈ laterKeys → baseActivity cfg fd fs !! k = None.
Proof.
  unfold laterKeys. rewrite !elem_of_cons, elem_of_nil.
  intros H. unfold baseActivity.
  repeat (rewrite lookup_insert_ne by (intros <-; repeat destruct H as [H|H]; done)).
  apply lookup_empty.
Qed.

Lemma prune_value_string s :
  (if isEmptyValue (Js.ofString s) then None else Some (Js.ofString s))
  = if Js.truthyStr s then Some (Js.ofString s) else None.
Proof. destruct s as [[|c s]|]; reflexivity. Qed.

(** X6.  Without a timestamp mode, or in mode [NONE], no built record has
    a [timestamps] property, whatever the anchor and the custom instants
    are. *)
Theorem no_timestamps_without_mode env w act w' :
  timestampMode (store env) = None ∨ timestampMode (store env) = Some NONE →
  createActivity env w = (Returned (Some act), w') →
  act !! "timestamps" = None.
Proof.
  intros Hmode H.
  destruct (built_lookup _ _ _ _ "timestamps" H) as (fd & fs & w2 & a1 & w3 & E3 & ->);
    [done..|].
  rewrite withButtons_lookup, withTextUrls_lookup by done.
  assert (a1 = withUrl (store env) (baseActivity (store env) fd fs)) as ->.
  { unfold withTimestamps in E3. destruct Hmode as [Hm | Hm]; rewrite Hm in E3;
      by injection E3 as <- _. }
  rewrite withUrl_lookup, baseActivity_lookup_later; [done | | done].
  unfold laterKeys. set_solver.
Qed.

Lemma no_timestamps_without_mode_witness :
  timestampMode (store plainEnv) = Some NONE ∧
  nowModeStartTime anchoredWorld = Some 1000%Z ∧
  built plainEnv anchoredWorld !! "timestamps" = None.
Proof.
  split; [reflexivity|]. split; [reflexivity|].
  eapply (no_timestamps_without_mode plainEnv anchoredWorld).
  - right. reflexivity.
  - apply builds_run. vm_compute. reflexivity.
Defined.

(** X7.  In mode [TIME] every built record starts counting at local
    midnight: its start instant is the current instant minus the seconds
    of the day so far, computed afresh by every build; the anchor is
    neither read nor written. *)
Theorem time_mode_starts_at_midnight env w act w' :
  timestampMode (store env) = Some TIME →
  createActivity env w = (Returned (Some act), w') →
  act !! "timestamps"
    = Some (VObject {[ "start" :=
         VNumber (Date_now env
                  - (getHours env * 3600 + getMinutes env * 60 + getSeconds env) * 1000) ]}) ∧
  nowModeStartTime w' = nowModeStartTime w.
Proof.
  intros Hmode H. split.
  - destruct (built_lookup _ _ _ _ "timestamps" H) as (fd & fs & w2 & a1 & w3 & E3 & ->);
      [done..|].
    rewrite withButtons_lookup, withTextUrls_lookup by done.
    unfold withTimestamps in E3. rewrite Hmode in E3. injection E3 as <- _.
    rewrite lookup_insert_eq. by rewrite isEmptyValue_object_without_length.
  - eapply preserves_run; [|exact H]. apply createActivity_anchor. by rewrite Hmode.
Qed.

(** X8.  In mode [CUSTOM] the record has a [timestamps] property exactly
    when the start or the end instant is set and non-zero, and the property
    then holds exactly the instants that are: a zero instant counts as
    missing. *)
Theorem custom_mode_keeps_set_instants env w act w' :
  timestampMode (store env) = Some CUSTOM →
  createActivity env w = (Returned (Some act), w') →
  act !! "timestamps"
    = (if Js.truthyNum (startTime (store env)) || Js.truthyNum (endTime (store env))
       then Some (VObject (customTimestamps (store env))) else None) ∧
  customTimestamps (store env) !! "start"
    = (if Js.truthyNum (startTime (store env))
       then Some (Js.ofNumber (startTime (store env))) else None) ∧
  customTimestamps (store env) !! "end"
    = (if Js.truthyNum (endTime (store env))
       then Some (Js.ofNumber (endTime (store env))) else None) ∧
  dom (customTimestamps (store env)) ⊆ {["start"; "end"]}.
Proof.
  intros Hmode H. split; [|split; [|split]].
  - destruct (built_lookup _ _ _ _ "timestamps" H) as (fd & fs & w2 & a1 & w3 & E3 & ->);
      [done..|].
    rewrite withButtons_lookup, withTextUrls_lookup by done.
    unfold withTimestamps in E3. rewrite Hmode in E3.
    destruct (Js.truthyNum (startTime (store env)) || Js.truthyNum (endTime (store env)))
      eqn:Hset; injection E3 as <- _.
    + rewrite lookup_insert_eq. rewrite isEmptyValue_object_without_length; [done|].
      unfold customTimestamps. repeat case_match; by simplify_map_eq.
    + rewrite withUrl_lookup, baseActivity_lookup_later; [done | | done].
      unfold laterKeys. set_solver.
  - unfold customTimestamps. repeat case_match; by simplify_map_eq.
  - unfold customTimestamps. repeat case_match; by simplify_map_eq.
  - unfold customTimestamps. repeat case_match; set_solver.
Qed.
Lemma time_mode_starts_at_midnight_witness :
  timestampMode (store (clockEnv (richSettings (Some TIME)))) = Some TIME ∧
  built (clockEnv (richSettings (Some TIME))) anchoredWorld !! "timestamps"
    = Some (VObject {[ "start" := VNumber 96277000 ]}).
Proof.
  split; [reflexivity|].
  eapply (time_mode_starts_at_midnight (clockEnv (richSettings (Some TIME))) anchoredWorld).
  - reflexivity.
  - apply builds_run. vm_compute. reflexivity.
Defined.

Lemma custom_mode_keeps_set_instants_witness :
  startTime (store (clockEnv (richSettings (Some CUSTOM)))) = Some 0%Z ∧
  endTime (store (clockEnv (richSettings (Some CUSTOM)))) = Some 99%Z ∧
  built (clockEnv (richSettings (Some CUSTOM))) initialWorld !! "timestamps"
    = Some (VObject (customTimestamps (richSettings (Some CUSTOM)))) ∧
  customTimestamps (richSettings (Some CUSTOM)) !! "start" = None ∧
  customTimestamps (richSettings (Some CUSTOM)) !! "end" = Some (VNumber 99).
Proof.
  split; [reflexivity|]. split; [reflexivity|].
  destruct (custom_mode_keeps_set_instants (clockEnv (richSettings (Some CUSTOM)))
              initialWorld (built (clockEnv (richSettings (Some CUSTOM))) initialWorld)
              (exec (createActivity (clockEnv (richSettings (Some CUSTOM)))) initialWorld))
    as (Hts & Hstart & Hend & _).
  - reflexivity.
  - apply builds_run. vm_compute. reflexivity.
  - split; [exact Hts|]. split; [exact Hstart | exact Hend].
Defined.

Lemma withTimestamps_lookup_base env cfg fd fs w2 a1 w3 k :
  withTimestamps env (withUrl cfg (baseActivity cfg fd fs)) w2 = (Returned a1, w3) →
  k ∈ laterKeys → k ≠ "timestamps" → k ≠ "url" → a1 !! k = None.
Proof.
  intros E3 Hk Hts Hurl.
  rewrite (withTimestamps_lookup _ _ _ _ _ _ E3) by done.
  rewrite withUrl_lookup by done. by apply baseActivity_lookup_later.
Qed.

(** X9.  The three links.  A built record has a [url] exactly when the
    type is [STREAMING] and the stream link is non-empty, and it has
    [details_url] and [state_url] exactly when those settings are non-empty,
    whether or not the details or state text itself is published. *)
Theorem links_follow_their_settings env w act w' :
  createActivity env w = (Returned (Some act), w') →
  act !! "url"
    = (if bool_decide (type (store env) = Some ActivityType.STREAMING)
          && Js.truthyStr (streamLink (store env))
       then Some (Js.ofString (streamLink (store env))) else None) ∧
  act !! "details_url"
    = (if Js.truthyStr (detailsURL (store env))
       then Some (Js.ofString (detailsURL (store env))) else None) ∧
  act !! "state_url"
    = (if Js.truthyStr (stateURL (store env))
       then Some (Js.ofString (stateURL (store env))) else None).
Proof.
  intros H. split; [|split].
  - destruct (built_lookup _ _ _ _ "url" H) as (fd & fs & w2 & a1 & w3 & E3 & ->); [done..|].
    rewrite withButtons_lookup, withTextUrls_lookup by done.
    rewrite (withTimestamps_lookup _ _ _ _ _ _ E3) by done.
    unfold withUrl. case_bool_decide; simpl.
    + rewrite lookup_insert_eq. apply prune_value_string.
    + rewrite baseActivity_lookup_later; [done|]. unfold laterKeys. set_solver.
  - destruct (built_lookup _ _ _ _ "details_url" H)
      as (fd & fs & w2 & a1 & w3 & E3 & ->); [done..|].
    rewrite withButtons_lookup by done. unfold withTextUrls.
    pose proof (withTimestamps_lookup_base _ _ _ _ _ _ _ "details_url" E3) as Hnone.
    destruct (Js.truthyStr (detailsURL (store env))) eqn:Hd,
             (Js.truthyStr (stateURL (store env))) eqn:Hs;
      rewrite ?lookup_insert_ne by done; rewrite ?lookup_insert_eq;
      rewrite ?prune_value_string, ?Hd; try done;
      rewrite Hnone; try done; unfold laterKeys; set_solver.
  - destruct (built_lookup _ _ _ _ "state_url" H)
      as (fd & fs & w2 & a1 & w3 & E3 & ->); [done..|].
    rewrite withButtons_lookup by done. unfold withTextUrls.
    pose proof (withTimestamps_lookup_base _ _ _ _ _ _ _ "state_url" E3) as Hnone.
    destruct (Js.truthyStr (detailsURL (store env))) eqn:Hd,
             (Js.truthyStr (stateURL (store env))) eqn:Hs;
      rewrite ?lookup_insert_ne by done; rewrite ?lookup_insert_eq;
      rewrite ?prune_value_string, ?Hs; try done;
      rewrite Hnone; try done; unfold laterKeys; set_solver.
Qed.

Lemma links_follow_their_settings_witness :
  built (clockEnv (richSettings None)) initialWorld !! "url" = Some (VString "http://s") ∧
  built (clockEnv (richSettings None)) initialWorld !! "details_url"
    = Some (VString "http://d") ∧
  built (clockEnv (richSettings None)) initialWorld !! "state_url" = None.
Proof.
  apply (links_follow_their_settings (clockEnv (richSettings None)) initialWorld
           (built (clockEnv (richSettings None)) initialWorld)
           (exec (createActivity (clockEnv (richSettings None))) initialWorld)).
  apply builds_run. vm_compute. reflexivity.
Defined.

(** The labels and the URLs that survive the two filters of lines 272-282. *)
Lemma filtered_pair (a b : option string) :
  filter (λ v, isTruthy v) [Js.ofString a; Js.ofString b]
  = (if Js.truthyStr a then [Js.ofString a] else [])
    ++ (if Js.truthyStr b then [Js.ofString b] else []).
Proof. destruct a as [[|ca sa]|], b as [[|cb sb]|]; reflexivity. Qed.

(** X10.  Buttons hinge on the first label.  Without a first label the
    record has neither [buttons] nor [metadata], whatever the second label
    and the URLs are.  With one, [buttons] lists the non-empty labels in
    order, and [metadata] is always published with the non-empty URLs in
    order, even when that list is empty or shorter than the labels. *)
Theorem buttons_hinge_on_first_label env w act w' :
  createActivity env w = (Returned (Some act), w') →
  if Js.truthyStr (buttonOneText (store env)) then
    act !! "buttons"
      = Some (VArray (Js.ofString (buttonOneText (store env))
                      :: if Js.truthyStr (buttonTwoText (store env))
                         then [Js.ofString (buttonTwoText (store env))] else [])) ∧
    act !! "metadata"
      = Some (VObject {[ "button_urls" :=
           VArray ((if Js.truthyStr (buttonOneURL (store env))
                    then [Js.ofString (buttonOneURL (store env))] else [])
                   ++ (if Js.truthyStr (buttonTwoURL (store env))
                       then [Js.ofString (buttonTwoURL (store env))] else [])) ]})
  else act !! "buttons" = None ∧ act !! "metadata" = None.
Proof.
  intros H.
  destruct (built_lookup _ _ _ _ "buttons" H) as (fd & fs & w2 & a1 & w3 & E3 & Hb); [done..|].
  destruct (built_lookup _ _ _ _ "metadata" H)
    as (fd' & fs' & w2' & a1' & w3' & E3' & Hm); [done..|].
  rewrite Hb, Hm. clear Hb Hm. unfold withButtons.
  destruct (Js.truthyStr (buttonOneText (store env))) eqn:Hone.
  - rewrite lookup_insert_ne by done. rewrite !lookup_insert_eq.
    rewrite !filtered_pair, Hone. simpl.
    by rewrite isEmptyValue_object_without_length.
  - rewrite !withTextUrls_lookup by done.
    rewrite (withTimestamps_lookup_base _ _ _ _ _ _ _ "buttons" E3);
      [|unfold laterKeys; set_solver|done..].
    rewrite (withTimestamps_lookup_base _ _ _ _ _ _ _ "metadata" E3');
      [|unfold laterKeys; set_solver|done..].
    done.
Qed.

Lemma buttons_hinge_on_first_label_witness :
  buttonOneURL (store (clockEnv (richSettings None))) = None ∧
  buttonTwoURL (store (clockEnv (richSettings None))) = None ∧
  built (clockEnv (richSettings None)) initialWorld !! "buttons"
    = Some (VArray [VString "One"; VString "Two"]) ∧
  built (clockEnv (richSettings None)) initialWorld !! "metadata"
    = Some (VObject {[ "button_urls" := VArray [] ]}).
Proof.
  split; [reflexivity|]. split; [reflexivity|].
  apply (buttons_hinge_on_first_label (clockEnv (richSettings None)) initialWorld
           (built (clockEnv (richSettings None)) initialWorld)
           (exec (createActivity (clockEnv (richSettings None))) initialWorld)).
  apply builds_run. vm_compute. reflexivity.
Defined.

(** ** Images, party and the shape of the record *)

Lemma built_inv env w act w' :
  createActivity env w = (Returned (Some act), w') →
  ∃ fd fs w2 a1 w3 a2 w4 a3,
    withTimestamps env (withUrl (store env) (baseActivity (store env) fd fs)) w2
      = (Returned a1, w3) ∧
    withBigImage env (withButtons (store env) (withTextUrls (store env) a1)) w3
      = (Returned a2, w4) ∧
    withSmallImage env a2 w4 = (Returned a3, w') ∧
    act = prune (withParty (store env) a3).
Proof.
  intros H. apply createActivity_inv in H as (_ & raw & Hraw & ->).
  apply assembleActivity_inv in Hraw
    as (fd & w1 & fs & w2 & a1 & w3 & _ & _ & E3 & E).
  unfold finishActivity in E.
  apply bind_returned in E as (a2 & w4 & Hbig & E).
  apply bind_returned in E as (a3 & w5 & Hsmall & E).
  injection E as <- <-.
  by exists fd, fs, w2, a1, w3, a2, w4, a3.
Qed.

Lemma before_images_lookup env cfg fd fs w2 a1 w3 k :
  withTimestamps env (withUrl cfg (baseActivity cfg fd fs)) w2 = (Returned a1, w3) →
  k = "assets" ∨ k = "party" →
  withButtons cfg (withTextUrls cfg a1) !! k = None.
Proof.
  intros E3 Hk.
  rewrite withButtons_lookup, withTextUrls_lookup by (destruct Hk as [-> | ->]; done).
  apply (withTimestamps_lookup_base _ _ _ _ _ _ _ k E3);
    destruct Hk as [-> | ->]; try done; unfold laterKeys; set_solver.
Qed.

(** X11.  A party needs both sizes.  The record has a [party] exactly when
    the party size and the maximum are both set and non-zero, and it is
    then the pair [size, max]. *)
Theorem party_needs_both_sizes env w act w' :
  createActivity env w = (Returned (Some act), w') →
  act !! "party"
    = (if Js.truthyNum (partyMaxSize (store env)) && Js.truthyNum (partySize (store env))
       then Some (VObject {[ "size" := VArray [Js.ofNumber (partySize (store env));
                                               Js.ofNumber (partyMaxSize (store env))] ]})
       else None).
Proof.
  intros H.
  apply built_inv in H as (fd & fs & w2 & a1 & w3 & a2 & w4 & a3 & E3 & Eb & Es & ->).
  rewrite prune_lookup, bool_decide_eq_false_2 by done. unfold withParty.
  destruct (Js.truthyNum (partyMaxSize (store env)) && Js.truthyNum (partySize (store env))).
  - rewrite lookup_insert_eq. simpl. by rewrite isEmptyValue_object_without_length.
  - rewrite (withSmallImage_lookup _ _ _ _ _ _ Es) by done.
    rewrite (withBigImage_lookup _ _ _ _ _ _ Eb) by done.
    rewrite (before_images_lookup _ _ _ _ _ _ _ "party" E3); [done | by right].
Qed.

Lemma party_needs_both_sizes_witness :
  built (clockEnv (richSettings None)) initialWorld !! "party"
    = Some (VObject {[ "size" := VArray [VNumber 2; VNumber 4] ]}) ∧
  built plainEnv initialWorld !! "party" = None.
Proof.
  split.
  - apply (party_needs_both_sizes (clockEnv (richSettings None)) initialWorld _
             (exec (createActivity (clockEnv (richSettings None))) initialWorld)).
    apply builds_run. vm_compute. reflexivity.
  - apply (party_needs_both_sizes plainEnv initialWorld _
             (exec (createActivity plainEnv) initialWorld)).
    apply builds_run. vm_compute. reflexivity.
Defined.

Lemma withBigImage_run env a w a' w' :
  withBigImage env a w = (Returned a', w') →
  assetCalls w' = assetCalls w ++ assetRequest env (imageBig (store env)) ∧
  a' !! "assets" =
    if Js.truthyStr (imageBig (store env))
    then Some (VObject
           (<["large_url" := orUndefined (imageBigURL (store env))]>
           (<["large_text" := orUndefined (imageBigTooltip (store env))]>
           (<["large_image" := assetId env (imageBig (store env))]> ∅))))
    else a !! "assets".
Proof.
  unfold withBigImage, assetRequest, assetId. run_monad.
  destruct (Js.truthyStr (imageBig (store env))).
  - destruct (fetchAssetIds env _ _) as [id|]; intros [= <- <-]; simpl.
    split; [reflexivity | by rewrite lookup_insert_eq].
  - intros [= <- <-]. by rewrite app_nil_r.
Qed.

Lemma withSmallImage_run env a w a' w' :
  withSmallImage env a w = (Returned a', w') →
  assetCalls w' = assetCalls w ++ assetRequest env (imageSmall (store env)) ∧
  a' !! "assets" =
    if Js.truthyStr (imageSmall (store env))
    then Some (VObject
           (<["small_url" := orUndefined (imageSmallURL (store env))]>
           (<["small_text" := orUndefined (imageSmallTooltip (store env))]>
           (<["small_image" := assetId env (imageSmall (store env))]>
              (spread (a !! "assets"))))))
    else a !! "assets".
Proof.
  unfold withSmallImage, assetRequest, assetId. run_monad.
  destruct (Js.truthyStr (imageSmall (store env))).
  - destruct (fetchAssetIds env _ _) as [id|]; intros [= <- <-]; simpl.
    split; [reflexivity | by rewrite lookup_insert_eq].
  - intros [= <- <-]. by rewrite app_nil_r.
Qed.

(** X12.  The two image slots share one [assets] object without
    clobbering each other: the large slot contributes [large_image],
    [large_text] and [large_url], the small slot the three [small_]
    properties, and a slot that is not configured contributes none.
    Without any image the record has no [assets] at all. *)
Theorem image_slots_merge env w act w' :
  createActivity env w = (Returned (Some act), w') →
  let big := Js.truthyStr (imageBig (store env)) in
  let small := Js.truthyStr (imageSmall (store env)) in
  if big || small then
    ∃ assets,
      act !! "assets" = Some (VObject assets) ∧
      assets !! "large_image"
        = (if big then Some (assetId env (imageBig (store env))) else None) ∧
      assets !! "large_text"
        = (if big then Some (orUndefined (imageBigTooltip (store env))) else None) ∧
      assets !! "large_url"
        = (if big then Some (orUndefined (imageBigURL (store env))) else None) ∧
      assets !! "small_image"
        = (if small then Some (assetId env (imageSmall (store env))) else None) ∧
      assets !! "small_text"
        = (if small then Some (orUndefined (imageSmallTooltip (store env))) else None) ∧
      assets !! "small_url"
        = (if small then Some (orUndefined (imageSmallURL (store env))) else None)
  else act !! "assets" = None.
Proof.
  intros H big small.
  apply built_inv in H as (fd & fs & w2 & a1 & w3 & a2 & w4 & a3 & E3 & Eb & Es & ->).
  destruct (withBigImage_run _ _ _ _ _ Eb) as [_ Hb].
  destruct (withSmallImage_run _ _ _ _ _ Es) as [_ Hs].
  rewrite (before_images_lookup _ _ _ _ _ _ _ "assets" E3) in Hb by (by left).
  fold big in Hb. fold small in Hs.
  rewrite prune_lookup, bool_decide_eq_false_2 by done.
  rewrite withParty_lookup by done. rewrite Hs, Hb. clear Hs Hb.
  destruct big, small; simpl.
  - eexists. split; [by rewrite isEmptyValue_object_without_length|].
    repeat split; by simplify_map_eq.
  - eexists. split; [by rewrite isEmptyValue_object_without_length|].
    repeat split; by simplify_map_eq.
  - eexists. split; [by rewrite isEmptyValue_object_without_length|].
    repeat split; by simplify_map_eq.
  - reflexivity.
Qed.

Lemma image_slots_merge_witness :
  ∃ assets,
    built (clockEnv (richSettings None)) initialWorld !! "assets" = Some (VObject assets) ∧
    assets !! "large_image" = Some (VString "id-big") ∧
    assets !! "large_text" = Some (VString "tip") ∧
    assets !! "large_url" = Some VUndefined ∧
    assets !! "small_image" = Some (VString "id-small") ∧
    assets !! "small_text" = Some VUndefined ∧
    assets !! "small_url" = Some (VString "http://i").
Proof.
  apply (image_slots_merge (clockEnv (richSettings None)) initialWorld
           (built (clockEnv (richSettings None)) initialWorld)
           (exec (createActivity (clockEnv (richSettings None))) initialWorld)).
  apply builds_run. vm_compute. reflexivity.
Defined.

Lemma resolveLane_assetCalls env l : preserves assetCalls (resolveLane env l).
Proof. unfold_plugin. frame. Qed.

Lemma withTimestamps_assetCalls env a : preserves assetCalls (withTimestamps env a).
Proof. unfold withTimestamps. frame. Qed.

(** X13.  One request per configured image.  A build that returns a
    record has asked the asset service once for each configured image, the
    large one first, with the [appID] of the store, and has made no other
    request. *)
Theorem one_request_per_image env w act w' :
  createActivity env w = (Returned (Some act), w') →
  assetCalls w' = assetCalls w
                  ++ assetRequest env (imageBig (store env))
                  ++ assetRequest env (imageSmall (store env)).
Proof.
  intros H. apply createActivity_inv in H as (_ & raw & Hraw & _).
  apply assembleActivity_inv in Hraw
    as (fd & w1 & fs & w2 & a1 & w3 & E1 & E2 & E3 & E).
  unfold finishActivity in E.
  apply bind_returned in E as (a2 & w4 & Hbig & E).
  apply bind_returned in E as (a3 & w5 & Hsmall & E).
  injection E as _ <-.
  destruct (withBigImage_run _ _ _ _ _ Hbig) as [Hb _].
  destruct (withSmallImage_run _ _ _ _ _ Hsmall) as [Hs _].
  rewrite Hs, Hb, <- app_assoc. f_equal.
  rewrite (preserves_run _ _ _ _ _ (withTimestamps_assetCalls env _) E3).
  rewrite (preserves_run _ _ _ _ _ (resolveLane_assetCalls env State) E2).
  apply (preserves_run _ _ _ _ _ (resolveLane_assetCalls env Details) E1).
Qed.

Lemma one_request_per_image_witness :
  assetCalls (exec (createActivity (clockEnv (richSettings None))) initialWorld)
    = [(Some "42", "big"); (Some "42", "small")] ∧
  assetCalls (exec (createActivity plainEnv) initialWorld) = [].
Proof.
  split.
  - apply (one_request_per_image (clockEnv (richSettings None)) initialWorld
             (built (clockEnv (richSettings None)) initialWorld)).
    apply builds_run. vm_compute. reflexivity.
  - apply (one_request_per_image plainEnv initialWorld (built plainEnv initialWorld)).
    apply builds_run. vm_compute. reflexivity.
Defined.

(** A build for a store with an application name and an image whose
    request the asset service rejects never returns. *)
Lemma createActivity_rejects env w :
  Js.truthyStr (appName (store env)) = true →
  (Js.truthyStr (imageBig (store env)) = true ∧
   fetchAssetIds env (appID (store env)) (default "" (imageBig (store env))) = None) ∨
  (Js.truthyStr (imageSmall (store env)) = true ∧
   fetchAssetIds env (appID (store env)) (default "" (imageSmall (store env))) = None) →
  (createActivity env w).1 = Thrown.
Proof.
  intros Hname Hrej. rewrite createActivity_named by done.
  destruct (assembleActivity_run env w) as (fd & w1 & fs & w2 & a1 & w3 & _ & _ & _ & E).
  rewrite bind_run, E. unfold finishActivity. rewrite bind_run.
  destruct (withBigImage env _ w3) as [[a2|] w4] eqn:Hbig.
  - rewrite bind_run.
    destruct (withSmallImage env a2 w4) as [[a3|] w5] eqn:Hsmall; [|done].
    exfalso. revert Hbig Hsmall. unfold withBigImage, withSmallImage. run_monad.
    destruct Hrej as [[Hb Hfetch] | [Hs Hfetch]].
    + rewrite Hb, Hfetch. discriminate.
    + rewrite Hs, Hfetch. intros _. discriminate.
  - done.
Qed.

(** X14.  A rejected image request silences the publish.  When the store
    names the application and configures an image whose request the asset
    service rejects, [setRpc] rejects and dispatches nothing, enabling or
    disabling; so [stop] then publishes no [null] either. *)
Theorem rejected_image_publishes_nothing env disable w :
  Js.truthyStr (appName (store env)) = true →
  (Js.truthyStr (imageBig (store env)) = true ∧
   fetchAssetIds env (appID (store env)) (default "" (imageBig (store env))) = None) ∨
  (Js.truthyStr (imageSmall (store env)) = true ∧
   fetchAssetIds env (appID (store env)) (default "" (imageSmall (store env))) = None) →
  (setRpc env disable w).1 = Thrown ∧
  dispatched (exec (setRpc env disable) w) = dispatched w ∧
  dispatched (exec (stop env) w) = dispatched w.
Proof.
  intros Hname Hrej.
  assert (∀ d w0, (setRpc env d w0).1 = Thrown ∧
                  dispatched (exec (setRpc env d) w0) = dispatched w0) as Hrpc.
  { intros d w0.
    assert (∃ w1, (if negb d then setupRotationIntervals env else clearRotationIntervals) w0
                  = (Returned (), w1) ∧ dispatched w1 = dispatched w0) as (w1 & E1 & Hd1).
    { destruct d; simpl.
      - destruct (clearRotationIntervals_returns w0) as [w1 E1]. exists w1.
        split; [done|]. by apply (preserves_run _ _ _ _ _ clearRotationIntervals_dispatched E1).
      - destruct (setupRotationIntervals_run env w0) as (w1 & _ & E). eexists.
        split; [exact E|].
        by apply (preserves_run _ _ _ _ _ (setupRotationIntervals_dispatched env) E). }
    pose proof (createActivity_rejects env w1 Hname Hrej) as Hthrown.
    pose proof (preserves_exec dispatched _ w1 (createActivity_dispatched env)) as Hd2.
    unfold exec in *. unfold setRpc. rewrite bind_run, E1, bind_run.
    destruct (createActivity env w1) as [[r|] w2]; [done|]. simpl in *.
    split; [done | congruence]. }
  split; [apply Hrpc|]. split; [apply Hrpc|].
  rewrite stop_exec. rewrite (proj2 (Hrpc true _)). simpl.
  apply (preserves_exec dispatched), clearRotationIntervals_dispatched.
Qed.

Lemma rejected_image_publishes_nothing_witness :
  Js.truthyStr (imageBig (store (deafEnv (richSettings None)))) = true ∧
  dispatched (exec (stop (deafEnv (richSettings None))) armedWorld) = dispatched armedWorld ∧
  nullCount (exec (stop (deafEnv (richSettings None))) armedWorld) = 0%nat.
Proof.
  split; [reflexivity|].
  destruct (rejected_image_publishes_nothing (deafEnv (richSettings None)) true armedWorld)
    as (_ & _ & Hstop).
  - reflexivity.
  - left. split; reflexivity.
  - split; [exact Hstop|]. unfold nullCount. rewrite Hstop. vm_compute. reflexivity.
Defined.

(** X15.  The shape of a built record.  Its properties are among the
    fourteen the builder knows; [application_id], [name], [type] and
    [flags] are always there, with [name] the application name and [flags]
    equal to 1. *)
Theorem built_record_shape env w act w' :
  createActivity env w = (Returned (Some act), w') →
  dom act ⊆ activityKeys ∧
  is_Some (act !! "application_id") ∧
  act !! "name" = Some (Js.ofString (appName (store env))) ∧
  is_Some (act !! "type") ∧
  act !! "flags" = Some (VNumber 1).
Proof.
  intros H. split.
  - intros k [v Hk]%elem_of_dom.
    destruct (decide (k ∈ activityKeys)) as [|Hnot]; [done|]. exfalso.
    unfold activityKeys in Hnot. rewrite elem_of_list_to_set in Hnot.
    rewrite !not_elem_of_cons in Hnot.
    destruct Hnot as (? & ? & ? & ? & ? & ? & ? & ? & ? & ? & ? & ? & ? & ? & _).
    apply built_inv in H as (fd & fs & w2 & a1 & w3 & a2 & w4 & a3 & E3 & Eb & Es & ->).
    rewrite prune_lookup, withParty_lookup in Hk by done.
    rewrite (withSmallImage_lookup _ _ _ _ _ _ Es) in Hk by done.
    rewrite (withBigImage_lookup _ _ _ _ _ _ Eb) in Hk by done.
    rewrite withButtons_lookup, withTextUrls_lookup in Hk by done.
    rewrite (withTimestamps_lookup _ _ _ _ _ _ E3) in Hk by done.
    rewrite withUrl_lookup in Hk by done. unfold baseActivity in Hk.
    rewrite !lookup_insert_ne in Hk by done. by rewrite lookup_empty in Hk.
  - pose proof H as H'. apply createActivity_inv in H' as (Hname & raw & Hraw & ->).
    assert (∀ k, k ∉ laterKeys → ∃ fd fs, raw !! k = baseActivity (store env) fd fs !! k)
      as Hlit.
    { intros k Hk. destruct (assembled_lookup_literal _ _ _ _ k Hraw Hk)
        as (fd & w1 & fs & w2 & _ & _ & Heq). eauto. }
    repeat split.
    + destruct (Hlit "application_id") as (fd & fs & Heq); [not_later|].
      rewrite prune_lookup, Heq. unfold baseActivity.
      rewrite !lookup_insert_ne by done. rewrite lookup_insert_eq.
      unfold Js.orElse. destruct (appID (store env)) as [[|c s]|]; by eexists.
    + destruct (Hlit "name") as (fd & fs & Heq); [not_later|].
      rewrite prune_lookup, Heq. unfold baseActivity.
      rewrite !lookup_insert_ne by done. rewrite lookup_insert_eq.
      destruct (appName (store env)) as [[|c s]|]; try discriminate. reflexivity.
    + destruct (Hlit "type") as (fd & fs & Heq); [not_later|].
      rewrite prune_lookup, Heq. unfold baseActivity.
      rewrite !lookup_insert_ne by done. rewrite lookup_insert_eq. by eexists.
    + destruct (Hlit "flags") as (fd & fs & Heq); [not_later|].
      rewrite prune_lookup, Heq. unfold baseActivity.
      by rewrite lookup_insert_eq.
Qed.

Lemma built_record_shape_witness :
  built (clockEnv (richSettings None)) initialWorld !! "name" = Some (VString "App") ∧
  built (clockEnv (richSettings None)) initialWorld !! "flags" = Some (VNumber 1) ∧
  dom (built (clockEnv (richSettings None)) initialWorld) ⊆ activityKeys.
Proof.
  destruct (built_record_shape (clockEnv (richSettings None)) initialWorld
              (built (clockEnv (richSettings None)) initialWorld)
              (exec (createActivity (clockEnv (richSettings None))) initialWorld))
    as (Hdom & _ & Hname & _ & Hflags).
  - apply builds_run. vm_compute. reflexivity.
  - split; [exact Hname|]. split; [exact Hflags | exact Hdom].
Defined.

(** ** Publishing and the anchor *)

Lemma setupRotationIntervals_anchor env :
  preserves nowModeStartTime (setupRotationIntervals env).
Proof. unfold_plugin. frame. Qed.

Lemma clearRotationIntervals_anchor : preserves nowModeStartTime clearRotationIntervals.
Proof. unfold_plugin. frame. Qed.

(** The anchor after a build in [NOW] mode: the one held, or else the
    current instant; a build without application name leaves it alone. *)
Lemma createActivity_now_anchor env w :
  timestampMode (store env) = Some NOW →
  nowModeStartTime (exec (createActivity env) w)
  = if Js.truthyStr (appName (store env))
    then anchorFor env (nowModeStartTime w) else nowModeStartTime w.
Proof.
  intros Hmode. destruct (Js.truthyStr (appName (store env))) eqn:Hname.
  - destruct (assembleActivity_run env w)
      as (fd & w1 & fs & w2 & a1 & w3 & E1 & E2 & E3 & E).
    rewrite withTimestamps_now in E3 by done.
    assert (nowModeStartTime w2 = nowModeStartTime w) as Hw2.
    { rewrite (preserves_run _ _ _ _ _ (resolveLane_anchor env State) E2).
      apply (preserves_run _ _ _ _ _ (resolveLane_anchor env Details) E1). }
    rewrite Hw2 in E3. injection E3 as _ Hw3.
    unfold exec. rewrite createActivity_named, bind_run, E by done.
    assert (nowModeStartTime w3 = anchorFor env (nowModeStartTime w)) as <-.
    { subst w3. unfold anchorFor.
      destruct (Js.truthyNum (nowModeStartTime w)); [exact Hw2 | reflexivity]. }
    destruct (finishActivity env _ w3) as [[raw|] w4] eqn:EF; simpl;
      by rewrite (preserves_run _ _ _ _ _ (finishActivity_anchor env _) EF).
  - unfold exec. by rewrite createActivity_nameless.
Qed.

Lemma anchorFor_now env : anchorFor env (Some (Date_now env)) = Some (Date_now env).
Proof. unfold anchorFor. by destruct (Js.truthyNum (Some (Date_now env))). Qed.

(** X16.  A publish without application name.  [setRpc()] then dispatches
    [undefined] (not [null]) as the activity, and it still arms the timer
    of every lane that passes the arming test. *)
Theorem nameless_publish_dispatches_undefined env w :
  Js.truthyStr (appName (store env)) = false →
  dispatched (exec (setRpc env false) w) = dispatched w ++ [PayloadUndefined] ∧
  ∀ l, arms env l = true →
       ∃ h, intervalId l (exec (setRpc env false) w) = Some h ∧
            timers (exec (setRpc env false) w) !! h = Some (laneTimer env l).
Proof.
  intros Hname. split.
  - apply (setRpc_enable_dispatch env w None (exec (setupRotationIntervals env) w)).
    by apply createActivity_nameless.
  - intros l [Harm Hlen%bool_decide_eq_true]%andb_true_iff.
    destruct (setupRotationIntervals_armed env l w Harm Hlen) as (_ & h & Hh & Ht).
    exists h.
    rewrite (setRpc_enable_exec (intervalId l)) by (intros; by destruct l).
    rewrite (setRpc_enable_exec timers) by done.
    rewrite (preserves_exec _ _ _ (createActivity_intervalId env l)).
    by rewrite (preserves_exec _ _ _ (createActivity_timers env)).
Qed.

Lemma nameless_publish_dispatches_undefined_witness :
  Js.truthyStr (appName (store (sampleEnv namelessSettings 0))) = false ∧
  dispatched (exec (setRpc (sampleEnv namelessSettings 0) false) initialWorld)
    = [PayloadUndefined] ∧
  intervalId Details (exec (setRpc (sampleEnv namelessSettings 0) false) initialWorld)
    = Some 1%positive.
Proof.
  split; [reflexivity|].
  destruct (nameless_publish_dispatches_undefined (sampleEnv namelessSettings 0) initialWorld)
    as [Hd _]; [reflexivity|].
  split; [exact Hd | vm_compute; reflexivity].
Defined.

(** X17.  [start] restarts the anchor.  In [NOW] mode, [start] leaves the
    anchor at the instant it was called, whatever anchor was held before. *)
Theorem start_restarts_anchor env w :
  timestampMode (store env) = Some NOW →
  nowModeStartTime (exec (start env) w) = Some (Date_now env).
Proof.
  intros Hmode. rewrite start_exec_anchor.
  rewrite (setRpc_enable_exec nowModeStartTime) by done.
  rewrite createActivity_now_anchor by done.
  rewrite !(preserves_exec _ _ _ (setupRotationIntervals_anchor env)).
  unfold startAnchor. rewrite bool_decide_eq_true_2 by done. simpl.
  rewrite anchorFor_now. by destruct (Js.truthyStr (appName (store env))).
Qed.

Lemma start_restarts_anchor_witness :
  timestampMode (store nowEnv) = Some NOW ∧
  nowModeStartTime anchoredWorld = Some 1000%Z ∧
  nowModeStartTime (exec (start nowEnv) anchoredWorld) = Some 5000%Z.
Proof.
  split; [reflexivity|]. split; [reflexivity|].
  exact (start_restarts_anchor nowEnv anchoredWorld eq_refl).
Defined.

(** X18.  [stop] in [NOW] mode.  [stop] sets the anchor to [null] and then
    runs [setRpc(true)], whose build sets it again: with an application
    name the anchor after [stop] is the instant of the stop, and it is
    [null] only without one. *)
Theorem stop_in_now_mode_sets_anchor env w :
  timestampMode (store env) = Some NOW →
  nowModeStartTime (exec (stop env) w)
  = if Js.truthyStr (appName (store env)) then Some (Date_now env) else None.
Proof.
  intros Hmode. rewrite stop_exec.
  rewrite (setRpc_disable_exec nowModeStartTime) by done.
  rewrite createActivity_now_anchor by done.
  rewrite (preserves_exec _ _ _ clearRotationIntervals_anchor). simpl.
  reflexivity.
Qed.

Lemma stop_in_now_mode_sets_anchor_witness :
  timestampMode (store nowEnv) = Some NOW ∧
  nowModeStartTime (exec (stop nowEnv) anchoredWorld) = Some 5000%Z.
Proof.
  split; [reflexivity|].
  exact (stop_in_now_mode_sets_anchor nowEnv anchoredWorld eq_refl).
Defined.

Lemma built_now_timestamps env w act w' :
  timestampMode (store env) = Some NOW →
  createActivity env w = (Returned (Some act), w') →
  act !! "timestamps"
    = Some (VObject {[ "start" := Js.ofNumber (anchorFor env (nowModeStartTime w)) ]}).
Proof.
  intros Hmode H. apply createActivity_inv in H as (_ & raw & Hraw & ->).
  apply assembleActivity_inv in Hraw
    as (fd & w1 & fs & w2 & a1 & w3 & E1 & E2 & E3 & E).
  rewrite withTimestamps_now in E3 by done. injection E3 as <- _.
  rewrite prune_lookup, (finishActivity_lookup _ _ _ _ _ _ E) by done.
  rewrite withButtons_lookup, withTextUrls_lookup by done.
  rewrite lookup_insert_eq. simpl.
  rewrite isEmptyValue_object_without_length by done.
  rewrite (preserves_run _ _ _ _ _ (resolveLane_anchor env State) E2).
  by rewrite (preserves_run _ _ _ _ _ (resolveLane_anchor env Details) E1).
Qed.

Lemma anchorFor_truthy env held :
  Js.truthyNum held = true → anchorFor env held = held.
Proof. intros H. unfold anchorFor. by rewrite H. Qed.

Lemma anchorFor_is_truthy env held :
  Date_now env ≠ 0%Z → Js.truthyNum (anchorFor env held) = true.
Proof.
  intros Hnow. unfold anchorFor. destruct (Js.truthyNum held) eqn:Hheld; [done|].
  unfold Js.truthyNum. simpl. by destruct (Z.eqb_spec (Date_now env) 0).
Qed.

(** X19.  The anchor is stable across builds.  In [NOW] mode, two builds
    in a row publish the same start instant, however much later the second
    one runs, provided the first one ran at a non-zero instant. *)
Theorem anchor_stable_across_builds env1 env2 w act1 w1 act2 w2 :
  timestampMode (store env1) = Some NOW →
  timestampMode (store env2) = Some NOW →
  Date_now env1 ≠ 0%Z →
  createActivity env1 w = (Returned (Some act1), w1) →
  createActivity env2 w1 = (Returned (Some act2), w2) →
  act2 !! "timestamps" = act1 !! "timestamps" ∧
  nowModeStartTime w2 = nowModeStartTime w1.
Proof.
  intros Hm1 Hm2 Hnow H1 H2.
  pose proof (createActivity_now_anchor env1 w Hm1) as Ha1.
  pose proof (createActivity_now_anchor env2 w1 Hm2) as Ha2.
  unfold exec in Ha1, Ha2. rewrite H1 in Ha1. rewrite H2 in Ha2. simpl in Ha1, Ha2.
  destruct (createActivity_inv _ _ _ _ H1) as (Hn1 & _).
  destruct (createActivity_inv _ _ _ _ H2) as (Hn2 & _).
  rewrite Hn1 in Ha1. rewrite Hn2 in Ha2.
  assert (anchorFor env2 (nowModeStartTime w1) = nowModeStartTime w1) as Hkeep.
  { apply anchorFor_truthy. rewrite Ha1. by apply anchorFor_is_truthy. }
  split.
  - rewrite (built_now_timestamps _ _ _ _ Hm2 H2), (built_now_timestamps _ _ _ _ Hm1 H1).
    by rewrite Hkeep, Ha1.
  - by rewrite Ha2.
Qed.

Lemma anchor_stable_across_builds_witness :
  Date_now nowEnv = 5000%Z ∧
  Date_now (sampleEnv (plainSettings (Some NOW)) 9000) = 9000%Z ∧
  built (sampleEnv (plainSettings (Some NOW)) 9000)
        (exec (createActivity nowEnv) initialWorld) !! "timestamps"
    = built nowEnv initialWorld !! "timestamps".
Proof.
  split; [reflexivity|]. split; [reflexivity|].
  eapply (anchor_stable_across_builds nowEnv (sampleEnv (plainSettings (Some NOW)) 9000)
            initialWorld).
  - reflexivity.
  - reflexivity.
  - simpl. discriminate.
  - apply builds_run. vm_compute. reflexivity.
  - apply builds_run. vm_compute. reflexivity.
Defined.

(** ** Line pools, again *)

Lemma split_nl_nonempty s : Js.split_nl s ≠ [].
Proof. destruct s as [|c s]; simpl; [done|]. case_bool_decide; [done|]. by case_match. Qed.

Lemma split_nl_noBreak a : noBreak a = true → Js.split_nl a = [a].
Proof.
  induction a as [|c a IH]; simpl; [done|].
  rewrite andb_true_iff, negb_true_iff, bool_decide_eq_false. intros [Hc Ha].
  rewrite bool_decide_eq_false_2 by done. by rewrite IH.
Qed.

Lemma split_nl_join a rest :
  noBreak a = true → Js.split_nl (a +:+ nl +:+ rest) = a :: Js.split_nl rest.
Proof.
  induction a as [|c a IH]; simpl.
  - intros _. reflexivity.
  - rewrite andb_true_iff, negb_true_iff, bool_decide_eq_false. intros [Hc Ha].
    rewrite bool_decide_eq_false_2 by done. by rewrite IH.
Qed.

Lemma split_nl_joinLines lines :
  Forall (λ line, noBreak line = true) lines →
  Js.split_nl (joinLines lines) = if lines is [] then [""] else lines.
Proof.
  induction 1 as [|line rest Hline Hrest IH]; [done|].
  destruct rest as [|line' rest'].
  - simpl. by apply split_nl_noBreak.
  - change (joinLines (line :: line' :: rest'))
      with (line +:+ nl +:+ joinLines (line' :: rest')).
    rewrite split_nl_join by done. by rewrite IH.
Qed.

Lemma split_nl_pieces s : Forall (λ line, noBreak line = true) (Js.split_nl s).
Proof.
  induction s as [|c s IH]; simpl; [by repeat constructor|].
  case_bool_decide as Hc; [by constructor|].
  pose proof (split_nl_nonempty s) as Hne.
  destruct (Js.split_nl s) as [|piece pieces]; [done|].
  inversion IH; subst. constructor; [|done]. simpl.
  by rewrite bool_decide_eq_false_2.
Qed.

(** X20.  Splitting and joining lines are inverse to each other.  The
    text of a box splits into pieces without line break, and joining the
    pieces with line breaks gives the text back; conversely a non-empty list
    of lines without line breaks, joined, splits into the same lines.  So
    the pool parsed from lines entered one per row is exactly the non-blank
    ones among them, in order. *)
Theorem lines_round_trip :
  (∀ raw, joinLines (Js.split_nl raw) = raw ∧
          Forall (λ line, noBreak line = true) (Js.split_nl raw)) ∧
  (∀ lines, Forall (λ line, noBreak line = true) lines → lines ≠ [] →
            Js.split_nl (joinLines lines) = lines) ∧
  (∀ lines, Forall (λ line, noBreak line = true) lines →
            parseLines (joinLines lines) = filter (λ line, Js.trim line ≠ "") lines).
Proof.
  split; [|split].
  - intros raw. split; [|apply split_nl_pieces].
    induction raw as [|c raw IH]; simpl; [done|].
    case_bool_decide as Hc.
    + subst c. pose proof (split_nl_nonempty raw) as Hne.
      destruct (Js.split_nl raw) as [|piece pieces] eqn:E; [done|].
      change (joinLines ("" :: piece :: pieces))
        with ("" +:+ nl +:+ joinLines (piece :: pieces)).
      by rewrite IH.
    + pose proof (split_nl_nonempty raw) as Hne.
      destruct (Js.split_nl raw) as [|piece pieces] eqn:E; [done|].
      rewrite <- IH. by destruct pieces.
  - intros lines Hlines Hne. rewrite split_nl_joinLines by done. by destruct lines.
  - intros lines Hlines. unfold parseLines. rewrite split_nl_joinLines by done.
    by destruct lines.
Qed.

(** X21.  Parsed pools are clean: every line of a parsed pool has text
    other than white space and contains no line break, and it is one of
    the pieces of the raw text. *)
Theorem parsed_lines_are_clean raw line :
  line ∈ parseLines raw →
  Js.trim line ≠ "" ∧ line ≠ "" ∧ noBreak line = true ∧ line ∈ Js.split_nl raw.
Proof.
  intros Hline. split; [|split; [|split]].
  - unfold parseLines in Hline. by apply list_elem_of_filter in Hline as [? _].
  - by eapply parseLines_nonblank.
  - unfold parseLines in Hline. apply list_elem_of_filter in Hline as [_ Hin].
    pose proof (split_nl_pieces raw) as Hall. rewrite Forall_forall in Hall.
    by apply Hall.
  - unfold parseLines in Hline. by apply list_elem_of_filter in Hline as [_ ?].
Qed.

Lemma parsed_lines_are_clean_witness :
  " b " ∈ parseLines ("a" +:+ nl +:+ "  " +:+ nl +:+ nl +:+ " b ") ∧
  parseLines ("a" +:+ nl +:+ "  " +:+ nl +:+ nl +:+ " b ") = ["a"; " b "] ∧
  noBreak " b " = true.
Proof.
  assert (" b " ∈ parseLines ("a" +:+ nl +:+ "  " +:+ nl +:+ nl +:+ " b ")) as Hin.
  { vm_compute. apply list_elem_of_further, list_elem_of_here. }
  split; [exact Hin|]. split; [vm_compute; reflexivity|].
  by destruct (parsed_lines_are_clean _ _ Hin) as (_ & _ & Hclean & _).
Defined.

(** X22.  The change test of the builder,
    [last.length !== lines.length || !last.every((v, i) => v === lines[i])],
    holds exactly when the two pools differ as lists. *)
Theorem pool_change_test_is_inequality last lines :
  poolChanged last lines = true ↔ last ≠ lines.
Proof.
  split.
  - intros Hchanged Heq. apply (proj2 (poolChanged_false last lines)) in Heq. congruence.
  - intros Hne. destruct (poolChanged last lines) eqn:E; [done|].
    by apply poolChanged_false in E.
Qed.

Lemma lines_round_trip_witness :
  Forall (λ line, noBreak line = true) ["a"; "  "; ""; " b "] ∧
  parseLines (joinLines ["a"; "  "; ""; " b "]) = ["a"; " b "].
Proof.
  assert (Forall (λ line, noBreak line = true) ["a"; "  "; ""; " b "]) as Hall
    by (repeat constructor).
  split; [exact Hall|].
  destruct lines_round_trip as (_ & _ & Hparse).
  rewrite (Hparse _ Hall). vm_compute. reflexivity.
Defined.

(** ** Lanes that do not rotate *)

(** X23.  A lane gets a timer exactly when it passes the arming test and
    has more than one non-blank line.  After a publish at any point of a
    run, a lane holds a timer if and only if its mode is enabled, its pool
    text is non-empty, its interval is a positive number and its parsed pool
    has at least two lines; a disabled mode, a single line or a missing or
    non-positive interval leave the lane idle. *)
Theorem lane_armed_iff_test_passes (evs : list (Env * Event)) env l :
  is_Some (intervalId l (exec (setRpc env false) (run evs initialWorld)))
  ↔ (modeEnabled (randomMode l (store env)) = true ∧
     Js.truthyStr (randomLines l (store env)) = true ∧
     (∃ seconds, randomInterval l (store env) = Some seconds ∧ (0 < seconds)%Z) ∧
     (1 < length (parseLines (default "" (randomLines l (store env)))))%nat).
Proof.
  pose proof (wellFormed_run evs initialWorld wellFormed_initial) as (Howned & _ & _).
  set (w := run evs initialWorld) in *.
  assert (intervalId l (exec (setRpc env false) w)
          = intervalId l (exec (setupRotationIntervals env) w)) as ->.
  { rewrite (setRpc_enable_exec (intervalId l)) by (intros; by destruct l).
    apply (preserves_exec (intervalId l)), createActivity_intervalId. }
  assert (is_Some (intervalId l (exec (setupRotationIntervals env) w))
          ↔ arms env l = true) as ->.
  { pose proof (setupRotationIntervals_view env w Howned) as Hview.
    cbv zeta in Hview. unfold timerView in Hview.
    destruct (arms env Details) eqn:Ad, (arms env State) eqn:As;
      injection Hview as _ Hd Hs _; destruct l; simpl; rewrite ?Hd, ?Hs, ?Ad, ?As;
      split; (done || by intros [? [=]] || by eexists). }
  unfold arms, canArm. rewrite !andb_true_iff, !bool_decide_eq_true.
  split.
  - intros [[[[Hm Hl] Hi] Hpos] Hlen]. repeat split; try done.
    destruct (randomInterval l (store env)) as [seconds|]; [by exists seconds | done].
  - intros (Hm & Hl & (seconds & Hsec & Hpos) & Hlen). rewrite Hsec. simpl.
    repeat split; try done. unfold Js.truthyNum. simpl.
    destruct (Z.eqb_spec seconds 0); [lia | done].
Qed.

Lemma resolveLane_static env l w :
  modeEnabled (randomMode l (store env)) = false ∨
  Js.truthyStr (randomLines l (store env)) = false ∨
  parseLines (default "" (randomLines l (store env))) = [] →
  resolveLane env l w = (Returned (staticText l (store env)), w).
Proof.
  intros Hoff. unfold resolveLane.
  destruct (modeEnabled (randomMode l (store env))) eqn:Hm; [|done].
  destruct (Js.truthyStr (randomLines l (store env))) eqn:Hr; [|done]. simpl.
  destruct Hoff as [? | [? | ->]]; done.
Qed.

(** X24.  A lane that does not rotate publishes its static text.  When a
    lane's mode is disabled or unset, its pool text is empty, or the pool
    has no non-blank line, a build publishes the lane's static text, or
    leaves the property out when that text is empty or missing; and it
    leaves the lane's index and recorded pool alone. *)
Theorem idle_lane_publishes_static_text env l w act w' :
  modeEnabled (randomMode l (store env)) = false ∨
  Js.truthyStr (randomLines l (store env)) = false ∨
  parseLines (default "" (randomLines l (store env))) = [] →
  createActivity env w = (Returned (Some act), w') →
  act !! laneKey l
    = (if Js.truthyStr (staticText l (store env))
       then Some (Js.ofString (staticText l (store env))) else None) ∧
  currentIndex l w' = currentIndex l w ∧
  lastLines l w' = lastLines l w.
Proof.
  intros Hoff H.
  destruct (createActivity_inv _ _ _ _ H) as (Hname & _).
  destruct (lane_resolution env l w Hname)
    as (wb & r & wa & Hlast & Hidx & E & Hi & Hl & Hact).
  rewrite resolveLane_static in E by done. injection E as <- <-.
  unfold exec in Hi, Hl. rewrite H in Hi, Hl. simpl in Hi, Hl.
  split; [|split; congruence].
  rewrite (Hact act w' H). apply prune_value_string.
Qed.

Lemma idle_lane_publishes_static_text_witness :
  staticText State (store plainEnv) = Some "idle" ∧
  staticText Details (store plainEnv) = Some "" ∧
  built plainEnv staleWorld !! "state" = Some (VString "idle") ∧
  built plainEnv staleWorld !! "details" = None ∧
  currentIndex Details (exec (createActivity plainEnv) staleWorld) = 2%Z.
Proof.
  assert (createActivity plainEnv staleWorld
          = (Returned (Some (built plainEnv staleWorld)),
             exec (createActivity plainEnv) staleWorld)) as H
    by (apply builds_run; vm_compute; reflexivity).
  destruct (idle_lane_publishes_static_text plainEnv State staleWorld _ _
              ltac:(right; left; reflexivity) H) as (Hs & _ & _).
  destruct (idle_lane_publishes_static_text plainEnv Details staleWorld _ _
              ltac:(right; left; reflexivity) H) as (Hd & Hi & _).
  split; [reflexivity|]. split; [reflexivity|].
  split; [exact Hs|]. split; [exact Hd|]. rewrite Hi. reflexivity.
Defined.

(** ** The plugin before rotation *)

Lemma withTimestamps_outside_now env a w :
  timestampMode (store env) ≠ Some NOW →
  withTimestamps env a w = (Returned (Legacy.withTimestamps env a), w).
Proof.
  intros Hmode. unfold withTimestamps, Legacy.withTimestamps.
  destruct (timestampMode (store env)) as [[]|]; try done.
  by destruct (Js.truthyNum (startTime (store env)) || Js.truthyNum (endTime (store env))).
Qed.

(** X25.  Rotation is a conservative extension.  For a store that rotates
    neither lane (each lane's mode is off, or its pool has no non-blank
    line) and is not in [NOW] mode, the builder of [index.tsx] and the
    builder of the plugin before rotation return the same outcome and leave
    the same world, whatever the world was. *)
Theorem build_agrees_with_legacy_without_rotation env w :
  modeEnabled (detailsRandomMode (store env)) = false ∨
  Js.truthyStr (detailsRandomLines (store env)) = false ∨
  parseLines (default "" (detailsRandomLines (store env))) = [] →
  Js.truthyStr (stateRandomLines (store env)) = false ∨
  parseLines (default "" (stateRandomLines (store env))) = [] →
  timestampMode (store env) ≠ Some NOW →
  createActivity env w = Legacy.createActivity env w.
Proof.
  intros Hdetails Hstate Hmode.
  unfold createActivity, Legacy.createActivity.
  destruct (Js.truthyStr (appName (store env))); simpl; [|done].
  assert (Legacy.resolveState env w = (Returned (state (store env)), w)) as HL.
  { unfold Legacy.resolveState.
    destruct (Js.truthyStr (stateRandomLines (store env))) eqn:Hs; [|done].
    destruct Hstate as [? | ->]; done. }
  rewrite !bind_run, HL. unfold assembleActivity.
  rewrite bind_run, (resolveLane_static env Details w) by done.
  rewrite bind_run, (resolveLane_static env State w) by tauto.
  rewrite bind_run, withTimestamps_outside_now by done.
  reflexivity.
Qed.

Lemma build_agrees_with_legacy_without_rotation_witness :
  timestampMode (store plainEnv) = Some NONE ∧
  stateRandomLines (store plainEnv) = None ∧
  createActivity plainEnv staleWorld = Legacy.createActivity plainEnv staleWorld.
Proof.
  split; [reflexivity|]. split; [reflexivity|].
  apply (build_agrees_with_legacy_without_rotation plainEnv staleWorld).
  - right. left. reflexivity.
  - left. reflexivity.
  - simpl. discriminate.
Defined.

Lemma legacy_createActivity_inv env w act w' :
  Legacy.createActivity env w = (Returned (Some act), w') →
  ∃ fs w1 raw,
    Legacy.resolveState env w = (Returned fs, w1) ∧
    finishActivity env
      (withButtons (store env)
         (withTextUrls (store env)
            (Legacy.withTimestamps env
               (withUrl (store env) (baseActivity (store env) (details (store env)) fs)))))
      w1 = (Returned raw, w') ∧
    act = prune raw.
Proof.
  unfold Legacy.createActivity.
  destruct (Js.truthyStr (appName (store env))); simpl; [|discriminate].
  intros H. apply bind_returned in H as (fs & w1 & Hs & H).
  apply bind_returned in H as (raw & w2 & Hraw & H).
  injection H as <- <-. by exists fs, w1, raw.
Qed.

(** X26.  Before the anchor, [NOW] mode restarted the clock at every
    build: the plugin before rotation stamps each built record with the
    instant of that build, so two builds at different instants publish
    different start instants. *)
Theorem legacy_now_mode_stamps_each_build env w act w' :
  timestampMode (store env) = Some NOW →
  Legacy.createActivity env w = (Returned (Some act), w') →
  act !! "timestamps" = Some (VObject {[ "start" := VNumber (Date_now env) ]}).
Proof.
  intros Hmode H.
  apply legacy_createActivity_inv in H as (fs & w1 & raw & _ & Hraw & ->).
  rewrite prune_lookup, (finishActivity_lookup _ _ _ _ _ _ Hraw) by done.
  rewrite withButtons_lookup, withTextUrls_lookup by done.
  unfold Legacy.withTimestamps. rewrite Hmode, lookup_insert_eq. simpl.
  by rewrite isEmptyValue_object_without_length.
Qed.

Lemma legacy_builds_run env w :
  match (Legacy.createActivity env w).1 with
  | Returned (Some _) => true
  | _ => false
  end = true →
  Legacy.createActivity env w
  = (Returned (Some (default ∅ (returned None (Legacy.createActivity env w).1))),
     (Legacy.createActivity env w).2).
Proof. destruct (Legacy.createActivity env w) as [[[act|]|] w']; simpl; congruence. Qed.

Lemma legacy_now_mode_stamps_each_build_witness :
  timestampMode (store nowEnv) = Some NOW ∧
  nowModeStartTime anchoredWorld = Some 1000%Z ∧
  default ∅ (returned None (Legacy.createActivity nowEnv anchoredWorld).1) !! "timestamps"
    = Some (VObject {[ "start" := VNumber 5000 ]}).
Proof.
  split; [reflexivity|]. split; [reflexivity|].
  apply (legacy_now_mode_stamps_each_build nowEnv anchoredWorld _
           (Legacy.createActivity nowEnv anchoredWorld).2); [reflexivity|].
  apply legacy_builds_run. vm_compute. reflexivity.
Defined.

(** ** Replacing a pool while the plugin runs *)

(** X27.  A publish keeps the index of every lane it arms.  [setRpc()]
    records the current pool of an armed lane before it builds, so the
    build finds the pool unchanged: the lane's index is not reset, even when
    the pool in the store has just been replaced, and the recorded pool is
    the new one. *)
Theorem publish_keeps_index_of_armed_lane env l w :
  arms env l = true →
  currentIndex l (exec (setRpc env false) w) = currentIndex l w ∧
  lastLines l (exec (setRpc env false) w)
    = parseLines (default "" (randomLines l (store env))).
Proof.
  intros [Harm Hlen%bool_decide_eq_true]%andb_true_iff.
  destruct (canArm_enabled _ _ Harm) as [Hmode Hraw].
  assert (parseLines (default "" (randomLines l (store env))) ≠ []) as Hlines
    by (intros Hnil; rewrite Hnil in Hlen; simpl in Hlen; lia).
  destruct (setupRotationIntervals_armed env l w Harm Hlen) as (Hlast & _).
  destruct (createActivity_same_pool env l _ Hmode Hraw Hlines Hlast) as [Hci Hcl].
  rewrite (setRpc_enable_exec (currentIndex l)) by (intros; by destruct l).
  rewrite (setRpc_enable_exec (lastLines l)) by (intros; by destruct l).
  rewrite Hci, Hcl, Hlast.
  split; [|done]. apply (preserves_exec (currentIndex l)), setupRotationIntervals_index.
Qed.

Lemma publish_keeps_index_of_armed_lane_witness :
  arms shrunkEnv Details = true ∧
  currentIndex Details staleWorld = 2%Z ∧
  lastLines Details staleWorld = ["a"; "b"; "c"] ∧
  currentIndex Details (exec (setRpc shrunkEnv false) staleWorld) = 2%Z ∧
  lastLines Details (exec (setRpc shrunkEnv false) staleWorld) = ["x"; "y"].
Proof.
  assert (arms shrunkEnv Details = true) as Harms by (vm_compute; reflexivity).
  split; [exact Harms|]. split; [reflexivity|]. split; [reflexivity|].
  destruct (publish_keeps_index_of_armed_lane shrunkEnv Details staleWorld Harms)
    as [Hindex Hpool].
  split; [by rewrite Hindex|]. rewrite Hpool. vm_compute. reflexivity.
Defined.
